(** * Nutanix cluster manager: the query / presentation engine

    A shallow embedding of the two React components of the console
    ([DataExplorer] and [ClusterManager], both in
    [src/components/DataExplorer.tsx]), of [types.ts] and [constants.ts],
    and the properties of the specification established on it.

    Conventions of the embedding:
    - every [useState] cell is a field of the component's state record and
      every setter a pure update of that field;
    - an [async] function is cut at its [await]: the part before it issues
      the request, the part after it is a function of the outcome;
    - what the JavaScript runtime or the environment supplies (the
      calendar, the locale, [JSON.parse], the backend) is a field of the
      classes [Runtime] and [Platform], and a reading of the clock an
      argument of the function that takes it. *)

From Stdlib Require Import QArith.Qcanon Strings.Ascii.
From stdpp Require Import base option list strings gmap sets numbers pretty.

(** ** JavaScript values held by a row *)

Module Js.

(** The scalars a [DataRow] holds ([string | number | boolean]), and the
    [null] that JSON may deliver in their place.  Numbers coming out of
    JSON are finite; they are read as rationals, on which the sign of a
    difference is the sign of the difference of the doubles. *)
Inductive Value :=
| Null
| Str (s : string)
| Num (q : Qc)
| Boolean (b : bool).

#[global] Instance Value_eq_dec : EqDecision Value.
Proof. solve_decision. Defined.

(** A property read [row[k]]: [None] is [undefined]. *)
Definition isNullish (v : option Value) : bool :=
  match v with
  | None | Some Null => true
  | Some _ => false
  end.

(** ToBoolean. *)
Definition truthy (v : Value) : bool :=
  match v with
  | Null => false
  | Str s => negb (String.eqb s "")
  | Num q => negb (bool_decide (q = 0%Qc))
  | Boolean b => b
  end.

Definition truthyOpt (v : option Value) : bool :=
  match v with
  | None => false
  | Some v => truthy v
  end.

Definition truthyStr (s : string) : bool := negb (String.eqb s "").

(** [a || b] on strings. *)
Definition orStr (a b : string) : string := if truthyStr a then a else b.

Definition isNumber (v : Value) : bool :=
  match v with
  | Num _ => true
  | _ => false
  end.

(** [String(n).padStart(2, '0')] for the digits [s] of [n]. *)
Definition padStart2 (s : string) : string :=
  match String.length s with
  | 0 => "00" +:+ s
  | 1 => "0" +:+ s
  | _ => s
  end.

(** [s.split(c)[0]]: the text before the first occurrence of [c]. *)
Fixpoint beforeFirst (c : Ascii.ascii) (s : string) : string :=
  match s with
  | EmptyString => EmptyString
  | String a rest => if Ascii.eqb a c then EmptyString else String a (beforeFirst c rest)
  end.

End Js.

(** ** types.ts *)

Inductive ClusterType := PE | PC.
Inductive ApiVersion := V2_0 | V4_0.

#[global] Instance ClusterType_eq_dec : EqDecision ClusterType.
Proof. solve_decision. Defined.
#[global] Instance ApiVersion_eq_dec : EqDecision ApiVersion.
Proof. solve_decision. Defined.

Module ClusterConfig.
Record t := {
  id : string;
  name : string;
  ip : string;
  username : string;
  password : string;
  isVerified : bool;
  type : ClusterType;
  apiVersion : ApiVersion;
}.

#[global] Instance eq_dec : EqDecision t.
Proof. solve_decision. Defined.
End ClusterConfig.

Inductive Category := VM | Hardware | Performance | Resources.

#[global] Instance Category_eq_dec : EqDecision Category.
Proof. solve_decision. Defined.

Definition Category_name (c : Category) : string :=
  match c with
  | VM => "VM"
  | Hardware => "Hardware"
  | Performance => "Performance"
  | Resources => "Resources"
  end.

Module ColumnDefinition.
Record t := { key : string; label : string }.
End ColumnDefinition.

(** [DataRow]: an open mapping from column key to scalar. *)
Abbreviation DataRow := (gmap string Js.Value).

(** ** constants.ts *)

Definition CATEGORIES : list Category := [VM; Hardware; Performance; Resources].

Definition FIELD_DEFINITIONS (c : Category) : list ColumnDefinition.t :=
  match c with
  | VM =>
      [ {| ColumnDefinition.key := "clusterName"; ColumnDefinition.label := "Cluster Name" |};
        {| ColumnDefinition.key := "name"; ColumnDefinition.label := "VM Name" |};
        {| ColumnDefinition.key := "uuid"; ColumnDefinition.label := "UUID" |};
        {| ColumnDefinition.key := "powerState"; ColumnDefinition.label := "Power State" |};
        {| ColumnDefinition.key := "macAddress"; ColumnDefinition.label := "MAC Address" |};
        {| ColumnDefinition.key := "ipAddresses"; ColumnDefinition.label := "IP Addresses" |};
        {| ColumnDefinition.key := "vDisk"; ColumnDefinition.label := "vDisk" |};
        {| ColumnDefinition.key := "numVcpus"; ColumnDefinition.label := "vCPUs" |};
        {| ColumnDefinition.key := "memoryMb"; ColumnDefinition.label := "Memory (MB)" |} ]
  | Hardware =>
      [ {| ColumnDefinition.key := "hostName"; ColumnDefinition.label := "Host Name" |};
        {| ColumnDefinition.key := "serial"; ColumnDefinition.label := "Serial" |};
        {| ColumnDefinition.key := "model"; ColumnDefinition.label := "Model" |};
        {| ColumnDefinition.key := "cpuModel"; ColumnDefinition.label := "CPU Model" |};
        {| ColumnDefinition.key := "numCores"; ColumnDefinition.label := "Cores" |};
        {| ColumnDefinition.key := "memoryCapacity"; ColumnDefinition.label := "Memory (GB)" |};
        {| ColumnDefinition.key := "blockSerial"; ColumnDefinition.label := "Block Serial" |};
        {| ColumnDefinition.key := "disk"; ColumnDefinition.label := "Disk" |};
        {| ColumnDefinition.key := "diskModel"; ColumnDefinition.label := "Disk Model" |} ]
  | Performance =>
      [ {| ColumnDefinition.key := "entityName"; ColumnDefinition.label := "Entity Name" |};
        {| ColumnDefinition.key := "iops"; ColumnDefinition.label := "IOPS" |};
        {| ColumnDefinition.key := "latency"; ColumnDefinition.label := "Latency (ms)" |};
        {| ColumnDefinition.key := "bandwidth"; ColumnDefinition.label := "Bandwidth" |};
        {| ColumnDefinition.key := "cpuUsage"; ColumnDefinition.label := "CPU Usage (%)" |};
        {| ColumnDefinition.key := "memoryUsage"; ColumnDefinition.label := "Memory Usage (%)" |} ]
  | Resources =>
      [ {| ColumnDefinition.key := "hostName"; ColumnDefinition.label := "Host name" |};
        {| ColumnDefinition.key := "vmCount"; ColumnDefinition.label := "VM Count" |};
        {| ColumnDefinition.key := "numaOver"; ColumnDefinition.label := "NUMA over" |};
        {| ColumnDefinition.key := "metric1"; ColumnDefinition.label := "Metric 1" |};
        {| ColumnDefinition.key := "metric2"; ColumnDefinition.label := "Metric 2" |};
        {| ColumnDefinition.key := "metric3"; ColumnDefinition.label := "Metric 3" |};
        {| ColumnDefinition.key := "metric4"; ColumnDefinition.label := "Metric 4" |};
        {| ColumnDefinition.key := "result"; ColumnDefinition.label := "Result" |} ]
  end.

Definition DEFAULT_FIELDS (c : Category) : list string :=
  match c with
  | VM => ["clusterName"; "name"; "powerState"]
  | Hardware =>
      ["hostName"; "serial"; "model"; "cpuModel"; "numCores"; "memoryCapacity"; "disk"]
  | Performance =>
      ["entityName"; "iops"; "bandwidth"; "latency"; "cpuUsage"; "memoryUsage"]
  | Resources =>
      ["hostName"; "vmCount"; "numaOver"; "metric1"; "metric2"; "metric3"; "metric4"; "result"]
  end.

(** The keys of a category's schema, in the schema's (canonical) order. *)
Definition schemaKeys (c : Category) : list string := ColumnDefinition.key <$> FIELD_DEFINITIONS c.

(** [l] lists its keys in the relative order they have in [canon]. *)
Definition inCanonicalOrder (canon l : list string) : Prop :=
  l = filter (λ k, k ∈ l) canon.

#[global] Instance inCanonicalOrder_dec canon l : Decision (inCanonicalOrder canon l).
Proof. unfold inCanonicalOrder. apply _. Defined.

(** ** What the JavaScript runtime supplies

    Calendar fields are those of the local time zone for an instant given
    in milliseconds since the epoch; [localeCompare] and [toLowerCase] are
    the locale-aware built-ins of [String]; [arraySort] is
    [Array.prototype.sort] with a comparator. *)
Class Runtime := {
  getFullYear : Z → Z;
  getMonth : Z → Z;
  getDate : Z → Z;
  getHours : Z → Z;
  getMinutes : Z → Z;
  toISOString : Z → string;
  numberToString : Qc → string;
  toLowerCase : string → string;
  localeCompare : string → string → Z;
  arraySort : ∀ A : Type, (A → A → Qc) → list A → list A;
}.

(** [String(v)]. *)
Definition toString `{Runtime} (v : Js.Value) : string :=
  match v with
  | Js.Null => "null"
  | Js.Str s => s
  | Js.Num q => numberToString q
  | Js.Boolean true => "true"
  | Js.Boolean false => "false"
  end.

(** * DataExplorer *)

Module DataExplorer.

Inductive Aggregation := Max | Average.
Inductive Direction := Asc | Desc.

#[global] Instance Aggregation_eq_dec : EqDecision Aggregation.
Proof. solve_decision. Defined.
#[global] Instance Direction_eq_dec : EqDecision Direction.
Proof. solve_decision. Defined.

(** One field per [useState] cell of the component. *)
Record State := {
  category : Category;
  selectedFields : list string;
  data : list DataRow;
  loading : bool;
  isFieldDropdownOpen : bool;
  startTime : string;
  endTime : string;
  interval : Qc;
  aggregationType : Aggregation;
  expandedClusters : gset string;
  ratio : Qc;
  rf : Qc;
  cvmVcore : Qc;
  cvmMemory : Qc;
  sortField : option string;
  sortDirection : Direction;
}.

(** The state the component mounts with. *)
Definition initial : State := {|
  category := VM;
  selectedFields := DEFAULT_FIELDS VM;
  data := [];
  loading := false;
  isFieldDropdownOpen := false;
  startTime := "";
  endTime := "";
  interval := Qc_of_Z 30;
  aggregationType := Average;
  expandedClusters := ∅;
  ratio := Qc_of_Z 3;
  rf := Qc_of_Z 2;
  cvmVcore := Qc_of_Z 0;
  cvmMemory := Qc_of_Z 0;
  sortField := None;
  sortDirection := Asc;
|}.

(** The setters. *)
Definition setCategoryCell (v : Category) (s : State) : State :=
  {| category := v; selectedFields := selectedFields s; data := data s;
     loading := loading s; isFieldDropdownOpen := isFieldDropdownOpen s;
     startTime := startTime s; endTime := endTime s; interval := interval s;
     aggregationType := aggregationType s; expandedClusters := expandedClusters s;
     ratio := ratio s; rf := rf s; cvmVcore := cvmVcore s; cvmMemory := cvmMemory s;
     sortField := sortField s; sortDirection := sortDirection s |}.

Definition setSelectedFields (v : list string) (s : State) : State :=
  {| category := category s; selectedFields := v; data := data s;
     loading := loading s; isFieldDropdownOpen := isFieldDropdownOpen s;
     startTime := startTime s; endTime := endTime s; interval := interval s;
     aggregationType := aggregationType s; expandedClusters := expandedClusters s;
     ratio := ratio s; rf := rf s; cvmVcore := cvmVcore s; cvmMemory := cvmMemory s;
     sortField := sortField s; sortDirection := sortDirection s |}.

Definition setData (v : list DataRow) (s : State) : State :=
  {| category := category s; selectedFields := selectedFields s; data := v;
     loading := loading s; isFieldDropdownOpen := isFieldDropdownOpen s;
     startTime := startTime s; endTime := endTime s; interval := interval s;
     aggregationType := aggregationType s; expandedClusters := expandedClusters s;
     ratio := ratio s; rf := rf s; cvmVcore := cvmVcore s; cvmMemory := cvmMemory s;
     sortField := sortField s; sortDirection := sortDirection s |}.

Definition setLoading (v : bool) (s : State) : State :=
  {| category := category s; selectedFields := selectedFields s; data := data s;
     loading := v; isFieldDropdownOpen := isFieldDropdownOpen s;
     startTime := startTime s; endTime := endTime s; interval := interval s;
     aggregationType := aggregationType s; expandedClusters := expandedClusters s;
     ratio := ratio s; rf := rf s; cvmVcore := cvmVcore s; cvmMemory := cvmMemory s;
     sortField := sortField s; sortDirection := sortDirection s |}.

Definition setStartTime (v : string) (s : State) : State :=
  {| category := category s; selectedFields := selectedFields s; data := data s;
     loading := loading s; isFieldDropdownOpen := isFieldDropdownOpen s;
     startTime := v; endTime := endTime s; interval := interval s;
     aggregationType := aggregationType s; expandedClusters := expandedClusters s;
     ratio := ratio s; rf := rf s; cvmVcore := cvmVcore s; cvmMemory := cvmMemory s;
     sortField := sortField s; sortDirection := sortDirection s |}.

Definition setEndTime (v : string) (s : State) : State :=
  {| category := category s; selectedFields := selectedFields s; data := data s;
     loading := loading s; isFieldDropdownOpen := isFieldDropdownOpen s;
     startTime := startTime s; endTime := v; interval := interval s;
     aggregationType := aggregationType s; expandedClusters := expandedClusters s;
     ratio := ratio s; rf := rf s; cvmVcore := cvmVcore s; cvmMemory := cvmMemory s;
     sortField := sortField s; sortDirection := sortDirection s |}.

Definition setInterval (v : Qc) (s : State) : State :=
  {| category := category s; selectedFields := selectedFields s; data := data s;
     loading := loading s; isFieldDropdownOpen := isFieldDropdownOpen s;
     startTime := startTime s; endTime := endTime s; interval := v;
     aggregationType := aggregationType s; expandedClusters := expandedClusters s;
     ratio := ratio s; rf := rf s; cvmVcore := cvmVcore s; cvmMemory := cvmMemory s;
     sortField := sortField s; sortDirection := sortDirection s |}.

Definition setExpandedClusters (v : gset string) (s : State) : State :=
  {| category := category s; selectedFields := selectedFields s; data := data s;
     loading := loading s; isFieldDropdownOpen := isFieldDropdownOpen s;
     startTime := startTime s; endTime := endTime s; interval := interval s;
     aggregationType := aggregationType s; expandedClusters := v;
     ratio := ratio s; rf := rf s; cvmVcore := cvmVcore s; cvmMemory := cvmMemory s;
     sortField := sortField s; sortDirection := sortDirection s |}.

Definition setSortField (v : option string) (s : State) : State :=
  {| category := category s; selectedFields := selectedFields s; data := data s;
     loading := loading s; isFieldDropdownOpen := isFieldDropdownOpen s;
     startTime := startTime s; endTime := endTime s; interval := interval s;
     aggregationType := aggregationType s; expandedClusters := expandedClusters s;
     ratio := ratio s; rf := rf s; cvmVcore := cvmVcore s; cvmMemory := cvmMemory s;
     sortField := v; sortDirection := sortDirection s |}.

Definition setSortDirection (v : Direction) (s : State) : State :=
  {| category := category s; selectedFields := selectedFields s; data := data s;
     loading := loading s; isFieldDropdownOpen := isFieldDropdownOpen s;
     startTime := startTime s; endTime := endTime s; interval := interval s;
     aggregationType := aggregationType s; expandedClusters := expandedClusters s;
     ratio := ratio s; rf := rf s; cvmVcore := cvmVcore s; cvmMemory := cvmMemory s;
     sortField := sortField s; sortDirection := v |}.

Definition setAggregationType (v : Aggregation) (s : State) : State :=
  {| category := category s; selectedFields := selectedFields s; data := data s;
     loading := loading s; isFieldDropdownOpen := isFieldDropdownOpen s;
     startTime := startTime s; endTime := endTime s; interval := interval s;
     aggregationType := v; expandedClusters := expandedClusters s; ratio := ratio s;
     rf := rf s; cvmVcore := cvmVcore s; cvmMemory := cvmMemory s;
     sortField := sortField s; sortDirection := sortDirection s |}.

Definition setRatio (v : Qc) (s : State) : State :=
  {| category := category s; selectedFields := selectedFields s; data := data s;
     loading := loading s; isFieldDropdownOpen := isFieldDropdownOpen s;
     startTime := startTime s; endTime := endTime s; interval := interval s;
     aggregationType := aggregationType s; expandedClusters := expandedClusters s;
     ratio := v; rf := rf s; cvmVcore := cvmVcore s; cvmMemory := cvmMemory s;
     sortField := sortField s; sortDirection := sortDirection s |}.

Definition setRf (v : Qc) (s : State) : State :=
  {| category := category s; selectedFields := selectedFields s; data := data s;
     loading := loading s; isFieldDropdownOpen := isFieldDropdownOpen s;
     startTime := startTime s; endTime := endTime s; interval := interval s;
     aggregationType := aggregationType s; expandedClusters := expandedClusters s;
     ratio := ratio s; rf := v; cvmVcore := cvmVcore s; cvmMemory := cvmMemory s;
     sortField := sortField s; sortDirection := sortDirection s |}.

Definition setCvmVcore (v : Qc) (s : State) : State :=
  {| category := category s; selectedFields := selectedFields s; data := data s;
     loading := loading s; isFieldDropdownOpen := isFieldDropdownOpen s;
     startTime := startTime s; endTime := endTime s; interval := interval s;
     aggregationType := aggregationType s; expandedClusters := expandedClusters s;
     ratio := ratio s; rf := rf s; cvmVcore := v; cvmMemory := cvmMemory s;
     sortField := sortField s; sortDirection := sortDirection s |}.

Definition setCvmMemory (v : Qc) (s : State) : State :=
  {| category := category s; selectedFields := selectedFields s; data := data s;
     loading := loading s; isFieldDropdownOpen := isFieldDropdownOpen s;
     startTime := startTime s; endTime := endTime s; interval := interval s;
     aggregationType := aggregationType s; expandedClusters := expandedClusters s;
     ratio := ratio s; rf := rf s; cvmVcore := cvmVcore s; cvmMemory := v;
     sortField := sortField s; sortDirection := sortDirection s |}.

(** *** What the component sends out *)

Record FetchParams := {
  p_startTime : string;
  p_endTime : string;
  p_interval : Qc;
  p_aggregationType : Aggregation;
  p_ratio : Qc;
  p_rf : Qc;
  p_cvmVcore : Qc;
  p_cvmMemory : Qc;
  p_ignoreCache : bool;
}.

(** A call [fetchData(cluster, category, params)]. *)
Record FetchRequest := {
  r_cluster : ClusterConfig.t;
  r_category : Category;
  r_params : FetchParams;
}.

(** How the promise of [fetchData] settles. *)
Inductive FetchOutcome :=
| Resolved (result : list DataRow)
| Rejected (message : string).

Inductive Notice :=
| ConsoleError
| Alert (message : string).

(** *** Category change: the first [useEffect], run when [category] changed *)

(** [formatDateTime]: the [datetime-local] text [YYYY-MM-DDTHH:mm]. *)
Definition formatDateTime `{Runtime} (date : Z) : string :=
  let year := getFullYear date in
  let month := Js.padStart2 (pretty (getMonth date + 1)%Z) in
  let day := Js.padStart2 (pretty (getDate date)) in
  let hours := Js.padStart2 (pretty (getHours date)) in
  let minutes := Js.padStart2 (pretty (getMinutes date)) in
  pretty year +:+ "-" +:+ month +:+ "-" +:+ day +:+ "T" +:+ hours +:+ ":" +:+ minutes.

Definition categoryEffect `{Runtime} (now : Z) (s : State) : State :=
  let s := setSelectedFields (DEFAULT_FIELDS (category s)) s in
  let s := setData [] s in
  if decide (category s = Performance) then
    let oneHourAgo := (now - 60 * 60 * 1000)%Z in
    let s := setStartTime (formatDateTime oneHourAgo) s in
    let s := setEndTime (formatDateTime now) s in
    setInterval (Qc_of_Z 30) s
  else s.

(** *** [loadData], cut at its [await] *)

(** Up to the call of [fetchData]: the two guards, then [setLoading(true)]
    and the request. *)
Definition loadData (cluster : ClusterConfig.t) (ignoreCache : bool) (s : State)
  : State * option FetchRequest :=
  if bool_decide (category s = Performance)
     && (negb (Js.truthyStr (startTime s)) || negb (Js.truthyStr (endTime s)))
  then (s, None)
  else if bool_decide (category s = Resources)
          && (bool_decide (ratio s = 0%Qc) || bool_decide (rf s = 0%Qc))
  then (s, None)
  else
    (setLoading true s,
     Some {| r_cluster := cluster;
             r_category := category s;
             r_params := {| p_startTime := startTime s;
                            p_endTime := endTime s;
                            p_interval := interval s;
                            p_aggregationType := aggregationType s;
                            p_ratio := ratio s;
                            p_rf := rf s;
                            p_cvmVcore := cvmVcore s;
                            p_cvmMemory := cvmMemory s;
                            p_ignoreCache := ignoreCache |} |}).

(** After the [await]: [setData(result)] or the [catch], then the
    [finally].  The continuation reads nothing but the outcome. *)
Definition loadData_settled (o : FetchOutcome) (s : State) : State * list Notice :=
  match o with
  | Resolved result => (setLoading false (setData result s), [])
  | Rejected _ => (setLoading false s, [ConsoleError; Alert "Failed to fetch data."])
  end.

(** The second [useEffect]: fetch at once, except for the two categories
    that wait for the Apply button. *)
Definition autoFetchEffect (cluster : ClusterConfig.t) (s : State)
  : State * option FetchRequest :=
  if ClusterConfig.isVerified cluster
     && bool_decide (category s ≠ Performance)
     && bool_decide (category s ≠ Resources)
  then loadData cluster false s
  else (s, None).

(** Choosing a category in the drop-down: the cell is set and, when its
    value changed, the render that follows runs both effects in the order
    they are declared. *)
Definition setCategory `{Runtime} (now : Z) (cluster : ClusterConfig.t)
    (c : Category) (s : State) : State * option FetchRequest :=
  if decide (c = category s) then (s, None)
  else autoFetchEffect cluster (categoryEffect now (setCategoryCell c s)).

(** *** Column selection *)

Definition toggleField (key : string) (s : State) : State :=
  let prev := selectedFields s in
  setSelectedFields
    (if bool_decide (key ∈ prev)
     then filter (λ f, f ≠ key) prev
     else prev ++ [key])
    s.

(** *** Sorting *)

Definition handleSort (field : string) (s : State) : State :=
  if decide (sortField s = Some field) then
    setSortDirection (match sortDirection s with Asc => Desc | Desc => Asc end) s
  else
    setSortDirection Asc (setSortField (Some field) s).

(** The comparator handed to [sort]. *)
Definition compare `{Runtime} (sortField : string) (sortDirection : Direction)
    (a b : DataRow) : Qc :=
  let aValue := a !! sortField in
  let bValue := b !! sortField in
  match aValue with
  | None | Some Js.Null => 1%Qc
  | Some av =>
      match bValue with
      | None | Some Js.Null => (-1)%Qc
      | Some bv =>
          match av, bv with
          | Js.Num x, Js.Num y =>
              match sortDirection with
              | Asc => (x - y)%Qc
              | Desc => (y - x)%Qc
              end
          | _, _ =>
              let aStr := toLowerCase (toString av) in
              let bStr := toLowerCase (toString bv) in
              match sortDirection with
              | Asc => Qc_of_Z (localeCompare aStr bStr)
              | Desc => Qc_of_Z (localeCompare bStr aStr)
              end
          end
      end
  end.

Definition sortedData `{Runtime} (s : State) : list DataRow :=
  match sortField s with
  | None => data s
  | Some f => arraySort DataRow (compare f (sortDirection s)) (data s)
  end.

(** *** Hierarchy of Performance rows *)

Definition toggleClusterExpansion (clusterName : string) (s : State) : State :=
  let prev := expandedClusters s in
  setExpandedClusters
    (if bool_decide (clusterName ∈ prev)
     then prev ∖ {[clusterName]}
     else prev ∪ {[clusterName]})
    s.

(** [expandedClusters.has(v)]: the set holds strings only. *)
Definition has (expanded : gset string) (v : option Js.Value) : bool :=
  match v with
  | Some (Js.Str n) => bool_decide (n ∈ expanded)
  | _ => false
  end.

Definition isClusterRow (c : Category) (row : DataRow) : bool :=
  bool_decide (c = Performance)
  && bool_decide (row !! "entityType" = Some (Js.Str "cluster")).

Definition isHostRow (c : Category) (row : DataRow) : bool :=
  bool_decide (c = Performance)
  && bool_decide (row !! "entityType" = Some (Js.Str "host")).

(** [isHostRow ? row.parentCluster : null]. *)
Definition parentCluster (c : Category) (row : DataRow) : option Js.Value :=
  if isHostRow c row then row !! "parentCluster" else Some Js.Null.

(** One step of [sortedData.map]: [None] is the [null] returned for a
    host row under a collapsed cluster, [Some row] the [<tr>] of [row]. *)
Definition renderRow (c : Category) (expanded : gset string) (row : DataRow)
  : option DataRow :=
  if isHostRow c row
     && Js.truthyOpt (parentCluster c row)
     && negb (has expanded (parentCluster c row))
  then None
  else Some row.

(** [row.table === t]. *)
Definition tableIs (t : string) (row : DataRow) : Prop :=
  row !! "table" = Some (Js.Str t).

#[global] Instance tableIs_dec t row : Decision (tableIs t row).
Proof. unfold tableIs. apply _. Defined.

(** The rows on screen, top to bottom, when the component lists [rows].
    Under Resources it renders two tables, the CPU one above the Memory
    one, each from [data.filter(row => row.table === ...)], and never runs
    [renderRow]; under the other categories the one table maps [renderRow]
    over the rows. *)
Definition visibleRows (c : Category) (expanded : gset string)
    (rows : list DataRow) : list DataRow :=
  if decide (c = Resources) then
    filter (tableIs "CPU") rows ++ filter (tableIs "Memory") rows
  else omap (renderRow c expanded) rows.


(** *** Export: [exportToXLSX] up to the POST *)

Definition cpuFields : list string :=
  ["hostName"; "vmCount"; "numaOver"; "pCore"; "useVCore";
   "recommendVcoreRatio"; "currentVcoreRatio"; "result"].

Definition cpuFieldLabels : gmap string string :=
  list_to_map
    [("hostName", "Host name"); ("vmCount", "VM Count"); ("numaOver", "NUMA over");
     ("pCore", "pCore"); ("useVCore", "Use vCore");
     ("recommendVcoreRatio", "Recommend vcore Ratio");
     ("currentVcoreRatio", "Current vcore Ratio"); ("result", "Result")].

Definition memoryFields : list string :=
  ["hostName"; "vmCount"; "numaOver"; "memoryGiB"; "useMemoryGiB";
   "recommendUse"; "availableMemory"; "result"].

Definition memoryFieldLabels : gmap string string :=
  list_to_map
    [("hostName", "Host name"); ("vmCount", "VM Count"); ("numaOver", "NUMA over");
     ("memoryGiB", "Memory(GiB)"); ("useMemoryGiB", "Use Memory(GiB) =(A)");
     ("recommendUse", "Recommend Use =(B)");
     ("availableMemory", "Available memory (B-A)"); ("result", "Result")].

(** The JSON body of the POST to [/api/export-xlsx].  The keys of
    [ResourcesPart] are present in the Resources branch only. *)
Module ExportBody.
Record ResourcesPart := {
  isResources : bool;
  cpuData : list DataRow;
  memoryData : list DataRow;
  cpuFields : list string;
  memoryFields : list string;
  cpuFieldLabels : gmap string string;
  memoryFieldLabels : gmap string string;
}.
Record t := {
  data : list DataRow;
  fields : list string;
  fieldLabels : gmap string string;
  filename : string;
  resources : option ResourcesPart;
}.
End ExportBody.

(** [(data[0]?.clusterName as string) || cluster.name || cluster.ip],
    as the template string prints it. *)
Definition actualClusterName `{Runtime} (cluster : ClusterConfig.t)
    (rows : list DataRow) : string :=
  match head rows ≫= (λ row, row !! "clusterName") with
  | Some v =>
      if Js.truthy v then toString v
      else Js.orStr (ClusterConfig.name cluster) (ClusterConfig.ip cluster)
  | None => Js.orStr (ClusterConfig.name cluster) (ClusterConfig.ip cluster)
  end.

Definition exportFilename `{Runtime} (now : Z) (cluster : ClusterConfig.t)
    (s : State) : string :=
  actualClusterName cluster (data s) +:+ "_" +:+ Category_name (category s)
    +:+ "_" +:+ Js.beforeFirst "T"%char (toISOString now).

(** The [forEach] that fills [fieldLabels]. *)
Definition labelsOf (c : Category) (selected : list string) : gmap string string :=
  foldl
    (λ fieldLabels field,
       let def := List.find (λ f, String.eqb (ColumnDefinition.key f) field)
                            (FIELD_DEFINITIONS c) in
       <[field := match def with
                  | Some d => Js.orStr (ColumnDefinition.label d) field
                  | None => field
                  end]> fieldLabels)
    ∅ selected.

(** The request [exportToXLSX] posts; [None] when it returns before
    posting. *)
Definition exportToXLSX `{Runtime} (now : Z) (cluster : ClusterConfig.t)
    (s : State) : option ExportBody.t :=
  if bool_decide (length (data s) = 0) then None
  else if decide (category s = Resources) then
    let cpuData := filter (tableIs "CPU") (data s) in
    let memoryData := filter (tableIs "Memory") (data s) in
    Some {| ExportBody.data := cpuData ++ memoryData;
            ExportBody.fields :=
              if bool_decide (0 < length cpuData) then cpuFields else memoryFields;
            ExportBody.fieldLabels :=
              if bool_decide (0 < length cpuData) then cpuFieldLabels
              else memoryFieldLabels;
            ExportBody.filename := exportFilename now cluster s;
            ExportBody.resources :=
              Some {| ExportBody.isResources := true;
                      ExportBody.cpuData := cpuData;
                      ExportBody.memoryData := memoryData;
                      ExportBody.cpuFields := cpuFields;
                      ExportBody.memoryFields := memoryFields;
                      ExportBody.cpuFieldLabels := cpuFieldLabels;
                      ExportBody.memoryFieldLabels := memoryFieldLabels |} |}
  else
    Some {| ExportBody.data := data s;
            ExportBody.fields := selectedFields s;
            ExportBody.fieldLabels := labelsOf (category s) (selectedFields s);
            ExportBody.filename := exportFilename now cluster s;
            ExportBody.resources := None |}.

(** *** The component over time

    The single thread of control interleaves user actions with the
    settling of outstanding fetches.  [outstanding] holds the requests
    whose promise has not settled yet, oldest first. *)
Record World := {
  state : State;
  outstanding : list FetchRequest;
  notices : list Notice;
}.

Inductive Event :=
| TriggerFetch (ignoreCache : bool)
| ChooseCategory (now : Z) (c : Category)
| ToggleField (key : string)
| ToggleExpansion (clusterName : string)
| ClickHeader (field : string)
| Settle (i : nat) (o : FetchOutcome).

Definition issue (r : State * option FetchRequest) (w : World) : World :=
  {| state := r.1;
     outstanding := outstanding w ++ option_list r.2;
     notices := notices w |}.

Definition step `{Runtime} (cluster : ClusterConfig.t) (w : World) (e : Event)
  : World :=
  match e with
  | TriggerFetch ignoreCache => issue (loadData cluster ignoreCache (state w)) w
  | ChooseCategory now c => issue (setCategory now cluster c (state w)) w
  | ToggleField key => issue (toggleField key (state w), None) w
  | ToggleExpansion n => issue (toggleClusterExpansion n (state w), None) w
  | ClickHeader f => issue (handleSort f (state w), None) w
  | Settle i o =>
      match outstanding w !! i with
      | Some _ =>
          let r := loadData_settled o (state w) in
          {| state := r.1;
             outstanding := delete i (outstanding w);
             notices := notices w ++ r.2 |}
      | None => w
      end
  end.

Definition run `{Runtime} (cluster : ClusterConfig.t) (w : World)
    (es : list Event) : World :=
  foldl (step cluster) w es.

Definition mount (s : State) : World :=
  {| state := s; outstanding := []; notices := [] |}.

End DataExplorer.

(** * ClusterManager *)

Module Preset.
Record t := {
  id : string;
  type : ClusterType;
  ip : string;
  username : string;
  password : string;
  apiVersion : option ApiVersion;
}.

#[global] Instance eq_dec : EqDecision t.
Proof. solve_decision. Defined.
End Preset.

(** How [verifyClusterConnection] settles: the resolved cluster name, or
    the message of the error it throws. *)
Inductive VerifyOutcome :=
| Verified (clusterName : string)
| Refused (message : string).

(** How [JSON.parse] completes on the stored text, read at the type the
    component gives to [presets]. *)
Inductive ParseOutcome :=
| Parsed (value : list Preset.t)
| SyntaxError (message : string).

(** What lies outside the component: the backend behind
    [verifyClusterConnection], [JSON.parse], and the text
    [`${Date.now()}_${Math.random()}`] at its n-th evaluation. *)
Class Platform := {
  verifyClusterConnection : ClusterConfig.t → VerifyOutcome;
  JSON_parse : string → ParseOutcome;
  tempIdAt : nat → string;
}.

Module ClusterManager.

(** The form behind [newCluster]. *)
Module Form.
Record t := {
  ip : string;
  username : string;
  password : string;
  type : ClusterType;
  apiVersion : option ApiVersion;
}.
End Form.

Definition emptyForm : Form.t :=
  {| Form.ip := ""; Form.username := ""; Form.password := "";
     Form.type := PE; Form.apiVersion := None |}.

Inductive Effect :=
| VerifyCall (candidate : ClusterConfig.t)
| ConsoleError
| Alert (message : string).

(** The cells of the component, the two cells of [App] it reaches through
    its props, the browser's [localStorage], what it has sent out so far,
    and the number of ids drawn. *)
Record World := {
  isModalOpen : bool;
  presets : list Preset.t;
  selectedPresets : gset string;
  newCluster : Form.t;
  verifying : bool;
  errorMsg : option string;
  clusters : list ClusterConfig.t;
  selectedClusterId : option string;
  localStorage : gmap string string;
  log : list Effect;
  draws : nat;
}.

Definition setIsModalOpen (v : bool) (w : World) : World :=
  {| isModalOpen := v; presets := presets w; selectedPresets := selectedPresets w;
     newCluster := newCluster w; verifying := verifying w; errorMsg := errorMsg w;
     clusters := clusters w; selectedClusterId := selectedClusterId w;
     localStorage := localStorage w; log := log w; draws := draws w |}.

Definition setPresets (v : list Preset.t) (w : World) : World :=
  {| isModalOpen := isModalOpen w; presets := v; selectedPresets := selectedPresets w;
     newCluster := newCluster w; verifying := verifying w; errorMsg := errorMsg w;
     clusters := clusters w; selectedClusterId := selectedClusterId w;
     localStorage := localStorage w; log := log w; draws := draws w |}.

Definition setSelectedPresets (v : gset string) (w : World) : World :=
  {| isModalOpen := isModalOpen w; presets := presets w; selectedPresets := v;
     newCluster := newCluster w; verifying := verifying w; errorMsg := errorMsg w;
     clusters := clusters w; selectedClusterId := selectedClusterId w;
     localStorage := localStorage w; log := log w; draws := draws w |}.

Definition setNewCluster (v : Form.t) (w : World) : World :=
  {| isModalOpen := isModalOpen w; presets := presets w;
     selectedPresets := selectedPresets w;
     newCluster := v; verifying := verifying w; errorMsg := errorMsg w;
     clusters := clusters w; selectedClusterId := selectedClusterId w;
     localStorage := localStorage w; log := log w; draws := draws w |}.

Definition setVerifying (v : bool) (w : World) : World :=
  {| isModalOpen := isModalOpen w; presets := presets w;
     selectedPresets := selectedPresets w;
     newCluster := newCluster w; verifying := v; errorMsg := errorMsg w;
     clusters := clusters w; selectedClusterId := selectedClusterId w;
     localStorage := localStorage w; log := log w; draws := draws w |}.

Definition setErrorMsg (v : option string) (w : World) : World :=
  {| isModalOpen := isModalOpen w; presets := presets w;
     selectedPresets := selectedPresets w;
     newCluster := newCluster w; verifying := verifying w; errorMsg := v;
     clusters := clusters w; selectedClusterId := selectedClusterId w;
     localStorage := localStorage w; log := log w; draws := draws w |}.

(** [setClusters(prev => f(prev))]. *)
Definition setClusters (f : list ClusterConfig.t → list ClusterConfig.t)
    (w : World) : World :=
  {| isModalOpen := isModalOpen w; presets := presets w;
     selectedPresets := selectedPresets w;
     newCluster := newCluster w; verifying := verifying w; errorMsg := errorMsg w;
     clusters := f (clusters w); selectedClusterId := selectedClusterId w;
     localStorage := localStorage w; log := log w; draws := draws w |}.

Definition onSelectCluster (v : string) (w : World) : World :=
  {| isModalOpen := isModalOpen w; presets := presets w;
     selectedPresets := selectedPresets w;
     newCluster := newCluster w; verifying := verifying w; errorMsg := errorMsg w;
     clusters := clusters w; selectedClusterId := Some v;
     localStorage := localStorage w; log := log w; draws := draws w |}.

Definition emit (e : Effect) (w : World) : World :=
  {| isModalOpen := isModalOpen w; presets := presets w;
     selectedPresets := selectedPresets w;
     newCluster := newCluster w; verifying := verifying w; errorMsg := errorMsg w;
     clusters := clusters w; selectedClusterId := selectedClusterId w;
     localStorage := localStorage w; log := log w ++ [e]; draws := draws w |}.

Definition drawn (w : World) : World :=
  {| isModalOpen := isModalOpen w; presets := presets w;
     selectedPresets := selectedPresets w;
     newCluster := newCluster w; verifying := verifying w; errorMsg := errorMsg w;
     clusters := clusters w; selectedClusterId := selectedClusterId w;
     localStorage := localStorage w; log := log w; draws := S (draws w) |}.

(** *** Loading the presets: the [useEffect] run on mount *)

(** How a piece of code completes: normally, or by an exception that
    nothing in the component catches. *)
Inductive Completion :=
| Normal (w : World)
| Throw (message : string).

Definition loadPresetsEffect `{Platform} (w : World) : Completion :=
  match localStorage w !! "clusterPresets" with
  | Some savedPresets =>
      if Js.truthyStr savedPresets then
        match JSON_parse savedPresets with
        | Parsed value => Normal (setPresets value w)
        | SyntaxError message => Throw message
        end
      else Normal w
  | None => Normal w
  end.

(** *** Selecting presets *)

Definition togglePresetSelection (id : string) (w : World) : World :=
  let prev := selectedPresets w in
  setSelectedPresets
    (if bool_decide (id ∈ prev) then prev ∖ {[id]} else prev ∪ {[id]})
    w.

Definition selectAllPresets (w : World) : World :=
  setSelectedPresets (list_to_set (Preset.id <$> presets w)) w.

Definition deselectAllPresets (w : World) : World :=
  setSelectedPresets ∅ w.

(** *** Connecting *)

Definition nameOfType (t : ClusterType) : string :=
  match t with
  | PE => "Prism Element"
  | PC => "Prism Central"
  end.

(** [{ ...clusterToAdd, name: result.clusterName, isVerified: true }]. *)
Definition finalClusterOf (clusterToAdd : ClusterConfig.t) (clusterName : string)
  : ClusterConfig.t :=
  {| ClusterConfig.id := ClusterConfig.id clusterToAdd;
     ClusterConfig.name := clusterName;
     ClusterConfig.ip := ClusterConfig.ip clusterToAdd;
     ClusterConfig.username := ClusterConfig.username clusterToAdd;
     ClusterConfig.password := ClusterConfig.password clusterToAdd;
     ClusterConfig.isVerified := true;
     ClusterConfig.type := ClusterConfig.type clusterToAdd;
     ClusterConfig.apiVersion := ClusterConfig.apiVersion clusterToAdd |}.

(** The [clusterToAdd] built from a preset in the batch loop. *)
Definition clusterOfPreset (tempId : string) (preset : Preset.t) : ClusterConfig.t :=
  {| ClusterConfig.id := tempId;
     ClusterConfig.name := nameOfType (Preset.type preset);
     ClusterConfig.ip := Preset.ip preset;
     ClusterConfig.username := Preset.username preset;
     ClusterConfig.password := Preset.password preset;
     ClusterConfig.isVerified := false;
     ClusterConfig.type := Preset.type preset;
     ClusterConfig.apiVersion := default V2_0 (Preset.apiVersion preset) |}.

Module Failure.
Record t := { ip : string; error : string }.
End Failure.

(** The loop state of [connectSelectedPresets]. *)
Record Batch := {
  world : World;
  successList : list string;
  failureList : list Failure.t;
}.

(** One iteration of the [for ... of] loop. *)
Definition connectOne `{Platform} (b : Batch) (preset : Preset.t) : Batch :=
  let w := world b in
  let tempId := tempIdAt (draws w) in
  let w := drawn w in
  let clusterToAdd := clusterOfPreset tempId preset in
  let w := emit (VerifyCall clusterToAdd) w in
  match verifyClusterConnection clusterToAdd with
  | Verified clusterName =>
      let finalCluster := finalClusterOf clusterToAdd clusterName in
      {| world := setClusters (λ prev, prev ++ [finalCluster]) w;
         successList := successList b ++ [Preset.ip preset];
         failureList := failureList b |}
  | Refused message =>
      {| world := emit ConsoleError w;
         successList := successList b;
         failureList :=
           failureList b ++
           [{| Failure.ip := Preset.ip preset;
               Failure.error := Js.orStr message "Connection failed" |}] |}
  end.

Definition newline : string := String (ascii_of_nat 10) EmptyString.

Definition failureLine (f : Failure.t) : string :=
  "• " +:+ Failure.ip f +:+ ": " +:+ Failure.error f.

Definition errorMessage (successes : list string) (failures : list Failure.t)
  : string :=
  "Successfully connected: " +:+ pretty (length successes) +:+ newline +:+ newline
    +:+ "Failed connections:" +:+ newline
    +:+ String.concat newline (failureLine <$> failures).

(** [presets.filter(p => selectedPresets.has(p.id))]. *)
Definition selectedPresetsList (w : World) : list Preset.t :=
  filter (λ p, Preset.id p ∈ selectedPresets w) (presets w).

Definition connectSelectedPresets `{Platform} (w : World) : World :=
  let candidates := selectedPresetsList w in
  if bool_decide (length candidates = 0) then w
  else
    let w := setVerifying true w in
    let w := setErrorMsg None w in
    let b := foldl connectOne
               {| world := w; successList := []; failureList := [] |}
               candidates in
    let w := setVerifying false (world b) in
    if bool_decide (0 < length (failureList b)) then
      setErrorMsg (Some (errorMessage (successList b) (failureList b))) w
    else
      let w := setSelectedPresets ∅ w in
      let w := setIsModalOpen false w in
      setNewCluster emptyForm w.

Definition handleAddCluster `{Platform} (now : Z) (w : World) : World :=
  if bool_decide (2 ≤ size (selectedPresets w)) then connectSelectedPresets w
  else
    let f := newCluster w in
    if negb (Js.truthyStr (Form.ip f))
       || negb (Js.truthyStr (Form.username f))
       || negb (Js.truthyStr (Form.password f))
    then setErrorMsg (Some "All fields are required.") w
    else if bool_decide (Form.apiVersion f = Some V4_0) then
      emit (Alert "We are planning to update.") w
    else
      let w := setVerifying true w in
      let w := setErrorMsg None w in
      let tempId := pretty now in
      let clusterToAdd :=
        {| ClusterConfig.id := tempId;
           ClusterConfig.name := nameOfType (Form.type f);
           ClusterConfig.ip := Form.ip f;
           ClusterConfig.username := Form.username f;
           ClusterConfig.password := Form.password f;
           ClusterConfig.isVerified := false;
           ClusterConfig.type := Form.type f;
           ClusterConfig.apiVersion := default V2_0 (Form.apiVersion f) |} in
      let w := emit (VerifyCall clusterToAdd) w in
      let w :=
        match verifyClusterConnection clusterToAdd with
        | Verified clusterName =>
            let finalCluster := finalClusterOf clusterToAdd clusterName in
            let w := setClusters (λ prev, prev ++ [finalCluster]) w in
            let w := onSelectCluster tempId w in
            let w := setIsModalOpen false w in
            setNewCluster emptyForm w
        | Refused message =>
            let w := emit ConsoleError w in
            setErrorMsg (Some (Js.orStr message "Unknown error occurred.")) w
        end in
      setVerifying false w.

(** What [log] records of the calls to the verification service, and of
    the alerts. *)
(** The state the component mounts with, before its effects run. *)
Definition initial (storage : gmap string string) : World := {|
  isModalOpen := false;
  presets := [];
  selectedPresets := ∅;
  newCluster := {| Form.ip := ""; Form.username := ""; Form.password := "";
                   Form.type := PE; Form.apiVersion := Some V2_0 |};
  verifying := false;
  errorMsg := None;
  clusters := [];
  selectedClusterId := None;
  localStorage := storage;
  log := [];
  draws := 0;
|}.

Definition verifyCalls (l : list Effect) : list ClusterConfig.t :=
  omap (λ e, match e with VerifyCall c => Some c | _ => None end) l.

Definition alerts (l : list Effect) : list string :=
  omap (λ e, match e with Alert m => Some m | _ => None end) l.

End ClusterManager.

(** * A runtime and a platform to evaluate with

    ASCII lower-casing, code-unit comparison, an insertion sort and a fixed
    calendar: enough to run the definitions on concrete inputs. *)

Module Fixture.

Definition lowerAscii (a : ascii) : ascii :=
  let n := nat_of_ascii a in
  if bool_decide (65 ≤ n ≤ 90) then ascii_of_nat (n + 32) else a.

Fixpoint lower (s : string) : string :=
  match s with
  | EmptyString => EmptyString
  | String a rest => String (lowerAscii a) (lower rest)
  end.

Definition codeUnitCompare (a b : string) : Z :=
  match String.compare a b with
  | Lt => (-1)%Z
  | Eq => 0%Z
  | Gt => 1%Z
  end.

Fixpoint insertBy {A} (cmp : A → A → Qc) (x : A) (l : list A) : list A :=
  match l with
  | [] => [x]
  | y :: rest =>
      if bool_decide (0 < cmp x y)%Qc then y :: insertBy cmp x rest
      else x :: l
  end.

Definition insertionSort (A : Type) (cmp : A → A → Qc) (l : list A) : list A :=
  foldr (insertBy cmp) [] l.

Definition runtime : Runtime := {|
  getFullYear := λ _, 2026%Z;
  getMonth := λ _, 0%Z;
  getDate := λ _, 5%Z;
  getHours := λ t, ((t `div` 3600000) `mod` 24)%Z;
  getMinutes := λ t, ((t `div` 60000) `mod` 60)%Z;
  toISOString := λ _, "2026-01-05T09:07:00.000Z";
  numberToString := λ q,
    pretty (QArith_base.Qnum (this q)) +:+ "/"
      +:+ pretty (Zpos (QArith_base.Qden (this q)));
  toLowerCase := lower;
  localeCompare := codeUnitCompare;
  arraySort := insertionSort;
|}.

(** A backend that refuses the address [10.0.0.2] and accepts the rest,
    and a parser that takes the empty array and nothing else. *)
Definition platform : Platform := {|
  verifyClusterConnection := λ c,
    if String.eqb (ClusterConfig.ip c) "10.0.0.2"
    then Refused "Connection timeout"
    else Verified ("cluster-" +:+ ClusterConfig.ip c);
  JSON_parse := λ text,
    if String.eqb text "[]" then Parsed []
    else SyntaxError "Unexpected token";
  tempIdAt := λ n, "id_" +:+ pretty n;
|}.

Definition cluster : ClusterConfig.t := {|
  ClusterConfig.id := "1";
  ClusterConfig.name := "Prism Element";
  ClusterConfig.ip := "10.0.0.1";
  ClusterConfig.username := "admin";
  ClusterConfig.password := "secret";
  ClusterConfig.isVerified := true;
  ClusterConfig.type := PE;
  ClusterConfig.apiVersion := V2_0;
|}.

End Fixture.

(** * The rest of the console

    [fetchData] of [services/nutanixService.ts], [activeCluster] of
    [App.tsx], and the handlers of [ClusterManager] that save, delete and
    import presets and remove connections. *)

(** ** nutanixService.ts: the query of [fetchData] *)

Module Service.
Import DataExplorer.

Definition aggregationName (a : Aggregation) : string :=
  match a with
  | Max => "max"
  | Average => "average"
  end.

(** The entries of [URLSearchParams] in the order they are appended.  The
    parameter object is the one [loadData] passes; of its nine members the
    function reads the six below. *)
Definition queryOf `{Runtime} (category : Category) (performanceParams : FetchParams)
  : list (string * string) :=
  [("category", Category_name category)]
  ++ (if decide (category = Performance) then
        (if Js.truthyStr (p_startTime performanceParams)
         then [("startTime", p_startTime performanceParams)] else [])
        ++ (if Js.truthyStr (p_endTime performanceParams)
            then [("endTime", p_endTime performanceParams)] else [])
        ++ (if bool_decide (p_interval performanceParams = 0%Qc) then []
            else [("interval", numberToString (p_interval performanceParams))])
        ++ [("aggregationType", aggregationName (p_aggregationType performanceParams))]
      else [])
  ++ (if decide (category = Resources) then
        (if bool_decide (p_ratio performanceParams = 0%Qc) then []
         else [("ratio", numberToString (p_ratio performanceParams))])
        ++ (if bool_decide (p_rf performanceParams = 0%Qc) then []
            else [("rf", numberToString (p_rf performanceParams))])
      else []).

(** The POST of [fetchData]: the query of the URL and the cluster sent as
    the body. *)
Record HttpRequest := {
  query : list (string * string);
  body : ClusterConfig.t;
}.

Definition fetchData `{Runtime} (r : FetchRequest) : HttpRequest :=
  {| query := queryOf (r_category r) (r_params r); body := r_cluster r |}.

End Service.

(** ** App.tsx *)

Module App.

(** [clusters.find(c => c.id === selectedClusterId)]; the cell starts as
    [null], which no id equals. *)
Definition activeCluster (clusters : list ClusterConfig.t)
    (selectedClusterId : option string) : option ClusterConfig.t :=
  match selectedClusterId with
  | Some selected => List.find (λ c, String.eqb (ClusterConfig.id c) selected) clusters
  | None => None
  end.

End App.

(** ** JSON values, for the imported file *)

Module Json.

#[local] Unset Elimination Schemes.
Inductive t :=
| Null
| Bool (b : bool)
| Num (q : Qc)
| Str (s : string)
| Arr (items : list t)
| Obj (members : list (string * t)).
#[local] Set Elimination Schemes.

(** [v[k]] for a [v] that is not [null] and a [k] that neither primitives
    nor arrays inherit; [None] is [undefined].  The members are in the
    order of the text, a later one overriding an earlier one of the same
    name. *)
Definition get (k : string) (v : t) : option t :=
  match v with
  | Obj members => snd <$> List.find (λ m, String.eqb m.1 k) (rev members)
  | _ => None
  end.

(** ToBoolean of a property read. *)
Definition truthy (v : option t) : bool :=
  match v with
  | None | Some Null => false
  | Some (Bool b) => b
  | Some (Num q) => negb (bool_decide (q = 0%Qc))
  | Some (Str s) => negb (String.eqb s "")
  | Some (Arr _) | Some (Obj _) => true
  end.

(** [v === s] for a string [s]. *)
Definition isStr (s : string) (v : option t) : bool :=
  match v with
  | Some (Str s') => String.eqb s' s
  | _ => false
  end.

End Json.

(** How [JSON.parse] completes on the text of a file. *)
Inductive ParsedFile :=
| FileValue (v : Json.t)
| FileSyntaxError (message : string).

(** What the browser supplies to these handlers: [JSON.stringify] on the
    presets, [JSON.parse] on a file, [String.prototype.trim], and
    [toString()] called on an array or an object ([None] when the call
    throws). *)
Class Browser := {
  JSON_stringify : list Preset.t → string;
  JSON_parse_file : string → ParsedFile;
  trim : string → string;
  compositeToString : Json.t → option string;
}.

Module ClusterManagerRest.
Import ClusterManager.

Definition setLocalStorage (v : gmap string string) (w : World) : World :=
  {| isModalOpen := isModalOpen w; presets := presets w;
     selectedPresets := selectedPresets w;
     newCluster := newCluster w; verifying := verifying w; errorMsg := errorMsg w;
     clusters := clusters w; selectedClusterId := selectedClusterId w;
     localStorage := v; log := log w; draws := draws w |}.

(** *** Presets and their store *)

Definition savePresetsToStorage `{Browser} (updatedPresets : list Preset.t)
    (w : World) : World :=
  let w := setPresets updatedPresets w in
  setLocalStorage (<["clusterPresets" := JSON_stringify updatedPresets]> (localStorage w)) w.

Definition saveAsPreset `{Browser} (now : Z) (w : World) : World :=
  let f := newCluster w in
  if negb (Js.truthyStr (Form.ip f))
     || negb (Js.truthyStr (Form.username f))
     || negb (Js.truthyStr (Form.password f))
  then setErrorMsg (Some "All fields are required to save a preset.") w
  else
    let presetId := pretty now in
    let newPreset :=
      {| Preset.id := presetId;
         Preset.type := Form.type f;
         Preset.ip := Form.ip f;
         Preset.username := Form.username f;
         Preset.password := Form.password f;
         Preset.apiVersion := Form.apiVersion f |} in
    let w := savePresetsToStorage (presets w ++ [newPreset]) w in
    setErrorMsg None w.

Definition deletePreset `{Browser} (id : string) (w : World) : World :=
  savePresetsToStorage (filter (λ p, Preset.id p ≠ id) (presets w)) w.

Definition fillFromPreset (preset : Preset.t) (w : World) : World :=
  setNewCluster
    {| Form.ip := Preset.ip preset;
       Form.username := Preset.username preset;
       Form.password := Preset.password preset;
       Form.type := Preset.type preset;
       Form.apiVersion := Some (default V2_0 (Preset.apiVersion preset)) |}
    w.

Definition deleteSelectedPresets `{Browser} (w : World) : World :=
  let remainingPresets := filter (λ p, Preset.id p ∉ selectedPresets w) (presets w) in
  let w := savePresetsToStorage remainingPresets w in
  setSelectedPresets ∅ w.

(** *** Removing connections *)

Definition removeCluster (id : string) (w : World) : World :=
  let selected := selectedClusterId w in
  let w := setClusters (λ prev, filter (λ c, ClusterConfig.id c ≠ id) prev) w in
  if decide (selected = Some id) then onSelectCluster "" w else w.

(** [confirmed] is the answer to [window.confirm]. *)
Definition removeAllClusters (confirmed : bool) (w : World) : World :=
  if bool_decide (length (clusters w) = 0) then w
  else if confirmed then onSelectCluster "" (setClusters (λ _, []) w)
  else w.

(** *** Importing a template: the [onload] of [handleFileUpload] *)

(** [v.toString().trim()]. *)
Definition fieldText `{Runtime} `{Browser} (v : Json.t) : option string :=
  match v with
  | Json.Null => None
  | Json.Bool true => Some (trim "true")
  | Json.Bool false => Some (trim "false")
  | Json.Num q => Some (trim (numberToString q))
  | Json.Str s => Some (trim s)
  | Json.Arr _ | Json.Obj _ => trim <$> compositeToString v
  end.

(** What the body of the [forEach] does with one item. *)
Inductive ItemResult :=
| Skipped
| Accepted (p : Preset.t)
| Raised.

(** [now] is the reading of [Date.now()] taken for this item, [i] its
    index. *)
Definition importItem `{Runtime} `{Browser} (now : Z) (i : nat) (item : Json.t)
  : ItemResult :=
  match item with
  | Json.Null => Raised
  | _ =>
      if Json.truthy (Json.get "ip" item)
         && Json.truthy (Json.get "username" item)
         && Json.truthy (Json.get "password" item)
      then
        match Json.get "ip" item ≫= fieldText,
              Json.get "username" item ≫= fieldText,
              Json.get "password" item ≫= fieldText with
        | Some ip, Some username, Some password =>
            Accepted
              {| Preset.id := pretty now +:+ "_" +:+ pretty i;
                 Preset.type :=
                   if Json.isStr "PC" (Json.get "type" item) then PC else PE;
                 Preset.ip := ip;
                 Preset.username := username;
                 Preset.password := password;
                 Preset.apiVersion :=
                   Some (if Json.isStr "v4.0" (Json.get "apiVersion" item)
                         then V4_0 else V2_0) |}
        | _, _, _ => Raised
        end
      else Skipped
  end.

(** The [forEach] from index [i] on; [None] when an item raised. *)
Fixpoint importItems `{Runtime} `{Browser} (clock : nat → Z) (i : nat)
    (items : list Json.t) (newPresets : list Preset.t) : option (list Preset.t) :=
  match items with
  | [] => Some newPresets
  | item :: rest =>
      match importItem (clock i) i item with
      | Skipped => importItems clock (S i) rest newPresets
      | Accepted p => importItems clock (S i) rest (newPresets ++ [p])
      | Raised => None
      end
  end.

(** [reader.onload] on the text of the chosen file; [clock i] is the
    reading of [Date.now()] for the item of index [i].  The handler closes
    over the presets of the render that installed it, which are those of
    the world it runs in. *)
Definition handleFileUpload `{Runtime} `{Browser} (clock : nat → Z) (text : string)
    (w : World) : World :=
  match JSON_parse_file text with
  | FileSyntaxError _ =>
      setErrorMsg (Some "Failed to parse the JSON file. Please check the format.") w
  | FileValue (Json.Arr jsonData) =>
      match importItems clock 0 jsonData [] with
      | None =>
          setErrorMsg (Some "Failed to parse the JSON file. Please check the format.") w
      | Some newPresets =>
          if bool_decide (0 < length newPresets) then
            let w := savePresetsToStorage (presets w ++ newPresets) w in
            setErrorMsg None w
          else setErrorMsg (Some "No valid data found in the template.") w
      end
  | FileValue _ =>
      setErrorMsg (Some "Invalid JSON format. Expected an array of objects.") w
  end.

End ClusterManagerRest.

(** ** A browser to evaluate with

    A store that knows two texts, the empty array and the text of
    [savedPreset] alone, and a file reader that knows three files. *)

Module FixtureRest.

Definition savedPreset : Preset.t :=
  {| Preset.id := "7200000"; Preset.type := PE; Preset.ip := "10.0.0.5";
     Preset.username := "admin"; Preset.password := "secret";
     Preset.apiVersion := Some V2_0 |}.

Definition savedText : string := "[preset 7200000 PE 10.0.0.5 admin secret v2.0]".

(** The file of two entries, the second without address and password. *)
Definition templateText : string := "template.json".

Definition templateValue : Json.t :=
  Json.Arr
    [Json.Obj [("ip", Json.Str "10.0.0.1"); ("username", Json.Str "a");
               ("password", Json.Str "b")];
     Json.Obj [("username", Json.Str "x")]].

(** A file whose second entry is [null]. *)
Definition brokenText : string := "broken.json".

Definition brokenValue : Json.t :=
  Json.Arr
    [Json.Obj [("ip", Json.Str "10.0.0.1"); ("username", Json.Str "a");
               ("password", Json.Str "b")];
     Json.Null].

Definition browser : Browser := {|
  JSON_stringify := λ ps,
    if decide (ps = []) then "[]"
    else if decide (ps = [savedPreset]) then savedText
    else "[...]";
  JSON_parse_file := λ text,
    if String.eqb text templateText then FileValue templateValue
    else if String.eqb text brokenText then FileValue brokenValue
    else if String.eqb text "{}" then FileValue (Json.Obj [])
    else FileSyntaxError "Unexpected token";
  trim := λ s, s;
  compositeToString := λ _, Some "[object Object]";
|}.

(** The platform of [Fixture], with a parser that reads back the two texts
    of the store. *)
Definition platform : Platform := {|
  verifyClusterConnection := @verifyClusterConnection Fixture.platform;
  JSON_parse := λ text,
    if String.eqb text "[]" then Parsed []
    else if String.eqb text savedText then Parsed [savedPreset]
    else SyntaxError "Unexpected token";
  tempIdAt := @tempIdAt Fixture.platform;
|}.

End FixtureRest.

(** * Notions the properties are stated with *)

Section DataExplorerNotions.
Import DataExplorer.

(** A sequence of clicks in the column drop-down. *)
Definition toggleAll (keys : list string) (s : State) : State :=
  foldl (λ s key, toggleField key s) s keys.

(** The other direction. *)
Definition flipDirection (d : Direction) : Direction :=
  match d with
  | Asc => Desc
  | Desc => Asc
  end.

End DataExplorerNotions.

Section BatchNotions.
Import ClusterManager.
Context `{Platform}.

(** What one candidate of a batch comes to: the configuration sent to the
    verification service and how the service answered. *)
Record Attempt := {
  preset : Preset.t;
  candidate : ClusterConfig.t;
  outcome : VerifyOutcome;
}.

(** The attempts of a batch over [ps] whose first id is the n-th drawn. *)
Fixpoint attempts (n : nat) (ps : list Preset.t) : list Attempt :=
  match ps with
  | [] => []
  | p :: ps =>
      let c := clusterOfPreset (tempIdAt n) p in
      {| preset := p; candidate := c; outcome := verifyClusterConnection c |}
        :: attempts (S n) ps
  end.

Definition connectedOf (a : Attempt) : option ClusterConfig.t :=
  match outcome a with
  | Verified clusterName => Some (finalClusterOf (candidate a) clusterName)
  | Refused _ => None
  end.

Definition successOf (a : Attempt) : option string :=
  match outcome a with
  | Verified _ => Some (Preset.ip (preset a))
  | Refused _ => None
  end.

Definition failureOf (a : Attempt) : option Failure.t :=
  match outcome a with
  | Verified _ => None
  | Refused message =>
      Some {| Failure.ip := Preset.ip (preset a);
              Failure.error := Js.orStr message "Connection failed" |}
  end.

(** The cells that the loop of a batch does not write. *)
Definition sameCells (w w' : World) : Prop :=
  isModalOpen w' = isModalOpen w
  ∧ presets w' = presets w
  ∧ selectedPresets w' = selectedPresets w
  ∧ newCluster w' = newCluster w
  ∧ verifying w' = verifying w
  ∧ errorMsg w' = errorMsg w
  ∧ selectedClusterId w' = selectedClusterId w
  ∧ localStorage w' = localStorage w.

(** The loop state on entry. *)
Definition batchStart (w : World) : Batch :=
  {| world := setErrorMsg None (setVerifying true w);
     successList := [];
     failureList := [] |}.

End BatchNotions.

Section ConnectionNotions.
Import ClusterManager ClusterManagerRest.

(** The [clusterToAdd] that [handleAddCluster] builds from the form. *)
Definition clusterOfForm (tempId : string) (f : Form.t) : ClusterConfig.t :=
  {| ClusterConfig.id := tempId;
     ClusterConfig.name := nameOfType (Form.type f);
     ClusterConfig.ip := Form.ip f;
     ClusterConfig.username := Form.username f;
     ClusterConfig.password := Form.password f;
     ClusterConfig.isVerified := false;
     ClusterConfig.type := Form.type f;
     ClusterConfig.apiVersion := default V2_0 (Form.apiVersion f) |}.

(** The three fields a connection or a preset needs are filled. *)
Definition filled (f : Form.t) : Prop :=
  Form.ip f ≠ "" ∧ Form.username f ≠ "" ∧ Form.password f ≠ "".

(** The store holds the presets of the state. *)
Definition inSync `{Browser} (w : World) : Prop :=
  localStorage w !! "clusterPresets" = Some (JSON_stringify (presets w)).

(** An item of an imported file that names an address, a user and a
    password. *)
Definition complete (item : Json.t) : bool :=
  Json.truthy (Json.get "ip" item)
  && Json.truthy (Json.get "username" item)
  && Json.truthy (Json.get "password" item).

(** The items of a file that are complete, each with its index, counted
    from [i]. *)
Fixpoint completeItems (i : nat) (items : list Json.t) : list (nat * Json.t) :=
  match items with
  | [] => []
  | item :: rest =>
      (if complete item then [(i, item)] else []) ++ completeItems (S i) rest
  end.

(** The text [text] is what [toString().trim()] makes of the property read
    [v]: a string gives itself, a number its decimal text, a boolean its
    name, an array or an object what its own [toString] returns, each
    trimmed. *)
Definition textOf `{Runtime} `{Browser} (v : option Json.t) (text : string) : Prop :=
  (∀ s, v = Some (Json.Str s) → text = trim s)
  ∧ (∀ q, v = Some (Json.Num q) → text = trim (numberToString q))
  ∧ (v = Some (Json.Bool true) → text = trim "true")
  ∧ (∀ l, v = Some (Json.Arr l) →
          ∃ t, compositeToString (Json.Arr l) = Some t ∧ text = trim t)
  ∧ (∀ ms, v = Some (Json.Obj ms) →
           ∃ t, compositeToString (Json.Obj ms) = Some t ∧ text = trim t).

(** The preset [p] is what the import makes of the item [x.2] of index
    [x.1]. *)
Definition importedFrom `{Runtime} `{Browser} (clock : nat → Z) (x : nat * Json.t)
    (p : Preset.t) : Prop :=
  Preset.id p = pretty (clock x.1) +:+ "_" +:+ pretty x.1
  ∧ Preset.type p = (if Json.isStr "PC" (Json.get "type" x.2) then PC else PE)
  ∧ Preset.apiVersion p
    = Some (if Json.isStr "v4.0" (Json.get "apiVersion" x.2) then V4_0 else V2_0)
  ∧ textOf (Json.get "ip" x.2) (Preset.ip p)
  ∧ textOf (Json.get "username" x.2) (Preset.username p)
  ∧ textOf (Json.get "password" x.2) (Preset.password p).

(** [toString] does not throw on the address, the user name and the
    password of [item]: those that are arrays or objects have a [toString]
    that returns. *)
Definition readable `{Browser} (item : Json.t) : Prop :=
  ∀ k v, k ∈ ["ip"; "username"; "password"] →
         Json.get k item = Some v →
         match v with
         | Json.Arr _ | Json.Obj _ => is_Some (compositeToString v)
         | _ => True
         end.

End ConnectionNotions.

(** * Sample inputs *)

Section DataExplorerSamples.
Import DataExplorer.

Definition clusterC1 : DataRow :=
  {[ "entityType" := Js.Str "cluster"; "entityName" := Js.Str "C1" ]}.

Definition hostOfC1 : DataRow :=
  {[ "entityType" := Js.Str "host"; "entityName" := Js.Str "H1";
     "parentCluster" := Js.Str "C1" ]}.

(** A host row that names no parent. *)
Definition strayHost : DataRow :=
  {[ "entityType" := Js.Str "host"; "entityName" := Js.Str "H2" ]}.

Definition vmUnnamed : DataRow := {[ "numVcpus" := Js.Num (Qc_of_Z 4) ]}.
Definition vmAlpha : DataRow :=
  {[ "name" := Js.Str "Alpha"; "numVcpus" := Js.Num (Qc_of_Z 2) ]}.
Definition vmBeta : DataRow :=
  {[ "name" := Js.Str "beta"; "numVcpus" := Js.Num (Qc_of_Z 8) ]}.

Definition rowOf (clusterName : string) : DataRow :=
  {[ "clusterName" := Js.Str clusterName ]}.

(** A user who looked at Performance with the maximum aggregation, set the
    CPU ratio to 5 under Resources, and is back on VM. *)
Definition afterTuning : State :=
  let s1 := (@setCategory Fixture.runtime 7200000 Fixture.cluster Performance initial).1 in
  let s2 := setAggregationType Max s1 in
  let s3 := (@setCategory Fixture.runtime 7260000 Fixture.cluster Resources s2).1 in
  let s4 := setRatio (Qc_of_Z 5) s3 in
  (@setCategory Fixture.runtime 7320000 Fixture.cluster VM s4).1.

Definition cpuRowOf (host : string) : DataRow :=
  {[ "table" := Js.Str "CPU"; "hostName" := Js.Str host;
     "pCore" := Js.Num (Qc_of_Z 32) ]}.

Definition memoryRowOf (host : string) : DataRow :=
  {[ "table" := Js.Str "Memory"; "hostName" := Js.Str host;
     "memoryGiB" := Js.Num (Qc_of_Z 512) ]}.

(** Resources, after a fetch that returned a memory row between two CPU
    rows, and with one column un-ticked. *)
Definition resourcesLoaded : State :=
  state (@run Fixture.runtime Fixture.cluster (mount initial)
           [ChooseCategory 7200000 Resources;
            TriggerFetch false;
            Settle 0 (Resolved [cpuRowOf "h1"; memoryRowOf "h1"; cpuRowOf "h2"]);
            ToggleField "metric1"]).

(** VM, after a fetch that returned Beta before Alpha and a click on the
    header of the name column. *)
Definition sortedByName : State :=
  state (@run Fixture.runtime Fixture.cluster (mount initial)
           [TriggerFetch false;
            Settle 0 (Resolved [vmBeta; vmAlpha]);
            ClickHeader "name"]).

(** Resources, after a fetch that returned one memory row and a row with
    no table. *)
Definition resourcesMemoryOnly : State :=
  state (@run Fixture.runtime Fixture.cluster (mount initial)
           [ChooseCategory 7200000 Resources;
            TriggerFetch false;
            Settle 0 (Resolved [memoryRowOf "h1"; rowOf "stray"])]).

(** A fetch of Performance over one hour, with the cache flag and the CVM
    core reservation given. *)
Definition performanceRequest (ignoreCache : bool) (cvmVcore : Qc) : FetchRequest :=
  {| r_cluster := Fixture.cluster;
     r_category := Performance;
     r_params := {| p_startTime := "2026-01-05T01:03";
                    p_endTime := "2026-01-05T02:03";
                    p_interval := Qc_of_Z 30;
                    p_aggregationType := Average;
                    p_ratio := Qc_of_Z 3;
                    p_rf := Qc_of_Z 2;
                    p_cvmVcore := cvmVcore;
                    p_cvmMemory := Qc_of_Z 0;
                    p_ignoreCache := ignoreCache |} |}.

End DataExplorerSamples.

Section ClusterManagerSamples.
Import ClusterManager.

Definition presetAt (n address : string) (v : option ApiVersion) : Preset.t :=
  {| Preset.id := n; Preset.type := PE; Preset.ip := address;
     Preset.username := "admin"; Preset.password := "secret";
     Preset.apiVersion := v |}.

(** Three saved presets, all ticked, the form open on a v4.0 entry; the
    backend of the fixture refuses the second address. *)
Definition threeSelected : World :=
  selectAllPresets
    (setNewCluster
       {| Form.ip := "10.0.0.9"; Form.username := "admin";
          Form.password := "secret"; Form.type := PE;
          Form.apiVersion := Some V4_0 |}
       (setIsModalOpen true
          (setPresets [presetAt "1" "10.0.0.1" (Some V2_0);
                       presetAt "2" "10.0.0.2" None;
                       presetAt "3" "10.0.0.3" (Some V4_0)]
             (initial ∅)))).


Definition noneSelected : World := deselectAllPresets threeSelected.

(** The three presets deleted one by one while they were ticked. *)
Definition allDeleted : World :=
  @ClusterManagerRest.deletePreset FixtureRest.browser "3"
    (@ClusterManagerRest.deletePreset FixtureRest.browser "2"
       (@ClusterManagerRest.deletePreset FixtureRest.browser "1" threeSelected)).

(** Two verified connections, the second one active. *)
Definition twoConnected : World :=
  onSelectCluster "b"
    (setClusters
       (λ _, [finalClusterOf (clusterOfPreset "a" (presetAt "1" "10.0.0.1" None)) "alpha";
              finalClusterOf (clusterOfPreset "b" (presetAt "3" "10.0.0.3" None)) "beta"])
       (initial ∅)).

(** The form filled with an address the backend of the fixture accepts, and
    with the one it refuses. *)
Definition formFor (address : string) : World :=
  setNewCluster
    {| Form.ip := address; Form.username := "admin"; Form.password := "secret";
       Form.type := PE; Form.apiVersion := Some V2_0 |}
    (setIsModalOpen true (initial ∅)).

End ClusterManagerSamples.

(** * Properties of DataExplorer *)

Section ColumnSelection.
Import DataExplorer.

Lemma toggleField_selected key s :
  selectedFields (toggleField key s) =
    if bool_decide (key ∈ selectedFields s)
    then filter (λ f, f ≠ key) (selectedFields s)
    else selectedFields s ++ [key].
Proof. reflexivity. Qed.

Lemma toggleField_NoDup key s :
  NoDup (selectedFields s) → NoDup (selectedFields (toggleField key s)).
Proof.
  intros Hnd. rewrite toggleField_selected. case_bool_decide as Hin.
  - by apply NoDup_filter.
  - apply NoDup_app. split_and!; [done | | apply NoDup_singleton].
    intros x Hx Hx'. apply list_elem_of_singleton in Hx'. by subst.
Qed.

Lemma toggleField_within (K : list string) key s :
  key ∈ K → selectedFields s ⊆ K → selectedFields (toggleField key s) ⊆ K.
Proof.
  intros HK Hsub x. rewrite toggleField_selected. case_bool_decide.
  - intros [_ Hx]%list_elem_of_filter. by apply Hsub.
  - intros [Hx | Hx]%elem_of_app; [by apply Hsub |].
    apply list_elem_of_singleton in Hx. by subst.
Qed.

Lemma toggleAll_invariant (K : list string) keys : ∀ s,
  Forall (λ key, key ∈ K) keys →
  NoDup (selectedFields s) → selectedFields s ⊆ K →
  NoDup (selectedFields (toggleAll keys s)) ∧ selectedFields (toggleAll keys s) ⊆ K
  ∧ category (toggleAll keys s) = category s.
Proof.
  induction keys as [| key keys IH]; intros s Hkeys Hnd Hsub; [done |].
  apply Forall_cons in Hkeys as [Hkey Hkeys]. simpl.
  destruct (IH (toggleField key s)) as (? & ? & ?); try done.
  - by apply toggleField_NoDup.
  - by apply toggleField_within.
Qed.

Lemma DEFAULT_FIELDS_in_schema c :
  NoDup (DEFAULT_FIELDS c) ∧ DEFAULT_FIELDS c ⊆ schemaKeys c.
Proof.
  split.
  - destruct c; compute_done.
  - intros x Hx. destruct c;
      repeat (apply elem_of_cons in Hx as [-> | Hx];
              [compute_done |]);
      by apply elem_of_nil in Hx.
Qed.

End ColumnSelection.

Section ColumnSelectionClaims.
Import DataExplorer.

(** C4, as amended.  Starting from the default selection of the active
    category, after any sequence of [toggleField] calls with keys of that
    category's schema the selection is a duplicate-free subset of the
    schema's keys; it is kept in selection order, not in the schema's
    order: a key that is absent is appended after the keys already
    selected, a key that is present is removed and the rest keeps its
    order, and this holds for every key, in the schema or not. *)
Theorem toggleField_selection (s : State) (keys : list string) :
  selectedFields s = DEFAULT_FIELDS (category s) →
  Forall (λ key, key ∈ schemaKeys (category s)) keys →
  NoDup (selectedFields (toggleAll keys s))
  ∧ selectedFields (toggleAll keys s) ⊆ schemaKeys (category s)
  ∧ ∀ key,
      selectedFields (toggleField key (toggleAll keys s)) =
        if bool_decide (key ∈ selectedFields (toggleAll keys s))
        then filter (λ f, f ≠ key) (selectedFields (toggleAll keys s))
        else selectedFields (toggleAll keys s) ++ [key].
Proof.
  intros Hdef Hkeys.
  destruct (DEFAULT_FIELDS_in_schema (category s)) as [Hnd Hsub].
  rewrite <- Hdef in Hnd, Hsub.
  destruct (toggleAll_invariant (schemaKeys (category s)) keys s) as (? & ? & _);
    try done.
Qed.

Lemma toggleField_selection_witness :
  NoDup (selectedFields (toggleAll ["uuid"; "name"] initial))
  ∧ selectedFields (toggleAll ["uuid"; "name"] initial) ⊆ schemaKeys VM
  ∧ ∀ key,
      selectedFields (toggleField key (toggleAll ["uuid"; "name"] initial)) =
        if bool_decide (key ∈ selectedFields (toggleAll ["uuid"; "name"] initial))
        then filter (λ f, f ≠ key) (selectedFields (toggleAll ["uuid"; "name"] initial))
        else selectedFields (toggleAll ["uuid"; "name"] initial) ++ [key].
Proof.
  apply (toggleField_selection initial ["uuid"; "name"]).
  - reflexivity.
  - repeat constructor; compute_done.
Defined.

(** Against C4 as stated: un-ticking and re-ticking the first default
    column of VM moves it to the end, out of the schema's order; and a key
    that no schema has is added to the selection. *)
Lemma toggleField_not_canonical :
  selectedFields (toggleAll ["clusterName"; "clusterName"] initial)
    = ["name"; "powerState"; "clusterName"]
  ∧ (¬ inCanonicalOrder (schemaKeys VM)
        (selectedFields (toggleAll ["clusterName"; "clusterName"] initial)))
  ∧ ("rack" ∉ schemaKeys VM)
  ∧ selectedFields (toggleField "rack" initial)
      = ["clusterName"; "name"; "powerState"; "rack"].
Proof. split_and!; [reflexivity | compute_done | compute_done | reflexivity]. Qed.

End ColumnSelectionClaims.

Section Hierarchy.
Import DataExplorer.

Lemma visibleRows_filter c expanded rows :
  c ≠ Resources →
  visibleRows c expanded rows
    = filter (λ row, is_Some (renderRow c expanded row)) rows.
Proof.
  intros Hc. unfold visibleRows. rewrite decide_False by done.
  induction rows as [| row rows IH]; [done |].
  change (omap (renderRow c expanded) (row :: rows))
    with (match renderRow c expanded row with
          | Some y => y :: omap (renderRow c expanded) rows
          | None => omap (renderRow c expanded) rows
          end).
  rewrite filter_cons, IH. unfold renderRow.
  destruct (isHostRow c row && _ && _).
  - rewrite decide_False; [done | by intros [? ?]].
  - rewrite decide_True; [done | by eexists].
Qed.

Lemma visibleRows_performance expanded rows :
  visibleRows Performance expanded rows
    = filter (λ row, is_Some (renderRow Performance expanded row)) rows.
Proof. by apply visibleRows_filter. Qed.

Lemma renderRow_other expanded (row : DataRow) :
  row !! "entityType" ≠ Some (Js.Str "host") →
  renderRow Performance expanded row = Some row.
Proof.
  intros Hne. unfold renderRow, isHostRow.
  rewrite (bool_decide_eq_false_2 _ Hne). by rewrite andb_false_r.
Qed.

Lemma renderRow_host expanded (row : DataRow) :
  row !! "entityType" = Some (Js.Str "host") →
  is_Some (renderRow Performance expanded row) ↔
    Js.truthyOpt (row !! "parentCluster") = false
    ∨ ∃ n, row !! "parentCluster" = Some (Js.Str n) ∧ n ∈ expanded.
Proof.
  intros Hhost. unfold renderRow, parentCluster, isHostRow.
  rewrite (bool_decide_eq_true_2 _ Hhost), bool_decide_eq_true_2 by done. simpl.
  destruct (row !! "parentCluster") as [[| n | q | b] |] eqn:Hp; simpl.
  - split; [by left | by eexists].
  - destruct (negb (String.eqb n "")) eqn:Hn; simpl.
    + case_bool_decide as Hin; simpl.
      * split; [right; by exists n | by eexists].
      * split; [by intros [? ?] |].
        intros [? | (n' & [= <-] & ?)]; done.
    + split; [by left | by eexists].
  - destruct (negb (bool_decide (q = 0%Qc))) eqn:Hq; simpl.
    + split; [by intros [? ?] |]. intros [? | (n' & ? & ?)]; done.
    + split; [by left | by eexists].
  - destruct b; simpl.
    + split; [by intros [? ?] |]. intros [? | (n' & ? & ?)]; done.
    + split; [by left | by eexists].
  - split; [by left | by eexists].
Qed.

Lemma toggled_out (n : string) (X : gset string) : n ∉ X ∖ {[n]}.
Proof. rewrite elem_of_difference, elem_of_singleton. tauto. Qed.

Lemma toggled_in (n : string) (X : gset string) : n ∈ X ∪ {[n]}.
Proof. rewrite elem_of_union, elem_of_singleton. tauto. Qed.

Lemma toggleClusterExpansion_twice n s :
  expandedClusters (toggleClusterExpansion n (toggleClusterExpansion n s))
    = expandedClusters s.
Proof.
  unfold toggleClusterExpansion; simpl.
  destruct (decide (n ∈ expandedClusters s)) as [Hin | Hout].
  - rewrite (bool_decide_eq_true_2 _ Hin).
    rewrite (bool_decide_eq_false_2 _ (toggled_out n _)).
    apply set_eq. intros x.
    rewrite elem_of_union, elem_of_difference, elem_of_singleton.
    destruct (decide (x = n)) as [-> | Hne]; tauto.
  - rewrite (bool_decide_eq_false_2 _ Hout).
    rewrite (bool_decide_eq_true_2 _ (toggled_in n _)).
    apply set_eq. intros x.
    rewrite elem_of_difference, elem_of_union, elem_of_singleton.
    destruct (decide (x = n)) as [-> | Hne]; tauto.
Qed.

End Hierarchy.

Section HierarchyClaims.
Import DataExplorer.

(** C5, as amended.  For every Performance result set and every set of
    expanded clusters, [visibleRows] keeps the rows in their input order;
    every row that is not a host row (a cluster row, or a row with no
    entity kind) is visible; a host row is visible if and only if its
    parent name is missing or empty (falsy), or is a member of the
    expanded set.  [toggleClusterExpansion] flips membership: a host row
    under a collapsed cluster with a non-empty name is invisible, visible
    after one toggle of that cluster, invisible after a second. *)
Theorem visibleRows_hierarchy (expanded : gset string) (rows : list DataRow) :
  visibleRows Performance expanded rows `sublist_of` rows
  ∧ (∀ row, row ∈ rows → row !! "entityType" ≠ Some (Js.Str "host") →
       row ∈ visibleRows Performance expanded rows)
  ∧ (∀ row, row ∈ rows → row !! "entityType" = Some (Js.Str "host") →
       (row ∈ visibleRows Performance expanded rows ↔
          Js.truthyOpt (row !! "parentCluster") = false
          ∨ ∃ n, row !! "parentCluster" = Some (Js.Str n) ∧ n ∈ expanded))
  ∧ (∀ s host n,
       host ∈ rows →
       host !! "entityType" = Some (Js.Str "host") →
       host !! "parentCluster" = Some (Js.Str n) →
       n ≠ "" →
       n ∉ expandedClusters s →
       (host ∉ visibleRows Performance (expandedClusters s) rows)
       ∧ (host ∈ visibleRows Performance
                   (expandedClusters (toggleClusterExpansion n s)) rows)
       ∧ (host ∉ visibleRows Performance
                   (expandedClusters
                      (toggleClusterExpansion n (toggleClusterExpansion n s)))
                   rows)).
Proof.
  split_and!.
  - rewrite visibleRows_performance. apply sublist_filter.
  - intros row Hin Hkind. rewrite visibleRows_performance.
    apply list_elem_of_filter. split; [| done].
    rewrite renderRow_other by done. by eexists.
  - intros row Hin Hkind. rewrite visibleRows_performance, list_elem_of_filter.
    rewrite (renderRow_host _ _ Hkind). tauto.
  - intros s host n Hin Hkind Hparent Hn Hout.
    assert (Htruthy : Js.truthyOpt (host !! "parentCluster") = true).
    { rewrite Hparent. simpl. apply negb_true_iff.
      by apply String.eqb_neq. }
    assert (Hhidden : ∀ e, n ∉ e → host ∉ visibleRows Performance e rows).
    { intros e He. rewrite visibleRows_performance, list_elem_of_filter.
      rewrite (renderRow_host _ _ Hkind). intros [[Hf | (n' & Hn' & Hin')] _].
      - congruence.
      - rewrite Hparent in Hn'. injection Hn' as <-. done. }
    split_and!.
    + by apply Hhidden.
    + rewrite visibleRows_performance, list_elem_of_filter.
      rewrite (renderRow_host _ _ Hkind). split; [| done].
      right. exists n. split; [done |].
      unfold toggleClusterExpansion; simpl.
      rewrite (bool_decide_eq_false_2 _ Hout). apply toggled_in.
    + apply Hhidden. by rewrite toggleClusterExpansion_twice.
Qed.

Lemma visibleRows_hierarchy_witness :
  (clusterC1 ∈ visibleRows Performance ∅ [clusterC1; hostOfC1])
  ∧ (hostOfC1 ∈ visibleRows Performance {[ "C1" ]} [clusterC1; hostOfC1])
  ∧ (hostOfC1 ∉ visibleRows Performance (expandedClusters initial)
                  [clusterC1; hostOfC1])
  ∧ (hostOfC1 ∈ visibleRows Performance
                  (expandedClusters (toggleClusterExpansion "C1" initial))
                  [clusterC1; hostOfC1])
  ∧ (hostOfC1 ∉ visibleRows Performance
                  (expandedClusters
                     (toggleClusterExpansion "C1"
                        (toggleClusterExpansion "C1" initial)))
                  [clusterC1; hostOfC1]).
Proof.
  destruct (visibleRows_hierarchy ∅ [clusterC1; hostOfC1])
    as (_ & Hother & _ & Htoggle).
  destruct (visibleRows_hierarchy {[ "C1" ]} [clusterC1; hostOfC1])
    as (_ & _ & Hhost & _).
  split_and!.
  - apply Hother; [compute_done | discriminate].
  - apply Hhost; [compute_done | reflexivity |].
    right. exists "C1". split; [reflexivity | compute_done].
  - apply (Htoggle initial hostOfC1 "C1");
      [compute_done | reflexivity | reflexivity | discriminate | compute_done].
  - apply (Htoggle initial hostOfC1 "C1");
      [compute_done | reflexivity | reflexivity | discriminate | compute_done].
  - apply (Htoggle initial hostOfC1 "C1");
      [compute_done | reflexivity | reflexivity | discriminate | compute_done].
Defined.

(** Against C5 as stated: with nothing expanded, a host row that names no
    parent is on screen, although its (missing) parent is not a member of
    the expanded set. *)
Lemma stray_host_is_visible :
  strayHost !! "entityType" = Some (Js.Str "host")
  ∧ has ∅ (strayHost !! "parentCluster") = false
  ∧ visibleRows Performance ∅ [clusterC1; strayHost] = [clusterC1; strayHost].
Proof. split_and!; reflexivity. Qed.

End HierarchyClaims.

Section Sorting.
Import DataExplorer.
Context `{Runtime}.

Lemma Qc_minus_neg (x y : Qc) : (x - y < 0 ↔ x < y)%Qc.
Proof.
  rewrite (Qclt_minus_iff x y). unfold Qcminus.
  split; intros Hlt.
  - apply Qclt_minus_iff in Hlt.
    replace (0 + - (x + - y))%Qc with (y + - x)%Qc in Hlt by ring. done.
  - apply Qclt_minus_iff.
    replace (0 + - (x + - y))%Qc with (y + - x)%Qc by ring. done.
Qed.

Lemma compare_nullish_left f dir (a b : DataRow) :
  Js.isNullish (a !! f) = true → compare f dir a b = 1%Qc.
Proof.
  unfold compare. by destruct (a !! f) as [[] |].
Qed.

Lemma compare_nullish_right f dir (a b : DataRow) :
  Js.isNullish (a !! f) = false → Js.isNullish (b !! f) = true →
  compare f dir a b = (-1)%Qc.
Proof.
  unfold compare.
  by destruct (a !! f) as [[] |]; destruct (b !! f) as [[] |].
Qed.

End Sorting.

Section SortingClaims.
Import DataExplorer.

(** C6.  For every pair of rows, sort field and direction: a row whose
    value for the field is null or missing is ranked after a row that has
    one, in ascending as in descending direction; two numbers are compared
    numerically; any other pair of values is compared as lower-cased text
    with [localeCompare]; and the direction swaps the two operands. *)
Theorem compare_ordering `{Runtime} (f : string) (a b : DataRow) :
  (∀ dir, Js.isNullish (a !! f) = true → Js.isNullish (b !! f) = false →
     (0 < compare f dir a b)%Qc ∧ (compare f dir b a < 0)%Qc)
  ∧ (∀ x y, a !! f = Some (Js.Num x) → b !! f = Some (Js.Num y) →
       compare f Asc a b = (x - y)%Qc
       ∧ compare f Desc a b = (y - x)%Qc
       ∧ ((compare f Asc a b < 0)%Qc ↔ (x < y)%Qc)
       ∧ ((compare f Desc a b < 0)%Qc ↔ (y < x)%Qc))
  ∧ (∀ av bv, a !! f = Some av → b !! f = Some bv →
       av ≠ Js.Null → bv ≠ Js.Null →
       Js.isNumber av && Js.isNumber bv = false →
       compare f Asc a b
         = Qc_of_Z (localeCompare (toLowerCase (toString av))
                                  (toLowerCase (toString bv)))
       ∧ compare f Desc a b
         = Qc_of_Z (localeCompare (toLowerCase (toString bv))
                                  (toLowerCase (toString av))))
  ∧ (Js.isNullish (a !! f) = false → Js.isNullish (b !! f) = false →
       compare f Desc a b = compare f Asc b a).
Proof.
  split_and!.
  - intros dir Ha Hb.
    rewrite (compare_nullish_left f dir a b Ha).
    rewrite (compare_nullish_right f dir b a Hb Ha). done.
  - intros x y Ha Hb. unfold compare. rewrite Ha, Hb.
    split_and!; [done | done | apply Qc_minus_neg | apply Qc_minus_neg].
  - intros av bv Ha Hb Hav Hbv Hnum. unfold compare. rewrite Ha, Hb.
    by destruct av, bv.
  - intros Ha Hb. unfold compare.
    destruct (a !! f) as [[| sa | qa | ba] |]; try done;
      destruct (b !! f) as [[| sb | qb | bb] |]; done.
Qed.

Lemma compare_ordering_witness :
  (∀ dir, (0 < @compare Fixture.runtime "name" dir vmUnnamed vmAlpha)%Qc
          ∧ (@compare Fixture.runtime "name" dir vmAlpha vmUnnamed < 0)%Qc)
  ∧ (@compare Fixture.runtime "numVcpus" Asc vmAlpha vmBeta < 0)%Qc
  ∧ @compare Fixture.runtime "name" Asc vmAlpha vmBeta = Qc_of_Z (-1)
  ∧ @compare Fixture.runtime "name" Desc vmAlpha vmBeta
      = @compare Fixture.runtime "name" Asc vmBeta vmAlpha.
Proof.
  split_and!.
  - intros dir.
    by apply (@compare_ordering Fixture.runtime "name" vmUnnamed vmAlpha).
  - destruct (@compare_ordering Fixture.runtime "numVcpus" vmAlpha vmBeta)
      as (_ & Hnum & _).
    destruct (Hnum (Qc_of_Z 2) (Qc_of_Z 8)) as (_ & _ & Hlt & _);
      [reflexivity | reflexivity |].
    apply Hlt. reflexivity.
  - destruct (@compare_ordering Fixture.runtime "name" vmAlpha vmBeta)
      as (_ & _ & Htext & _).
    destruct (Htext (Js.Str "Alpha") (Js.Str "beta")) as [Hasc _];
      [reflexivity | reflexivity | discriminate | discriminate | reflexivity |].
    rewrite Hasc. reflexivity.
  - by apply (@compare_ordering Fixture.runtime "name" vmAlpha vmBeta).
Defined.

End SortingClaims.

Section CategoryChange.
Import DataExplorer.
Context `{Runtime}.

Lemma formatDateTime_truthy date : Js.truthyStr (formatDateTime date) = true.
Proof.
  unfold formatDateTime, Js.truthyStr.
  by destruct (pretty (getFullYear date)).
Qed.

(** The second effect never fetches in the two categories that wait for
    the Apply button, however often it is re-run. *)
Lemma autoFetchEffect_waits cluster s :
  category s = Performance ∨ category s = Resources →
  autoFetchEffect cluster s = (s, None).
Proof.
  unfold autoFetchEffect. intros [-> | ->]; simpl; by rewrite ?andb_false_r.
Qed.

Lemma setCategory_changed now cluster c s :
  category s ≠ c →
  setCategory now cluster c s
    = autoFetchEffect cluster (categoryEffect now (setCategoryCell c s)).
Proof.
  intros Hne. unfold setCategory. by rewrite decide_False.
Qed.

(** Choosing the category that is already active changes nothing. *)
Lemma setCategory_same now cluster s :
  setCategory now cluster (category s) s = (s, None).
Proof. unfold setCategory. by rewrite decide_True. Qed.

End CategoryChange.

Section CategoryChangeClaims.
Import DataExplorer.

(** C2, as amended.  For every prior state in another category,
    immediately after the change to Performance the start and end time are
    the clock an hour ago and the clock now, the interval is 30, the
    selected columns are the category's defaults, the result set is empty
    and no fetch is issued: neither by the change nor by a later re-run of
    the auto-fetch effect, while an explicit [loadData] does issue one.
    The same holds for the change to Resources, except that it seeds
    nothing.  The aggregation and the four Resources parameters are not
    touched by a category change: they keep the values of the prior state,
    which are average, ratio 3, replication factor 2 and reservations 0 in
    the state the component mounts with. *)
Theorem setCategory_seeds `{Runtime} (now : Z) (cluster : ClusterConfig.t)
    (s : State) :
  (category s ≠ Performance →
     let r := setCategory now cluster Performance s in
     category r.1 = Performance
     ∧ startTime r.1 = formatDateTime (now - 3600000)
     ∧ endTime r.1 = formatDateTime now
     ∧ interval r.1 = Qc_of_Z 30
     ∧ selectedFields r.1 = DEFAULT_FIELDS Performance
     ∧ data r.1 = []
     ∧ r.2 = None
     ∧ autoFetchEffect cluster r.1 = (r.1, None)
     ∧ (∀ ignoreCache, is_Some (loadData cluster ignoreCache r.1).2)
     ∧ aggregationType r.1 = aggregationType s)
  ∧ (category s ≠ Resources →
       let r := setCategory now cluster Resources s in
       category r.1 = Resources
       ∧ selectedFields r.1 = DEFAULT_FIELDS Resources
       ∧ data r.1 = []
       ∧ r.2 = None
       ∧ autoFetchEffect cluster r.1 = (r.1, None)
       ∧ ratio r.1 = ratio s ∧ rf r.1 = rf s
       ∧ cvmVcore r.1 = cvmVcore s ∧ cvmMemory r.1 = cvmMemory s)
  ∧ aggregationType initial = Average
  ∧ ratio initial = Qc_of_Z 3 ∧ rf initial = Qc_of_Z 2
  ∧ cvmVcore initial = Qc_of_Z 0 ∧ cvmMemory initial = Qc_of_Z 0.
Proof.
  split_and!; try reflexivity.
  - intros Hne r. subst r. rewrite setCategory_changed by done.
    rewrite autoFetchEffect_waits by (by left). simpl.
    split_and!; try reflexivity.
    + by apply autoFetchEffect_waits; left.
    + intros ignoreCache. unfold loadData; simpl.
      rewrite !formatDateTime_truthy. simpl. by eexists.
  - intros Hne r. subst r. rewrite setCategory_changed by done.
    rewrite autoFetchEffect_waits by (by right). simpl.
    split_and!; try reflexivity.
    by apply autoFetchEffect_waits; right.
Qed.

Lemma setCategory_seeds_witness :
  let r := @setCategory Fixture.runtime 7380000 Fixture.cluster Performance afterTuning in
  let r' := @setCategory Fixture.runtime 7380000 Fixture.cluster Resources afterTuning in
  startTime r.1 = "2026-01-05T01:03"
  ∧ endTime r.1 = "2026-01-05T02:03"
  ∧ interval r.1 = Qc_of_Z 30
  ∧ r.2 = None
  ∧ aggregationType r.1 = aggregationType afterTuning
  ∧ selectedFields r'.1 = DEFAULT_FIELDS Resources
  ∧ r'.2 = None
  ∧ ratio r'.1 = ratio afterTuning.
Proof.
  destruct (@setCategory_seeds Fixture.runtime 7380000 Fixture.cluster afterTuning)
    as (Hperf & Hres & _).
  destruct Hperf as (_ & Hs & He & Hi & _ & _ & Hr & _ & _ & Ha); [discriminate |].
  destruct Hres as (_ & Hsel & _ & Hr' & _ & Hratio & _); [discriminate |].
  split_and!; [rewrite Hs | rewrite He | | | | | |]; done.
Defined.

(** Against C2 as stated: for that user the change to Performance leaves
    the aggregation at the maximum, and the change to Resources leaves the
    ratio at 5. *)
Lemma setCategory_keeps_old_parameters :
  aggregationType
    (@setCategory Fixture.runtime 7380000 Fixture.cluster Performance afterTuning).1
    = Max
  ∧ ratio
      (@setCategory Fixture.runtime 7380000 Fixture.cluster Resources afterTuning).1
      = Qc_of_Z 5.
Proof. split; reflexivity. Qed.

End CategoryChangeClaims.

Section Fetching.
Import DataExplorer.
Context `{Runtime}.

(** The guards of [loadData] read neither [loading] nor [ignoreCache]. *)
Lemma loadData_issued cluster ignoreCache s :
  is_Some (loadData cluster ignoreCache s).2 →
  (loadData cluster ignoreCache s).1 = setLoading true s
  ∧ ∀ ignoreCache', is_Some (loadData cluster ignoreCache' (setLoading true s)).2.
Proof.
  unfold loadData; simpl. intros Hsome.
  destruct (bool_decide (category s = Performance) && _); [by destruct Hsome |].
  destruct (bool_decide (category s = Resources) && _); [by destruct Hsome |].
  split; [done |]. intros ?. by eexists.
Qed.

Lemma step_trigger cluster w ignoreCache :
  is_Some (loadData cluster ignoreCache (state w)).2 →
  ∃ r, step cluster w (TriggerFetch ignoreCache)
       = {| state := setLoading true (state w);
            outstanding := outstanding w ++ [r];
            notices := notices w |}.
Proof.
  intros Hsome. destruct (loadData_issued _ _ _ Hsome) as [Hst _].
  destruct Hsome as [r Hr]. exists r. unfold step, issue.
  by rewrite Hst, Hr.
Qed.

Lemma step_settle cluster w i o :
  i < length (outstanding w) →
  step cluster w (Settle i o)
    = {| state := (loadData_settled o (state w)).1;
         outstanding := delete i (outstanding w);
         notices := notices w ++ (loadData_settled o (state w)).2 |}.
Proof.
  intros Hi. unfold step.
  by destruct (lookup_lt_is_Some_2 _ _ Hi) as [r ->].
Qed.

(** Two fetches triggered one after the other, both still outstanding:
    the world in which their responses will arrive. *)
Lemma run_two_triggers cluster w ic1 ic2 :
  is_Some (loadData cluster ic1 (state w)).2 →
  ∃ r1 r2, run cluster w [TriggerFetch ic1; TriggerFetch ic2]
           = {| state := setLoading true (setLoading true (state w));
                outstanding := outstanding w ++ [r1; r2];
                notices := notices w |}.
Proof.
  intros Hsome. unfold run. cbn [foldl].
  destruct (step_trigger cluster w ic1 Hsome) as [r1 ->].
  destruct (loadData_issued _ _ _ Hsome) as [_ Hnext].
  destruct (step_trigger cluster
              {| state := setLoading true (state w);
                 outstanding := outstanding w ++ [r1];
                 notices := notices w |} ic2 (Hnext ic2)) as [r2 ->].
  exists r1, r2. cbn [state outstanding notices].
  by rewrite <- app_assoc.
Qed.

Lemma run_app cluster w es es' :
  run cluster w (es ++ es') = run cluster (run cluster w es) es'.
Proof. apply foldl_app. Qed.

End Fetching.

Section FetchingClaims.
Import DataExplorer.

(** C1, as amended.  The component keeps no fetch generation: the response
    of any outstanding fetch is applied when it arrives.  A successful
    response replaces the whole result set by its payload and clears the
    loading flag; a failed one leaves the result set as it is and raises
    the failure notice.  So for two fetches g1 and g2, g2 triggered while
    g1 is outstanding: g1's response arriving first puts g1's payload on
    screen until g2's arrives, after which only g2's payload is visible;
    arriving last, g1's payload replaces g2's. *)
Theorem responses_applied_on_arrival `{Runtime} (cluster : ClusterConfig.t)
    (w : World) :
  (∀ i result, i < length (outstanding w) →
     let w' := step cluster w (Settle i (Resolved result)) in
     data (state w') = result
     ∧ loading (state w') = false
     ∧ outstanding w' = delete i (outstanding w))
  ∧ (∀ i message, i < length (outstanding w) →
       let w' := step cluster w (Settle i (Rejected message)) in
       data (state w') = data (state w)
       ∧ loading (state w') = false
       ∧ notices w' = notices w ++ [ConsoleError; Alert "Failed to fetch data."])
  ∧ (∀ ic1 ic2 p1 p2,
       is_Some (loadData cluster ic1 (state w)).2 →
       let g1 := length (outstanding w) in
       let g2 := S (length (outstanding w)) in
       let both := [TriggerFetch ic1; TriggerFetch ic2] in
       data (state (run cluster w (both ++ [Settle g1 (Resolved p1)]))) = p1
       ∧ data (state (run cluster w
                        (both ++ [Settle g1 (Resolved p1); Settle g1 (Resolved p2)])))
         = p2
       ∧ data (state (run cluster w
                        (both ++ [Settle g2 (Resolved p2); Settle g1 (Resolved p1)])))
         = p1).
Proof.
  split_and!.
  - intros i result Hi w'. subst w'. by rewrite step_settle.
  - intros i message Hi w'. subst w'. by rewrite step_settle.
  - intros ic1 ic2 p1 p2 Hsome g1 g2 both. subst g1 g2 both.
    rewrite !run_app.
    destruct (run_two_triggers cluster w ic1 ic2 Hsome) as (r1 & r2 & ->).
    unfold run. cbn [foldl].
    split_and!.
    + rewrite step_settle; [done |]. cbn [outstanding].
      rewrite length_app. simpl. lia.
    + rewrite (step_settle _ _ (length (outstanding w)) (Resolved p1));
        [| cbn [outstanding]; rewrite length_app; simpl; lia].
      rewrite step_settle; [done |]. cbn [outstanding].
      rewrite length_delete; [rewrite length_app; simpl; lia |].
      apply lookup_lt_is_Some_2. rewrite length_app. simpl. lia.
    + rewrite (step_settle _ _ (S (length (outstanding w))) (Resolved p2));
        [| cbn [outstanding]; rewrite length_app; simpl; lia].
      rewrite step_settle; [done |]. cbn [outstanding].
      rewrite length_delete; [rewrite length_app; simpl; lia |].
      apply lookup_lt_is_Some_2. rewrite length_app. simpl. lia.
Qed.

Lemma responses_applied_on_arrival_witness :
  let w := mount initial in
  let one := @run Fixture.runtime Fixture.cluster w [TriggerFetch false] in
  let both := [TriggerFetch false; TriggerFetch true] in
  data (state (@step Fixture.runtime Fixture.cluster one
                 (Settle 0 (Resolved [rowOf "g1"]))))
    = [rowOf "g1"]
  ∧ data (state (@step Fixture.runtime Fixture.cluster one
                   (Settle 0 (Rejected "Failed to fetch data"))))
    = []
  ∧ data (state (@run Fixture.runtime Fixture.cluster w
                   (both ++ [Settle 0 (Resolved [rowOf "g1"]);
                             Settle 0 (Resolved [rowOf "g2"])])))
    = [rowOf "g2"]
  ∧ data (state (@run Fixture.runtime Fixture.cluster w
                   (both ++ [Settle 1 (Resolved [rowOf "g2"]);
                             Settle 0 (Resolved [rowOf "g1"])])))
    = [rowOf "g1"].
Proof.
  intros w one both.
  destruct (@responses_applied_on_arrival Fixture.runtime Fixture.cluster one)
    as (Hok & Hfailed & _).
  destruct (Hok 0 [rowOf "g1"]) as (Hdata & _); [vm_compute; lia |].
  destruct (Hfailed 0 "Failed to fetch data") as (Hkept & _); [vm_compute; lia |].
  destruct (@responses_applied_on_arrival Fixture.runtime Fixture.cluster w)
    as (_ & _ & Hpair).
  destruct (Hpair false true [rowOf "g1"] [rowOf "g2"]) as (_ & Hfirst & Hlast).
  - by eexists.
  - split_and!; [exact Hdata | exact Hkept | exact Hfirst | exact Hlast].
Defined.

(** Against C1 as stated: fetch g2 is triggered while g1 is outstanding.
    The response of g1 arriving then is not discarded, it becomes the
    result set and clears the loading flag although g2 is still
    outstanding; and when it arrives after the response of g2, the result
    set ends up with g1's payload, not g2's. *)
Lemma stale_response_is_applied :
  let w := mount initial in
  let both := [TriggerFetch false; TriggerFetch true] in
  let early := @run Fixture.runtime Fixture.cluster w
                 (both ++ [Settle 0 (Resolved [rowOf "g1"])]) in
  let late := @run Fixture.runtime Fixture.cluster w
                (both ++ [Settle 1 (Resolved [rowOf "g2"]);
                          Settle 0 (Resolved [rowOf "g1"])]) in
  data (state early) = [rowOf "g1"]
  ∧ loading (state early) = false
  ∧ length (outstanding early) = 1
  ∧ data (state late) = [rowOf "g1"]
  ∧ data (state late) ≠ [rowOf "g2"].
Proof. split_and!; try reflexivity. compute_done. Qed.

End FetchingClaims.

Section ExportRequest.
Import DataExplorer.

(** Two predicates that exclude each other and cover a list split it. *)
Lemma filter_two_way {A} (P Q : A → Prop)
    `{∀ x, Decision (P x)} `{∀ x, Decision (Q x)} (l : list A) :
  (∀ x, P x → ¬ Q x) →
  Forall (λ x, P x ∨ Q x) l →
  filter P l ++ filter Q l ≡ₚ l.
Proof.
  intros Hexcl Hall.
  rewrite <- (filter_app_complement P l) at 3.
  f_equiv. induction Hall as [| x l [HP | HQ] _ IH].
  - done.
  - rewrite (filter_cons_False Q) by eauto.
    by rewrite (filter_cons_False (λ x, ¬ P x)) by eauto.
  - rewrite (filter_cons_True Q) by done.
    rewrite (filter_cons_True (λ x, ¬ P x)) by (intros HP; by eapply Hexcl).
    by rewrite IH.
Qed.

Lemma tableIs_exclusive (row : DataRow) :
  tableIs "CPU" row → ¬ tableIs "Memory" row.
Proof. unfold tableIs. intros -> [=]. Qed.

Lemma data_not_empty (s : State) (row : DataRow) :
  row ∈ data s → bool_decide (length (data s) = 0) = false.
Proof.
  intros Hin. apply bool_decide_eq_false_2.
  destruct (data s); [by apply elem_of_nil in Hin | done].
Qed.

End ExportRequest.

Section ExportClaims.
Import DataExplorer.

(** C8.  For every Resources result set that holds a row of table CPU and
    a row of table Memory, and every column selection of the user, the
    export posts one request tagged [isResources = true] that carries two
    tables: the rows whose table is CPU and the rows whose table is
    Memory, each in fetch order (together all the rows, when every row
    belongs to one of the two tables), each with its fixed column list and
    labels; the request is the same whatever columns are selected. *)
Theorem exportToXLSX_resources `{Runtime} (now : Z) (cluster : ClusterConfig.t)
    (s : State) (cpuRow memoryRow : DataRow) :
  category s = Resources →
  cpuRow ∈ data s → cpuRow !! "table" = Some (Js.Str "CPU") →
  memoryRow ∈ data s → memoryRow !! "table" = Some (Js.Str "Memory") →
  ∃ body part,
    exportToXLSX now cluster s = Some body
    ∧ ExportBody.resources body = Some part
    ∧ ExportBody.isResources part = true
    ∧ ExportBody.cpuData part
        = filter (λ row, row !! "table" = Some (Js.Str "CPU")) (data s)
    ∧ ExportBody.memoryData part
        = filter (λ row, row !! "table" = Some (Js.Str "Memory")) (data s)
    ∧ cpuRow ∈ ExportBody.cpuData part
    ∧ memoryRow ∈ ExportBody.memoryData part
    ∧ (Forall (λ row, row !! "table" = Some (Js.Str "CPU")
                      ∨ row !! "table" = Some (Js.Str "Memory")) (data s) →
         ExportBody.cpuData part ++ ExportBody.memoryData part ≡ₚ data s)
    ∧ ExportBody.cpuFields part
        = ["hostName"; "vmCount"; "numaOver"; "pCore"; "useVCore";
           "recommendVcoreRatio"; "currentVcoreRatio"; "result"]
    ∧ ExportBody.memoryFields part
        = ["hostName"; "vmCount"; "numaOver"; "memoryGiB"; "useMemoryGiB";
           "recommendUse"; "availableMemory"; "result"]
    ∧ ExportBody.cpuFieldLabels part
        = list_to_map
            [("hostName", "Host name"); ("vmCount", "VM Count");
             ("numaOver", "NUMA over"); ("pCore", "pCore");
             ("useVCore", "Use vCore");
             ("recommendVcoreRatio", "Recommend vcore Ratio");
             ("currentVcoreRatio", "Current vcore Ratio"); ("result", "Result")]
    ∧ ExportBody.memoryFieldLabels part
        = list_to_map
            [("hostName", "Host name"); ("vmCount", "VM Count");
             ("numaOver", "NUMA over"); ("memoryGiB", "Memory(GiB)");
             ("useMemoryGiB", "Use Memory(GiB) =(A)");
             ("recommendUse", "Recommend Use =(B)");
             ("availableMemory", "Available memory (B-A)"); ("result", "Result")]
    ∧ (∀ field, field ∈ ExportBody.cpuFields part →
                is_Some (ExportBody.cpuFieldLabels part !! field))
    ∧ (∀ field, field ∈ ExportBody.memoryFields part →
                is_Some (ExportBody.memoryFieldLabels part !! field))
    ∧ ∀ selection,
        exportToXLSX now cluster (setSelectedFields selection s) = Some body.
Proof.
  intros Hcat Hcpu Hcpu' Hmem Hmem'.
  unfold exportToXLSX.
  rewrite (data_not_empty s cpuRow Hcpu), decide_True by done.
  eexists _, _. split_and!; try reflexivity.
  - by apply list_elem_of_filter.
  - by apply list_elem_of_filter.
  - cbn [ExportBody.cpuData ExportBody.memoryData].
    apply filter_two_way. apply tableIs_exclusive.
  - intros field Hfield. cbn [ExportBody.cpuFields ExportBody.cpuFieldLabels] in *.
    repeat (apply elem_of_cons in Hfield as [-> | Hfield]; [by eexists |]).
    by apply elem_of_nil in Hfield.
  - intros field Hfield.
    cbn [ExportBody.memoryFields ExportBody.memoryFieldLabels] in *.
    repeat (apply elem_of_cons in Hfield as [-> | Hfield]; [by eexists |]).
    by apply elem_of_nil in Hfield.
  - intros selection. cbn [data category setSelectedFields].
    by rewrite (data_not_empty s cpuRow Hcpu), decide_True by done.
Qed.

Lemma exportToXLSX_resources_witness :
  ∃ body part,
    @exportToXLSX Fixture.runtime 7200000 Fixture.cluster resourcesLoaded = Some body
    ∧ ExportBody.resources body = Some part
    ∧ ExportBody.isResources part = true
    ∧ ExportBody.cpuData part = [cpuRowOf "h1"; cpuRowOf "h2"]
    ∧ ExportBody.memoryData part = [memoryRowOf "h1"]
    ∧ ExportBody.cpuData part ++ ExportBody.memoryData part ≡ₚ data resourcesLoaded
    ∧ ExportBody.cpuFieldLabels part !! "useVCore" = Some "Use vCore"
    ∧ ExportBody.memoryFieldLabels part !! "availableMemory"
      = Some "Available memory (B-A)"
    ∧ ExportBody.cpuFieldLabels part !! "memoryGiB" = None
    ∧ @exportToXLSX Fixture.runtime 7200000 Fixture.cluster
        (setSelectedFields [] resourcesLoaded) = Some body.
Proof.
  destruct (@exportToXLSX_resources Fixture.runtime 7200000 Fixture.cluster
              resourcesLoaded (cpuRowOf "h2") (memoryRowOf "h1"))
    as (body & part & Hbody & Hpart & Htag & Hcpu & Hmem & _ & _ & Hall & _ & _
        & Hcl & Hml & _ & _ & Hsel).
  - reflexivity.
  - compute_done.
  - reflexivity.
  - compute_done.
  - reflexivity.
  - exists body, part. split_and!; [done | done | done | | | | | | |].
    + rewrite Hcpu. reflexivity.
    + rewrite Hmem. reflexivity.
    + apply Hall. repeat constructor; first [by left | by right].
    + rewrite Hcl. reflexivity.
    + rewrite Hml. reflexivity.
    + rewrite Hcl. reflexivity.
    + apply Hsel.
Defined.

End ExportClaims.

Section ExportOrderClaims.
Import DataExplorer.

(** C10.  Outside Resources, the export request carries the rows of the
    current result set, all of them and in the order the fetch returned
    them; changing the sort field, the sort direction or the set of
    expanded clusters does not change the request. *)
Theorem exportToXLSX_fetch_order `{Runtime} (now : Z) (cluster : ClusterConfig.t)
    (s : State) :
  category s ≠ Resources →
  (data s ≠ [] →
     ∃ body, exportToXLSX now cluster s = Some body
             ∧ ExportBody.data body = data s
             ∧ ExportBody.resources body = None)
  ∧ ∀ field direction expanded,
      exportToXLSX now cluster
        (setExpandedClusters expanded
           (setSortDirection direction (setSortField field s)))
      = exportToXLSX now cluster s.
Proof.
  intros Hcat. split.
  - intros Hdata. unfold exportToXLSX.
    rewrite bool_decide_eq_false_2 by (by destruct (data s)).
    rewrite decide_False by done. by eexists.
  - reflexivity.
Qed.

Lemma exportToXLSX_fetch_order_witness :
  @sortedData Fixture.runtime sortedByName = [vmAlpha; vmBeta]
  ∧ ∃ body,
      @exportToXLSX Fixture.runtime 7200000 Fixture.cluster sortedByName = Some body
      ∧ ExportBody.data body = [vmBeta; vmAlpha]
      ∧ @exportToXLSX Fixture.runtime 7200000 Fixture.cluster
          (handleSort "name" sortedByName)
        = Some body.
Proof.
  split; [reflexivity |].
  destruct (@exportToXLSX_fetch_order Fixture.runtime 7200000 Fixture.cluster
              sortedByName) as [Hbody Hsame]; [discriminate |].
  destruct Hbody as (body & Hpost & Hrows & _); [discriminate |].
  exists body. split_and!; [done | by rewrite Hrows |].
  rewrite <- Hpost.
  exact (Hsame (Some "name") Desc ∅).
Defined.

End ExportOrderClaims.

Section PresetLoadingClaims.
Import ClusterManager.

(** C3, on the code.  With no stored presets, or an empty text, the mount
    effect completes and leaves the presets as they are.  With a stored
    text that [JSON.parse] rejects, the effect does not complete: the
    parse failure leaves it as an exception, and no notice is set. *)
Theorem loadPresetsEffect_completion `{Platform} (w : World) :
  (localStorage w !! "clusterPresets" = None → loadPresetsEffect w = Normal w)
  ∧ (localStorage w !! "clusterPresets" = Some "" → loadPresetsEffect w = Normal w)
  ∧ (∀ text message,
       localStorage w !! "clusterPresets" = Some text →
       text ≠ "" →
       JSON_parse text = SyntaxError message →
       loadPresetsEffect w = Throw message).
Proof.
  unfold loadPresetsEffect. split_and!.
  - by intros ->.
  - by intros ->.
  - intros text message -> Htext ->.
    apply String.eqb_neq in Htext. unfold Js.truthyStr. by rewrite Htext.
Qed.

Lemma loadPresetsEffect_completion_witness :
  @loadPresetsEffect Fixture.platform (initial ∅) = Normal (initial ∅)
  ∧ @loadPresetsEffect Fixture.platform (initial {[ "clusterPresets" := "" ]})
    = Normal (initial {[ "clusterPresets" := "" ]})
  ∧ @loadPresetsEffect Fixture.platform (initial {[ "clusterPresets" := "[{" ]})
    = Throw "Unexpected token".
Proof.
  split_and!.
  - destruct (@loadPresetsEffect_completion Fixture.platform (initial ∅))
      as (Habsent & _).
    apply Habsent. reflexivity.
  - destruct (@loadPresetsEffect_completion Fixture.platform
                (initial {[ "clusterPresets" := "" ]})) as (_ & Hempty & _).
    apply Hempty. reflexivity.
  - destruct (@loadPresetsEffect_completion Fixture.platform
                (initial {[ "clusterPresets" := "[{" ]})) as (_ & _ & Hbad).
    apply (Hbad "[{"); [reflexivity | discriminate | reflexivity].
Defined.

End PresetLoadingClaims.

Section Batch.
Import ClusterManager.
Context `{Platform}.

Lemma sameCells_refl w : sameCells w w.
Proof. by repeat split. Qed.

Lemma sameCells_trans w1 w2 w3 :
  sameCells w1 w2 → sameCells w2 w3 → sameCells w1 w3.
Proof. unfold sameCells. intuition congruence. Qed.

Lemma verifyCalls_app l l' : verifyCalls (l ++ l') = verifyCalls l ++ verifyCalls l'.
Proof. apply omap_app. Qed.

Lemma alerts_app l l' : alerts (l ++ l') = alerts l ++ alerts l'.
Proof. apply omap_app. Qed.

(** One iteration of the loop, read off the attempt. *)
Lemma connectOne_effect b p :
  let a := {| preset := p;
              candidate := clusterOfPreset (tempIdAt (draws (world b))) p;
              outcome := verifyClusterConnection
                           (clusterOfPreset (tempIdAt (draws (world b))) p) |} in
  sameCells (world b) (world (connectOne b p))
  ∧ clusters (world (connectOne b p))
      = clusters (world b) ++ option_list (connectedOf a)
  ∧ successList (connectOne b p) = successList b ++ option_list (successOf a)
  ∧ failureList (connectOne b p) = failureList b ++ option_list (failureOf a)
  ∧ verifyCalls (log (world (connectOne b p)))
      = verifyCalls (log (world b)) ++ [candidate a]
  ∧ alerts (log (world (connectOne b p))) = alerts (log (world b))
  ∧ draws (world (connectOne b p)) = S (draws (world b)).
Proof.
  intros a. subst a. unfold connectOne, connectedOf, successOf, failureOf.
  cbn [preset candidate outcome].
  destruct (verifyClusterConnection _) as [clusterName | message];
    cbn [world successList failureList option_list];
    rewrite ?app_nil_r;
    (split_and!; [by repeat split | try done ..]);
    cbn [log emit setClusters drawn];
    rewrite ?verifyCalls_app, ?alerts_app; simpl; by rewrite ?app_nil_r.
Qed.

(** The loop over [ps], read off its attempts. *)
Lemma connectLoop_effect ps : ∀ b,
  sameCells (world b) (world (foldl connectOne b ps))
  ∧ clusters (world (foldl connectOne b ps))
      = clusters (world b) ++ omap connectedOf (attempts (draws (world b)) ps)
  ∧ successList (foldl connectOne b ps)
      = successList b ++ omap successOf (attempts (draws (world b)) ps)
  ∧ failureList (foldl connectOne b ps)
      = failureList b ++ omap failureOf (attempts (draws (world b)) ps)
  ∧ verifyCalls (log (world (foldl connectOne b ps)))
      = verifyCalls (log (world b))
        ++ (candidate <$> attempts (draws (world b)) ps)
  ∧ alerts (log (world (foldl connectOne b ps))) = alerts (log (world b))
  ∧ draws (world (foldl connectOne b ps)) = draws (world b) + length ps.
Proof.
  induction ps as [| p ps IH]; intros b.
  - simpl. rewrite !app_nil_r.
    split_and!; first [done | apply sameCells_refl].
  - cbn [foldl attempts].
    destruct (connectOne_effect b p) as (Hc & Hcl & Hs & Hf & Hv & Ha & Hd).
    destruct (IH (connectOne b p)) as (Hc' & Hcl' & Hs' & Hf' & Hv' & Ha' & Hd').
    rewrite Hd in Hcl', Hs', Hf', Hv', Hd'.
    split_and!.
    + by eapply sameCells_trans.
    + rewrite Hcl', Hcl. cbn [omap list_omap]. unfold connectedOf at 3.
      cbn [outcome candidate]. rewrite <- app_assoc.
      by destruct (verifyClusterConnection _).
    + rewrite Hs', Hs. cbn [omap list_omap]. unfold successOf at 3.
      cbn [outcome preset]. rewrite <- app_assoc.
      by destruct (verifyClusterConnection _).
    + rewrite Hf', Hf. cbn [omap list_omap]. unfold failureOf at 3.
      cbn [outcome preset]. rewrite <- app_assoc.
      by destruct (verifyClusterConnection _).
    + rewrite Hv', Hv. by rewrite <- app_assoc.
    + by rewrite Ha', Ha.
    + rewrite Hd'. simpl. lia.
Qed.

Lemma omap_cons_list {A B} (f : A → option B) x l :
  omap f (x :: l) = option_list (f x) ++ omap f l.
Proof. cbn [omap list_omap]. by destruct (f x). Qed.




End Batch.

Section BatchClaims.
Import ClusterManager.


End BatchClaims.

Section BatchWitness.
Import ClusterManager.


End BatchWitness.

Section PolicyGate.
Import ClusterManager.
Context `{Platform}.

Lemma connectSelectedPresets_log w :
  verifyCalls (log (connectSelectedPresets w))
    = verifyCalls (log w) ++ (candidate <$> attempts (draws w) (selectedPresetsList w))
  ∧ alerts (log (connectSelectedPresets w)) = alerts (log w).
Proof.
  unfold connectSelectedPresets.
  destruct (connectLoop_effect (selectedPresetsList w) (batchStart w))
    as (_ & _ & _ & _ & Hv & Ha & _).
  fold (batchStart w). case_bool_decide as Hempty.
  - destruct (selectedPresetsList w); [| done]. simpl. by rewrite app_nil_r.
  - by case_bool_decide.
Qed.

(** The candidate of an attempt is its preset, under a fresh id, with the
    api version of the preset (v2.0 when it has none). *)
Lemma attempts_faithful ps : ∀ n,
  Forall2
    (λ p a,
       preset a = p
       ∧ ClusterConfig.ip (candidate a) = Preset.ip p
       ∧ ClusterConfig.username (candidate a) = Preset.username p
       ∧ ClusterConfig.password (candidate a) = Preset.password p
       ∧ ClusterConfig.type (candidate a) = Preset.type p
       ∧ ClusterConfig.apiVersion (candidate a) = default V2_0 (Preset.apiVersion p))
    ps (attempts n ps).
Proof.
  induction ps as [| p ps IH]; intros n; simpl; constructor; [done | apply IH].
Qed.

End PolicyGate.

Section PolicyGateClaims.
Import ClusterManager.

(** C9.  With two or more presets selected, [handleAddCluster] hands every
    selected preset to the verification service, those of api version v4.0
    included, and raises no alert; the v4.0 gate is met on the
    single-target path only, where a filled form of api version v4.0 gets
    the alert and no call to the service. *)
Theorem handleAddCluster_gate `{Platform} (now : Z) (w : World) :
  (2 ≤ size (selectedPresets w) →
     let tried := attempts (draws w) (selectedPresetsList w) in
     verifyCalls (log (handleAddCluster now w))
       = verifyCalls (log w) ++ (candidate <$> tried)
     ∧ alerts (log (handleAddCluster now w)) = alerts (log w)
     ∧ Forall2
         (λ p a,
            preset a = p
            ∧ ClusterConfig.ip (candidate a) = Preset.ip p
            ∧ ClusterConfig.username (candidate a) = Preset.username p
            ∧ ClusterConfig.password (candidate a) = Preset.password p
            ∧ ClusterConfig.type (candidate a) = Preset.type p
            ∧ ClusterConfig.apiVersion (candidate a)
              = default V2_0 (Preset.apiVersion p))
         (selectedPresetsList w) tried
     ∧ ∀ p, p ∈ selectedPresetsList w → Preset.apiVersion p = Some V4_0 →
            ∃ c, c ∈ candidate <$> tried
                 ∧ ClusterConfig.ip c = Preset.ip p
                 ∧ ClusterConfig.apiVersion c = V4_0)
  ∧ (size (selectedPresets w) < 2 →
       Form.ip (newCluster w) ≠ "" →
       Form.username (newCluster w) ≠ "" →
       Form.password (newCluster w) ≠ "" →
       Form.apiVersion (newCluster w) = Some V4_0 →
       handleAddCluster now w = emit (Alert "We are planning to update.") w
       ∧ verifyCalls (log (handleAddCluster now w)) = verifyCalls (log w)
       ∧ alerts (log (handleAddCluster now w))
         = alerts (log w) ++ ["We are planning to update."]).
Proof.
  split.
  - intros Hsize tried. unfold handleAddCluster.
    rewrite bool_decide_eq_true_2 by done.
    destruct (connectSelectedPresets_log w) as [Hv Ha].
    pose proof (attempts_faithful (selectedPresetsList w) (draws w)) as Hall.
    fold tried in Hv, Hall.
    split_and!; [done | done | done |].
    intros p Hp Hv4.
    apply list_elem_of_lookup in Hp as [i Hi].
    destruct (Forall2_lookup_l _ _ _ _ _ Hall Hi) as (a & Ha' & _ & Hip & _ & _ & _ & Hver).
    exists (candidate a). split_and!.
    + apply list_elem_of_fmap. exists a. split; [done |].
      by eapply list_elem_of_lookup_2.
    + done.
    + by rewrite Hver, Hv4.
  - intros Hsize Hip Huser Hpass Hv4.
    assert (Hstep : handleAddCluster now w
                    = emit (Alert "We are planning to update.") w).
    { unfold handleAddCluster.
      rewrite bool_decide_eq_false_2 by lia.
      unfold Js.truthyStr.
      apply String.eqb_neq in Hip, Huser, Hpass.
      rewrite Hip, Huser, Hpass. simpl.
      by rewrite bool_decide_eq_true_2. }
    rewrite Hstep. split_and!; [done | |].
    + cbn [log emit]. rewrite verifyCalls_app. simpl. by rewrite app_nil_r.
    + cbn [log emit]. by rewrite alerts_app.
Qed.

Lemma handleAddCluster_gate_witness :
  ClusterConfig.apiVersion
    <$> verifyCalls (log (@handleAddCluster Fixture.platform 7200000 threeSelected))
    = [V2_0; V2_0; V4_0]
  ∧ alerts (log (@handleAddCluster Fixture.platform 7200000 threeSelected)) = []
  ∧ (∃ c, c ∈ verifyCalls (log (@handleAddCluster Fixture.platform 7200000 threeSelected))
          ∧ ClusterConfig.ip c = "10.0.0.3"
          ∧ ClusterConfig.apiVersion c = V4_0)
  ∧ verifyCalls (log (@handleAddCluster Fixture.platform 7200000 noneSelected)) = []
  ∧ alerts (log (@handleAddCluster Fixture.platform 7200000 noneSelected))
    = ["We are planning to update."].
Proof.
  destruct (@handleAddCluster_gate Fixture.platform 7200000 threeSelected)
    as [Hbatch _].
  destruct Hbatch as (Hv & Ha & _ & Hv4); [vm_compute; lia |].
  destruct (Hv4 (presetAt "3" "10.0.0.3" (Some V4_0))) as (c & Hc & Hip & Hver);
    [compute_done | reflexivity |].
  destruct (@handleAddCluster_gate Fixture.platform 7200000 noneSelected)
    as [_ Hsingle].
  destruct Hsingle as (_ & Hv' & Ha');
    [vm_compute; lia | discriminate | discriminate | discriminate | reflexivity |].
  split_and!.
  - rewrite Hv. reflexivity.
  - rewrite Ha. reflexivity.
  - exists c. rewrite Hv. by split_and!.
  - rewrite Hv'. reflexivity.
  - rewrite Ha'. reflexivity.
Defined.

End PolicyGateClaims.

(** * Further properties of DataExplorer *)

Section LoadDataGuard.
Import DataExplorer.

(** X1.  [loadData] returns without a request, and without touching the
    state, exactly when the category is Performance with an empty start or
    end time, or Resources with a zero ratio or replication factor.
    Otherwise it only raises the loading flag and asks for the active
    category with the parameters as they stand. *)
Theorem loadData_guard (cluster : ClusterConfig.t) (ignoreCache : bool) (s : State) :
  ((category s = Performance ∧ (startTime s = "" ∨ endTime s = ""))
   ∨ (category s = Resources ∧ (ratio s = 0%Qc ∨ rf s = 0%Qc)) →
   loadData cluster ignoreCache s = (s, None))
  ∧ (¬ ((category s = Performance ∧ (startTime s = "" ∨ endTime s = ""))
        ∨ (category s = Resources ∧ (ratio s = 0%Qc ∨ rf s = 0%Qc))) →
     ∃ r, loadData cluster ignoreCache s = (setLoading true s, Some r)
          ∧ r_cluster r = cluster
          ∧ r_category r = category s
          ∧ p_startTime (r_params r) = startTime s
          ∧ p_endTime (r_params r) = endTime s
          ∧ p_interval (r_params r) = interval s
          ∧ p_aggregationType (r_params r) = aggregationType s
          ∧ p_ratio (r_params r) = ratio s
          ∧ p_rf (r_params r) = rf s
          ∧ p_ignoreCache (r_params r) = ignoreCache).
Proof.
  unfold loadData, Js.truthyStr. split.
  - intros [[Hc Ht] | [Hc Ht]].
    + rewrite (bool_decide_eq_true_2 _ Hc).
      destruct Ht as [-> | ->]; simpl; by rewrite ?orb_true_r.
    + rewrite (bool_decide_eq_false_2 (category s = Performance))
        by (rewrite Hc; discriminate).
      rewrite (bool_decide_eq_true_2 _ Hc). simpl.
      destruct Ht as [-> | ->]; simpl; by rewrite ?orb_true_r.
  - intros Hfree.
    destruct (bool_decide (category s = Performance)
              && (negb (negb (String.eqb (startTime s) ""))
                  || negb (negb (String.eqb (endTime s) "")))) eqn:Hperf.
    { exfalso. apply Hfree. left.
      apply andb_true_iff in Hperf as [Hc Ht].
      apply bool_decide_eq_true_1 in Hc. split; [done |].
      rewrite !negb_involutive in Ht.
      apply orb_true_iff in Ht as [Ht | Ht]; apply String.eqb_eq in Ht; auto. }
    destruct (bool_decide (category s = Resources)
              && (bool_decide (ratio s = 0%Qc) || bool_decide (rf s = 0%Qc))) eqn:Hres.
    { exfalso. apply Hfree. right.
      apply andb_true_iff in Hres as [Hc Ht].
      apply bool_decide_eq_true_1 in Hc. split; [done |].
      apply orb_true_iff in Ht as [Ht | Ht]; apply bool_decide_eq_true_1 in Ht; auto. }
    by eexists.
Qed.

Lemma loadData_guard_witness :
  loadData Fixture.cluster true (setCategoryCell Performance initial)
    = (setCategoryCell Performance initial, None)
  ∧ ∃ r, loadData Fixture.cluster true initial = (setLoading true initial, Some r)
         ∧ r_category r = VM
         ∧ p_ignoreCache (r_params r) = true.
Proof.
  split.
  - destruct (loadData_guard Fixture.cluster true (setCategoryCell Performance initial))
      as [Hblocked _].
    apply Hblocked. left. split; [reflexivity | by left].
  - destruct (loadData_guard Fixture.cluster true initial) as [_ Hfree].
    destruct Hfree as (r & Hr & _ & Hc & _ & _ & _ & _ & _ & _ & Hi).
    + intros [[? _] | [? _]]; discriminate.
    + exists r. by split_and!.
Defined.

End LoadDataGuard.

Section AutoFetch.
Import DataExplorer.

(** X2.  A change of category into VM or Hardware resets the selection to
    the defaults and clears the result set; on a verified cluster it also
    raises the loading flag and issues one fetch for the new category that
    does not ask to bypass the cache, on an unverified one it issues
    nothing. *)
Theorem setCategory_auto_fetch `{Runtime} (now : Z) (cluster : ClusterConfig.t)
    (c : Category) (s : State) :
  c = VM ∨ c = Hardware →
  category s ≠ c →
  category (setCategory now cluster c s).1 = c
  ∧ selectedFields (setCategory now cluster c s).1 = DEFAULT_FIELDS c
  ∧ data (setCategory now cluster c s).1 = []
  ∧ (ClusterConfig.isVerified cluster = true →
       loading (setCategory now cluster c s).1 = true
       ∧ ∃ r, (setCategory now cluster c s).2 = Some r
              ∧ r_category r = c
              ∧ r_cluster r = cluster
              ∧ p_ignoreCache (r_params r) = false)
  ∧ (ClusterConfig.isVerified cluster = false →
       (setCategory now cluster c s).2 = None
       ∧ loading (setCategory now cluster c s).1 = loading s).
Proof.
  intros Hc Hne. rewrite setCategory_changed by done.
  unfold autoFetchEffect.
  assert (Hcat : category (categoryEffect now (setCategoryCell c s)) = c).
  { unfold categoryEffect. by destruct Hc as [-> | ->]. }
  assert (Hother : bool_decide (c ≠ Performance) && bool_decide (c ≠ Resources) = true).
  { by destruct Hc as [-> | ->]. }
  rewrite Hcat, <- andb_assoc, Hother, andb_true_r.
  destruct (ClusterConfig.isVerified cluster) eqn:Hver.
  - unfold loadData. rewrite Hcat.
    replace (bool_decide (c = Performance)) with false by (by destruct Hc as [-> | ->]).
    replace (bool_decide (c = Resources)) with false by (by destruct Hc as [-> | ->]).
    simpl. split_and!; try done.
    + unfold categoryEffect. by destruct Hc as [-> | ->].
    + unfold categoryEffect. by destruct Hc as [-> | ->].
    + intros _. split; [done |]. by eexists.
  - simpl. split_and!; try done.
    + unfold categoryEffect. by destruct Hc as [-> | ->].
    + unfold categoryEffect. by destruct Hc as [-> | ->].
    + intros _. split; [done |].
      unfold categoryEffect. by destruct Hc as [-> | ->].
Qed.

Lemma setCategory_auto_fetch_witness :
  let r := @setCategory Fixture.runtime 7200000 Fixture.cluster Hardware initial in
  category r.1 = Hardware
  ∧ selectedFields r.1 = DEFAULT_FIELDS Hardware
  ∧ loading r.1 = true
  ∧ ∃ q, r.2 = Some q ∧ r_category q = Hardware.
Proof.
  intros r.
  destruct (@setCategory_auto_fetch Fixture.runtime 7200000 Fixture.cluster
              Hardware initial) as (Hcat & Hsel & _ & Hver & _);
    [by right | discriminate |].
  destruct Hver as (Hload & q & Hq & Hqc & _); [reflexivity |].
  split_and!; [done | done | done |]. by exists q.
Defined.

End AutoFetch.

Section SortClicks.
Import DataExplorer.

(** X3.  A click on a column header makes that column the sort field; on
    the column already sorted by it flips the direction, on another column
    it starts ascending.  So a second click on the same header reverses the
    order, a third restores the state after the first, and the rows held
    are never touched. *)
Theorem handleSort_clicks (f g : string) (s : State) :
  sortField (handleSort f s) = Some f
  ∧ (sortField s = Some f →
       sortDirection (handleSort f s) = flipDirection (sortDirection s))
  ∧ (sortField s ≠ Some f → sortDirection (handleSort f s) = Asc)
  ∧ sortDirection (handleSort f (handleSort f s))
    = flipDirection (sortDirection (handleSort f s))
  ∧ handleSort f (handleSort f (handleSort f s)) = handleSort f s
  ∧ (g ≠ f → sortDirection (handleSort g (handleSort f s)) = Asc)
  ∧ data (handleSort f s) = data s.
Proof.
  assert (Hfield : ∀ s', sortField (handleSort f s') = Some f).
  { intros s'. unfold handleSort. by case_decide. }
  assert (Hsame : ∀ s', sortField s' = Some f →
            handleSort f s'
            = setSortDirection (flipDirection (sortDirection s')) s').
  { intros s' Hs'. unfold handleSort. by rewrite decide_True. }
  split_and!.
  - apply Hfield.
  - intros Hs. by rewrite Hsame.
  - intros Hs. unfold handleSort. by rewrite decide_False.
  - by rewrite (Hsame _ (Hfield s)).
  - rewrite (Hsame (handleSort f (handleSort f s))) by apply Hfield.
    rewrite (Hsame _ (Hfield s)). simpl.
    destruct (handleSort f s) as [? ? ? ? ? ? ? ? ? ? ? ? ? ? ? d]; simpl.
    by destruct d.
  - intros Hne. unfold handleSort at 1. rewrite decide_False; [done |].
    rewrite Hfield. congruence.
  - unfold handleSort. by case_decide.
Qed.

Lemma handleSort_clicks_witness :
  sortDirection (handleSort "name" initial) = Asc
  ∧ sortDirection (handleSort "name" (handleSort "name" initial)) = Desc
  ∧ sortDirection (handleSort "uuid" (handleSort "name" (handleSort "name" initial)))
    = Asc.
Proof.
  destruct (handleSort_clicks "name" "uuid" initial) as (_ & _ & Hfirst & _).
  destruct (handleSort_clicks "name" "uuid" (handleSort "name" initial))
    as (_ & Hsecond & _ & _ & _ & Hother & _).
  split_and!.
  - apply Hfirst. discriminate.
  - rewrite Hsecond; reflexivity.
  - apply Hother. discriminate.
Defined.

End SortClicks.

Section ToggleTwice.
Import DataExplorer.

Lemma filter_other_keys (key : string) (l : list string) :
  key ∉ l → filter (λ f, f ≠ key) l = l.
Proof.
  induction l as [| x l IH]; [done |].
  intros [Hne Hout]%not_elem_of_cons.
  rewrite filter_cons_True by done. by rewrite IH.
Qed.

(** X4.  Ticking a column and un-ticking it again restores the selection
    exactly.  Un-ticking a selected column and ticking it again keeps the
    same columns but moves that column to the end (for a selection without
    duplicates). *)
Theorem toggleField_twice (key : string) (s : State) :
  (key ∉ selectedFields s →
     selectedFields (toggleField key (toggleField key s)) = selectedFields s)
  ∧ (key ∈ selectedFields s →
       selectedFields (toggleField key (toggleField key s))
         = filter (λ f, f ≠ key) (selectedFields s) ++ [key])
  ∧ (NoDup (selectedFields s) →
       selectedFields (toggleField key (toggleField key s)) ≡ₚ selectedFields s).
Proof.
  assert (Hout : key ∉ selectedFields s →
            selectedFields (toggleField key (toggleField key s)) = selectedFields s).
  { intros Hout. rewrite !toggleField_selected.
    rewrite (bool_decide_eq_false_2 _ Hout).
    rewrite bool_decide_eq_true_2 by (apply elem_of_app; right; by left).
    rewrite filter_app, (filter_cons_False _ key []) by (intros Hk; by apply Hk).
    rewrite filter_nil, app_nil_r. by apply filter_other_keys. }
  assert (Hin : key ∈ selectedFields s →
            selectedFields (toggleField key (toggleField key s))
              = filter (λ f, f ≠ key) (selectedFields s) ++ [key]).
  { intros Hin. rewrite !toggleField_selected.
    rewrite (bool_decide_eq_true_2 _ Hin).
    rewrite bool_decide_eq_false_2; [done |].
    intros [Hk _]%list_elem_of_filter. by apply Hk. }
  split_and!; [done | done |].
  intros Hnd. destruct (decide (key ∈ selectedFields s)) as [Hk | Hk].
  - rewrite (Hin Hk). clear Hin Hout.
    induction Hnd as [| x l Hx Hnd IH]; [by apply elem_of_nil in Hk |].
    destruct (decide (x = key)) as [-> | Hne].
    + rewrite filter_cons_False by (intros Hk'; by apply Hk').
      rewrite (filter_other_keys key l Hx). symmetry. apply Permutation_cons_append.
    + rewrite filter_cons_True by done. simpl. f_equiv. apply IH.
      apply elem_of_cons in Hk as [? | ?]; [congruence | done].
  - by rewrite (Hout Hk).
Qed.

Lemma toggleField_twice_witness :
  selectedFields (toggleField "uuid" (toggleField "uuid" initial))
    = selectedFields initial
  ∧ selectedFields (toggleField "name" (toggleField "name" initial))
    = ["clusterName"; "powerState"; "name"]
  ∧ selectedFields (toggleField "name" (toggleField "name" initial))
    ≡ₚ selectedFields initial.
Proof.
  destruct (toggleField_twice "uuid" initial) as (Hout & _).
  destruct (toggleField_twice "name" initial) as (_ & Hin & Hperm).
  split_and!.
  - apply Hout. compute_done.
  - rewrite Hin; [reflexivity | compute_done].
  - apply Hperm. compute_done.
Defined.

End ToggleTwice.

Section HierarchyFurther.
Import DataExplorer.

Lemma visible_when_rendered c expanded rows (row : DataRow) :
  c ≠ Resources →
  row ∈ visibleRows c expanded rows
  ↔ row ∈ rows ∧ renderRow c expanded row = Some row.
Proof.
  intros Hc. rewrite visibleRows_filter by done.
  rewrite list_elem_of_filter. split.
  - intros [[r Hr] Hin]. split; [done |]. rewrite Hr. f_equal.
    unfold renderRow in Hr. by destruct (_ && _ && _); simplify_eq.
  - intros [Hin Hr]. split; [by eexists | done].
Qed.



(** X6.  Expanding more never hides a row: the rows visible under a set of
    expanded clusters stay visible, in the same order, under any larger
    set; and with every parent named by a host row expanded, all rows are
    visible. *)
Theorem visibleRows_monotone (expanded expanded' : gset string)
    (rows : list DataRow) :
  (expanded ⊆ expanded' →
     visibleRows Performance expanded rows
       `sublist_of` visibleRows Performance expanded' rows)
  ∧ ((∀ row n, row ∈ rows → row !! "parentCluster" = Some (Js.Str n) → n ∈ expanded) →
     (∀ row, row ∈ rows → row !! "entityType" = Some (Js.Str "host") →
        Js.truthyOpt (row !! "parentCluster") = true →
        ∃ n, row !! "parentCluster" = Some (Js.Str n)) →
     visibleRows Performance expanded rows = rows).
Proof.
  split.
  - intros Hsub. rewrite !visibleRows_performance.
    induction rows as [| row rows IH]; [done |].
    rewrite !filter_cons.
    destruct (decide (is_Some (renderRow Performance expanded row))) as [Hv | Hv].
    + rewrite decide_True; [by constructor |].
      destruct (decide (row !! "entityType" = Some (Js.Str "host"))) as [Hh | Hh].
      * apply (renderRow_host _ _ Hh). apply (renderRow_host _ _ Hh) in Hv.
        destruct Hv as [? | (n & ? & ?)]; [by left |].
        right. exists n. split; [done |]. by apply Hsub.
      * rewrite renderRow_other by done. by eexists.
    + case_decide; [by constructor | done].
  - intros Hall Hstr. rewrite visibleRows_performance.
    induction rows as [| row rows IH]; [done |].
    rewrite filter_cons_True, IH; [done | | |].
    + intros r n Hr. apply Hall. by right.
    + intros r Hr. apply Hstr. by right.
    + destruct (decide (row !! "entityType" = Some (Js.Str "host"))) as [Hh | Hh].
      * apply (renderRow_host _ _ Hh).
        destruct (Js.truthyOpt (row !! "parentCluster")) eqn:Ht; [| by left].
        right. destruct (Hstr row) as [n Hn]; [by left | done | done |].
        exists n. split; [done |]. eapply Hall; [by left | done].
      * rewrite renderRow_other by done. by eexists.
Qed.

Lemma visibleRows_monotone_witness :
  visibleRows Performance ∅ [clusterC1; hostOfC1; strayHost]
    `sublist_of` visibleRows Performance {[ "C1" ]} [clusterC1; hostOfC1; strayHost]
  ∧ visibleRows Performance {[ "C1" ]} [clusterC1; hostOfC1; strayHost]
    = [clusterC1; hostOfC1; strayHost].
Proof.
  destruct (visibleRows_monotone ∅ {[ "C1" ]} [clusterC1; hostOfC1; strayHost])
    as [Hmono _].
  destruct (visibleRows_monotone {[ "C1" ]} {[ "C1" ]} [clusterC1; hostOfC1; strayHost])
    as [_ Hall].
  split.
  - apply Hmono. apply empty_subseteq.
  - apply Hall.
    + intros row n Hrow Hp.
      repeat (apply elem_of_cons in Hrow as [-> | Hrow]); try by apply elem_of_nil in Hrow.
      * discriminate Hp.
      * injection Hp as <-. by apply elem_of_singleton.
      * discriminate Hp.
    + intros row Hrow _ Ht.
      repeat (apply elem_of_cons in Hrow as [-> | Hrow]); try by apply elem_of_nil in Hrow.
      * discriminate Ht.
      * by exists "C1".
      * discriminate Ht.
Defined.

End HierarchyFurther.

Section ExpansionFurther.
Import DataExplorer.

(** X7.  Toggling a cluster flips its own membership and nobody else's, so
    it shows or hides only the host rows under that cluster: any row whose
    parent is not that cluster is rendered as before.  Toggling twice
    restores the set. *)
Theorem toggleClusterExpansion_local (n : string) (s : State) :
  (n ∈ expandedClusters (toggleClusterExpansion n s) ↔ n ∉ expandedClusters s)
  ∧ (∀ m, m ≠ n →
       (m ∈ expandedClusters (toggleClusterExpansion n s) ↔ m ∈ expandedClusters s))
  ∧ (∀ c (row : DataRow),
       row !! "parentCluster" ≠ Some (Js.Str n) →
       renderRow c (expandedClusters (toggleClusterExpansion n s)) row
         = renderRow c (expandedClusters s) row)
  ∧ expandedClusters (toggleClusterExpansion n (toggleClusterExpansion n s))
    = expandedClusters s
  ∧ data (toggleClusterExpansion n s) = data s.
Proof.
  assert (Hother : ∀ m, m ≠ n →
            (m ∈ expandedClusters (toggleClusterExpansion n s)
             ↔ m ∈ expandedClusters s)).
  { intros m Hm. unfold toggleClusterExpansion; simpl. case_bool_decide.
    - rewrite elem_of_difference, elem_of_singleton. tauto.
    - rewrite elem_of_union, elem_of_singleton. tauto. }
  split_and!.
  - unfold toggleClusterExpansion; simpl. case_bool_decide as Hin.
    + split; [intros []%toggled_out | done].
    + split; [done | intros _; apply toggled_in].
  - done.
  - intros c row Hp. unfold renderRow, parentCluster.
    destruct (isHostRow c row); [| done]. simpl.
    destruct (row !! "parentCluster") as [[| m | q | b] |] eqn:Hrow; try done.
    simpl. assert (Hm : m ≠ n) by congruence.
    by rewrite (bool_decide_ext _ _ (Hother m Hm)).
  - apply toggleClusterExpansion_twice.
  - done.
Qed.

Lemma toggleClusterExpansion_local_witness :
  renderRow Performance (expandedClusters (toggleClusterExpansion "C2" initial)) hostOfC1
    = renderRow Performance (expandedClusters initial) hostOfC1
  ∧ ("C1" ∈ expandedClusters (toggleClusterExpansion "C2" initial)
     ↔ "C1" ∈ expandedClusters initial).
Proof.
  destruct (toggleClusterExpansion_local "C2" initial) as (_ & Hm & Hrow & _).
  split.
  - apply Hrow. discriminate.
  - apply Hm. discriminate.
Defined.

End ExpansionFurther.

Section ExportFurther.
Import DataExplorer.

(** X8.  [exportToXLSX] posts a request exactly when the result set is not
    empty, in every category; with an empty result set it returns before
    building anything.  The handler itself does not look at the loading
    flag: what it posts is the same while a fetch is outstanding. *)
Theorem exportToXLSX_posts_iff `{Runtime} (now : Z) (cluster : ClusterConfig.t)
    (s : State) :
  (is_Some (exportToXLSX now cluster s) ↔ data s ≠ [])
  ∧ ∀ flag, exportToXLSX now cluster (setLoading flag s) = exportToXLSX now cluster s.
Proof.
  split; [| done].
  unfold exportToXLSX. destruct (data s) as [| row rows] eqn:Hd; simpl.
  - split; [by intros [? ?] | done].
  - split; [done |]. intros _. case_decide; by eexists.
Qed.

(** X9.  In Resources the export carries the CPU rows followed by the
    Memory rows and nothing else: a row whose table is neither is left out.
    The leading column list is the CPU one when there is a CPU row and the
    Memory one otherwise. *)
Theorem exportToXLSX_resources_rows `{Runtime} (now : Z) (cluster : ClusterConfig.t)
    (s : State) :
  category s = Resources →
  data s ≠ [] →
  ∃ body,
    exportToXLSX now cluster s = Some body
    ∧ ExportBody.data body
      = filter (tableIs "CPU") (data s) ++ filter (tableIs "Memory") (data s)
    ∧ (∀ row, row ∈ ExportBody.data body ↔
              row ∈ data s ∧ (tableIs "CPU" row ∨ tableIs "Memory" row))
    ∧ length (ExportBody.data body) ≤ length (data s)
    ∧ ((∃ row, row ∈ data s ∧ tableIs "CPU" row) →
         ExportBody.fields body = cpuFields
         ∧ ExportBody.fieldLabels body = cpuFieldLabels)
    ∧ ((∀ row, row ∈ data s → ¬ tableIs "CPU" row) →
         ExportBody.fields body = memoryFields
         ∧ ExportBody.fieldLabels body = memoryFieldLabels).
Proof.
  intros Hcat Hdata. unfold exportToXLSX.
  rewrite bool_decide_eq_false_2 by (by destruct (data s)).
  rewrite decide_True by done. eexists. split; [done |].
  cbn [ExportBody.data ExportBody.fields ExportBody.fieldLabels].
  split_and!.
  - done.
  - intros row. rewrite elem_of_app, !list_elem_of_filter. tauto.
  - rewrite length_app.
    pose proof (Permutation_length (filter_app_complement (tableIs "CPU") (data s))) as Hlen.
    rewrite length_app in Hlen.
    assert (length (filter (tableIs "Memory") (data s))
            ≤ length (filter (λ row, ¬ tableIs "CPU" row) (data s))); [| lia].
    clear. induction (data s) as [| row rows IH]; [done |].
    rewrite !filter_cons.
    destruct (decide (tableIs "Memory" row)) as [Hm | Hm].
    + rewrite decide_True; [simpl; lia |].
      intros Hc. by apply (tableIs_exclusive row).
    + case_decide; simpl; lia.
  - intros (row & Hin & Hcpu).
    rewrite bool_decide_eq_true_2; [done |].
    assert (row ∈ filter (tableIs "CPU") (data s)) as Hrow
      by (by apply list_elem_of_filter).
    destruct (filter (tableIs "CPU") (data s)); [by apply elem_of_nil in Hrow |].
    simpl. lia.
  - intros Hnone.
    assert (filter (tableIs "CPU") (data s) = []) as ->.
    { destruct (filter (tableIs "CPU") (data s)) as [| row rows] eqn:Hf; [done |].
      assert (row ∈ filter (tableIs "CPU") (data s)) as Hrow by (rewrite Hf; by left).
      apply list_elem_of_filter in Hrow as [? ?]. by destruct (Hnone row). }
    done.
Qed.

Lemma exportToXLSX_posts_iff_witness :
  @exportToXLSX Fixture.runtime 7200000 Fixture.cluster initial = None
  ∧ is_Some (@exportToXLSX Fixture.runtime 7200000 Fixture.cluster
               (setLoading true sortedByName)).
Proof.
  destruct (@exportToXLSX_posts_iff Fixture.runtime 7200000 Fixture.cluster initial)
    as [Hempty _].
  destruct (@exportToXLSX_posts_iff Fixture.runtime 7200000 Fixture.cluster sortedByName)
    as [Hposts Hloading].
  split.
  - destruct (@exportToXLSX Fixture.runtime 7200000 Fixture.cluster initial)
      as [body |] eqn:Hpost; [| done].
    destruct (proj1 Hempty); [by eexists | reflexivity].
  - rewrite Hloading. apply Hposts. discriminate.
Defined.

Lemma exportToXLSX_resources_rows_witness :
  ∃ body,
    @exportToXLSX Fixture.runtime 7200000 Fixture.cluster resourcesMemoryOnly = Some body
    ∧ ExportBody.data body = [memoryRowOf "h1"]
    ∧ ExportBody.fields body = memoryFields.
Proof.
  destruct (@exportToXLSX_resources_rows Fixture.runtime 7200000 Fixture.cluster
              resourcesMemoryOnly) as (body & Hpost & Hrows & _ & _ & _ & Hmem);
    [reflexivity | discriminate |].
  exists body. split_and!; [done | by rewrite Hrows |].
  apply Hmem. intros row Hrow.
  repeat (apply elem_of_cons in Hrow as [-> | Hrow]); try by apply elem_of_nil in Hrow.
  - discriminate.
  - discriminate.
Defined.

End ExportFurther.

Section ExportLabels.
Import DataExplorer.

Lemma foldl_insert_lookup (g : string → string) (l : list string) :
  ∀ (m : gmap string string) k,
    foldl (λ acc f, <[f := g f]> acc) m l !! k
      = if decide (k ∈ l) then Some (g k) else m !! k.
Proof.
  induction l as [| x l IH]; intros m k.
  - cbn [foldl]. case_decide as Hk; [by apply elem_of_nil in Hk | done].
  - cbn [foldl]. rewrite IH. destruct (decide (k ∈ l)) as [Hin | Hout].
    + rewrite (decide_True (P := k ∈ x :: l)); [done | by right].
    + destruct (decide (k = x)) as [-> | Hne].
      * rewrite lookup_insert_eq.
        rewrite (decide_True (P := x ∈ x :: l)); [done | by left].
      * rewrite lookup_insert_ne by done.
        rewrite (decide_False (P := k ∈ x :: l)); [done |].
        intros [? | ?]%elem_of_cons; done.
Qed.

Lemma find_key_absent (field : string) (defs : list ColumnDefinition.t) :
  field ∉ (ColumnDefinition.key <$> defs) →
  List.find (λ f, String.eqb (ColumnDefinition.key f) field) defs = None.
Proof.
  induction defs as [| d defs IH]; [done |].
  intros [Hne Hout]%not_elem_of_cons. simpl.
  rewrite (proj2 (String.eqb_neq _ _)) by congruence. by apply IH.
Qed.

(** X10.  The labels sent with a single-table export have one entry per
    selected column and none for the others: the label of the schema for a
    column of the active category's schema, the raw key for a selected key
    the schema does not have. *)
Theorem labelsOf_lookup (c : Category) (selected : list string) (field : string) :
  (field ∉ selected → labelsOf c selected !! field = None)
  ∧ (field ∈ selected → field ∉ schemaKeys c →
       labelsOf c selected !! field = Some field)
  ∧ (∀ d, field ∈ selected → d ∈ FIELD_DEFINITIONS c →
          ColumnDefinition.key d = field →
          labelsOf c selected !! field = Some (ColumnDefinition.label d)).
Proof.
  unfold labelsOf.
  set (g := λ field : string,
         match List.find (λ f, String.eqb (ColumnDefinition.key f) field)
                 (FIELD_DEFINITIONS c) with
         | Some d => Js.orStr (ColumnDefinition.label d) field
         | None => field
         end).
  change (foldl _ ∅ selected)
    with (foldl (λ (acc : gmap string string) f, <[f := g f]> acc) ∅ selected).
  rewrite foldl_insert_lookup. split_and!.
  - intros Hout. by rewrite decide_False.
  - intros Hin Hschema. rewrite decide_True by done. unfold g.
    by rewrite find_key_absent.
  - intros d Hin Hd <-. rewrite decide_True by done. f_equal. unfold g.
    destruct c;
      repeat (apply elem_of_cons in Hd as [-> | Hd]; [reflexivity |]);
      by apply elem_of_nil in Hd.
Qed.

Lemma labelsOf_lookup_witness :
  labelsOf VM ["name"; "rack"] !! "uuid" = None
  ∧ labelsOf VM ["name"; "rack"] !! "rack" = Some "rack"
  ∧ labelsOf VM ["name"; "rack"] !! "name" = Some "VM Name".
Proof.
  destruct (labelsOf_lookup VM ["name"; "rack"] "uuid") as (Hnone & _).
  destruct (labelsOf_lookup VM ["name"; "rack"] "rack") as (_ & Hraw & _).
  destruct (labelsOf_lookup VM ["name"; "rack"] "name") as (_ & _ & Hlabel).
  split_and!.
  - apply Hnone. compute_done.
  - apply Hraw; compute_done.
  - apply (Hlabel {| ColumnDefinition.key := "name";
                     ColumnDefinition.label := "VM Name" |});
      [compute_done | | reflexivity].
    right. by left.
Defined.

End ExportLabels.

Section DatePart.

Lemma append_cons (x : ascii) (a rest : string) :
  String x a +:+ rest = String x (a +:+ rest).
Proof. reflexivity. Qed.

Lemma append_empty_r (a : string) : a +:+ "" = a.
Proof. induction a as [| x a IH]; [done |]. by rewrite append_cons, IH. Qed.

Lemma beforeFirst_app (c : ascii) (a rest : string) :
  c ∉ String.list_ascii_of_string a →
  Js.beforeFirst c (a +:+ rest) = a +:+ Js.beforeFirst c rest.
Proof.
  induction a as [| x a IH]; [done |].
  cbn [String.list_ascii_of_string]. intros [Hne Hout]%not_elem_of_cons.
  rewrite !append_cons. cbn [Js.beforeFirst].
  rewrite (proj2 (Ascii.eqb_neq _ _)) by congruence. by rewrite IH.
Qed.

(** X11.  [split(c)[0]] as the export uses it for the date: the result is
    the text up to the first [c], so it is a prefix of the text and holds
    no [c]; a text without [c] is returned whole. *)
Theorem beforeFirst_prefix (c : ascii) (s : string) :
  (∃ rest, s = Js.beforeFirst c s +:+ rest)
  ∧ (c ∉ String.list_ascii_of_string (Js.beforeFirst c s))
  ∧ (c ∉ String.list_ascii_of_string s → Js.beforeFirst c s = s)
  ∧ (∀ a b, s = a +:+ String c b → c ∉ String.list_ascii_of_string a →
            Js.beforeFirst c s = a).
Proof.
  split_and!.
  - induction s as [| x s [rest IH]]; [by exists "" |].
    cbn [Js.beforeFirst]. destruct (Ascii.eqb x c); [by eexists |].
    exists rest. by rewrite append_cons, <- IH.
  - induction s as [| x s IH]; [apply not_elem_of_nil |].
    cbn [Js.beforeFirst]. destruct (Ascii.eqb x c) eqn:Hx;
      [apply not_elem_of_nil |].
    cbn [String.list_ascii_of_string]. apply not_elem_of_cons. split; [| done].
    apply Ascii.eqb_neq in Hx. congruence.
  - intros Hout. rewrite <- (append_empty_r s) at 1.
    rewrite beforeFirst_app by done. apply append_empty_r.
  - intros a b -> Hout. rewrite beforeFirst_app by done.
    cbn [Js.beforeFirst]. rewrite Ascii.eqb_refl. apply append_empty_r.
Qed.

Lemma beforeFirst_prefix_witness :
  Js.beforeFirst "T"%char "2026-01-05T09:07:00.000Z" = "2026-01-05"
  ∧ Js.beforeFirst "T"%char "2026-01-05" = "2026-01-05".
Proof.
  destruct (beforeFirst_prefix "T"%char "2026-01-05T09:07:00.000Z") as (_ & _ & _ & Hcut).
  destruct (beforeFirst_prefix "T"%char "2026-01-05") as (_ & _ & Hwhole & _).
  split.
  - apply (Hcut "2026-01-05" "09:07:00.000Z"); [reflexivity | compute_done].
  - apply Hwhole. compute_done.
Defined.

End DatePart.

Section DateTimeLocal.
Import DataExplorer.

Lemma pretty_four_digits (n : Z) :
  (1000 ≤ n ≤ 9999)%Z → String.length (pretty n) = 4.
Proof.
  intros Hn.
  assert (Hall : Forall (λ n : Z, String.length (pretty n) = 4) (seqZ 1000 9000))
    by compute_done.
  apply (proj1 (Forall_forall _ _) Hall). apply elem_of_seqZ. lia.
Qed.

Lemma padStart2_two_digits (n : Z) :
  (0 ≤ n ≤ 99)%Z → String.length (Js.padStart2 (pretty n)) = 2.
Proof.
  intros Hn.
  assert (Hall : Forall (λ n : Z, String.length (Js.padStart2 (pretty n)) = 2)
                   (seqZ 0 100)) by compute_done.
  apply (proj1 (Forall_forall _ _) Hall). apply elem_of_seqZ. lia.
Qed.

Lemma string_of_length_2 (s : string) :
  String.length s = 2 → ∃ a b, s = String a (String b "").
Proof. destruct s as [| a [| b [| ? ?]]]; try done. by exists a, b. Qed.

Lemma string_of_length_4 (s : string) :
  String.length s = 4 → ∃ a b c d, s = String a (String b (String c (String d ""))).
Proof.
  destruct s as [| a [| b [| c [| d [| ? ?]]]]]; try done. by exists a, b, c, d.
Qed.

(** X12.  For a date whose calendar fields are in their ranges and whose
    year has four digits, [formatDateTime] yields the sixteen characters
    [YYYY-MM-DDTHH:mm] that a [datetime-local] input takes: dashes at
    positions 4 and 7, [T] at 10 and a colon at 13. *)
Theorem formatDateTime_shape `{Runtime} (date : Z) :
  (1000 ≤ getFullYear date ≤ 9999)%Z →
  (0 ≤ getMonth date ≤ 11)%Z →
  (1 ≤ getDate date ≤ 31)%Z →
  (0 ≤ getHours date ≤ 23)%Z →
  (0 ≤ getMinutes date ≤ 59)%Z →
  String.length (formatDateTime date) = 16
  ∧ String.get 4 (formatDateTime date) = Some "-"%char
  ∧ String.get 7 (formatDateTime date) = Some "-"%char
  ∧ String.get 10 (formatDateTime date) = Some "T"%char
  ∧ String.get 13 (formatDateTime date) = Some ":"%char.
Proof.
  intros Hy Hm Hd Hh Hmin. unfold formatDateTime.
  destruct (string_of_length_4 _ (pretty_four_digits _ Hy)) as (y1 & y2 & y3 & y4 & ->).
  destruct (string_of_length_2 (Js.padStart2 (pretty (getMonth date + 1)%Z)))
    as (m1 & m2 & ->); [apply padStart2_two_digits; lia |].
  destruct (string_of_length_2 (Js.padStart2 (pretty (getDate date))))
    as (d1 & d2 & ->); [apply padStart2_two_digits; lia |].
  destruct (string_of_length_2 (Js.padStart2 (pretty (getHours date))))
    as (h1 & h2 & ->); [apply padStart2_two_digits; lia |].
  destruct (string_of_length_2 (Js.padStart2 (pretty (getMinutes date))))
    as (n1 & n2 & ->); [apply padStart2_two_digits; lia |].
  by split_and!.
Qed.

Lemma formatDateTime_shape_witness :
  String.length (@formatDateTime Fixture.runtime 7380000) = 16
  ∧ String.get 10 (@formatDateTime Fixture.runtime 7380000) = Some "T"%char.
Proof.
  destruct (@formatDateTime_shape Fixture.runtime 7380000)
    as (Hlen & _ & _ & HT & _); try (vm_compute; split; discriminate).
  by split.
Defined.

End DateTimeLocal.

Section FetchQuery.
Import DataExplorer Service.

Lemma elem_of_entry_if (b : bool) (k0 v0 k v : string) :
  (k, v) ∈ (if b then [(k0, v0)] else []) ↔ b = true ∧ k = k0 ∧ v = v0.
Proof.
  destruct b.
  - rewrite list_elem_of_singleton. split; [by intros [= -> ->] | by intros (_ & -> & ->)].
  - split; [by intros ?%elem_of_nil | by intros [? _]].
Qed.

Lemma elem_of_entry_unless (b : bool) (k0 v0 k v : string) :
  (k, v) ∈ (if b then [] else [(k0, v0)]) ↔ b = false ∧ k = k0 ∧ v = v0.
Proof.
  destruct b.
  - split; [by intros ?%elem_of_nil | by intros [? _]].
  - rewrite list_elem_of_singleton. split; [by intros [= -> ->] | by intros (_ & -> & ->)].
Qed.

Lemma truthyStr_true (s : string) : Js.truthyStr s = true ↔ s ≠ "".
Proof.
  unfold Js.truthyStr. rewrite negb_true_iff. apply String.eqb_neq.
Qed.

(** X13.  The query that [fetchData] sends is made of the category and, for
    Performance, the start time, the end time, the interval and the
    aggregation, in this order, for Resources the ratio and the
    replication factor; a start or end time that is empty and a number
    that is zero are left out, and nothing else is.  VM and Hardware send
    the category alone.  Every request that [loadData] sends for
    Resources carries both the ratio and the replication factor, and every
    one it sends for Performance both times and the aggregation.  The
    cache flag and the two CVM reservations that [loadData] hands over are
    never part of the query: two calls that differ only in them send the
    same query. *)
Theorem queryOf_reads `{Runtime} (c : Category) (p p' : FetchParams) :
  (c = VM ∨ c = Hardware → queryOf c p = [("category", Category_name c)])
  ∧ (p_startTime p = p_startTime p' →
     p_endTime p = p_endTime p' →
     p_interval p = p_interval p' →
     p_aggregationType p = p_aggregationType p' →
     p_ratio p = p_ratio p' →
     p_rf p = p_rf p' →
     queryOf c p = queryOf c p')
  ∧ (∀ k, k ∈ (queryOf c p).*1 →
          k ∈ ["category"; "startTime"; "endTime"; "interval"; "aggregationType";
               "ratio"; "rf"])
  ∧ head (queryOf c p) = Some ("category", Category_name c)
  ∧ (c = Performance →
     p_startTime p ≠ "" → p_endTime p ≠ "" → p_interval p ≠ 0%Qc →
     queryOf c p
     = [("category", "Performance");
        ("startTime", p_startTime p);
        ("endTime", p_endTime p);
        ("interval", numberToString (p_interval p));
        ("aggregationType",
         match p_aggregationType p with Max => "max" | Average => "average" end)])
  ∧ (c = Resources → p_ratio p ≠ 0%Qc → p_rf p ≠ 0%Qc →
     queryOf c p
     = [("category", "Resources");
        ("ratio", numberToString (p_ratio p));
        ("rf", numberToString (p_rf p))])
  ∧ (∀ k v,
       (k, v) ∈ queryOf c p
       ↔ (k = "category" ∧ v = Category_name c)
         ∨ (c = Performance
            ∧ ((k = "startTime" ∧ v = p_startTime p ∧ p_startTime p ≠ "")
               ∨ (k = "endTime" ∧ v = p_endTime p ∧ p_endTime p ≠ "")
               ∨ (k = "interval" ∧ v = numberToString (p_interval p)
                  ∧ p_interval p ≠ 0%Qc)
               ∨ (k = "aggregationType"
                  ∧ v = match p_aggregationType p with
                        | Max => "max"
                        | Average => "average"
                        end)))
         ∨ (c = Resources
            ∧ ((k = "ratio" ∧ v = numberToString (p_ratio p) ∧ p_ratio p ≠ 0%Qc)
               ∨ (k = "rf" ∧ v = numberToString (p_rf p) ∧ p_rf p ≠ 0%Qc))))
  ∧ (∀ cluster ignoreCache s r,
       (loadData cluster ignoreCache s).2 = Some r →
       body (fetchData r) = cluster
       ∧ (category s = Resources →
          query (fetchData r)
          = [("category", "Resources");
             ("ratio", numberToString (ratio s));
             ("rf", numberToString (rf s))])
       ∧ (category s = Performance →
          ("startTime", startTime s) ∈ query (fetchData r)
          ∧ ("endTime", endTime s) ∈ query (fetchData r)
          ∧ ("aggregationType",
             match aggregationType s with Max => "max" | Average => "average" end)
            ∈ query (fetchData r)
          ∧ (interval s ≠ 0%Qc →
             ("interval", numberToString (interval s)) ∈ query (fetchData r)))).
Proof.
  assert (Hmem : ∀ c p k v,
    (k, v) ∈ queryOf c p
    ↔ (k = "category" ∧ v = Category_name c)
      ∨ (c = Performance
         ∧ ((k = "startTime" ∧ v = p_startTime p ∧ p_startTime p ≠ "")
            ∨ (k = "endTime" ∧ v = p_endTime p ∧ p_endTime p ≠ "")
            ∨ (k = "interval" ∧ v = numberToString (p_interval p)
               ∧ p_interval p ≠ 0%Qc)
            ∨ (k = "aggregationType"
               ∧ v = match p_aggregationType p with
                     | Max => "max"
                     | Average => "average"
                     end)))
      ∨ (c = Resources
         ∧ ((k = "ratio" ∧ v = numberToString (p_ratio p) ∧ p_ratio p ≠ 0%Qc)
            ∨ (k = "rf" ∧ v = numberToString (p_rf p) ∧ p_rf p ≠ 0%Qc)))).
  { clear. intros c p k v. unfold queryOf.
    rewrite !elem_of_app, list_elem_of_singleton.
    assert (Hagg : aggregationName (p_aggregationType p)
                   = match p_aggregationType p with
                     | Max => "max"
                     | Average => "average"
                     end) by by destruct (p_aggregationType p).
    destruct (decide (c = Performance)) as [Hp | Hp];
      destruct (decide (c = Resources)) as [Hr | Hr];
      rewrite ?elem_of_app, ?elem_of_entry_if, ?elem_of_entry_unless,
        ?list_elem_of_singleton, ?truthyStr_true, ?bool_decide_eq_false, ?elem_of_nil,
        ?Hagg;
      rewrite ?pair_eq;
      first [by subst c | tauto]. }
  split_and!.
  - by intros [-> | ->].
  - unfold queryOf. by intros -> -> -> -> -> ->.
  - intros k. unfold queryOf.
    destruct c; simpl;
      repeat match goal with
             | |- context [if ?b then _ else _] => destruct b; simpl
             end;
      intros Hk;
      repeat (apply elem_of_cons in Hk as [-> | Hk]; [compute_done |]);
      by apply elem_of_nil in Hk.
  - done.
  - intros -> Hs He Hi. unfold queryOf. cbn [decide].
    rewrite decide_True, decide_False by done.
    rewrite (proj2 (truthyStr_true _) Hs), (proj2 (truthyStr_true _) He).
    rewrite (bool_decide_eq_false_2 _ Hi). simpl.
    by destruct (p_aggregationType p).
  - intros -> Hr Hf. unfold queryOf.
    rewrite decide_False, decide_True by done.
    by rewrite (bool_decide_eq_false_2 _ Hr), (bool_decide_eq_false_2 _ Hf).
  - apply Hmem.
  - intros cluster ignoreCache s r. unfold loadData.
    destruct (bool_decide (category s = Performance) && _) eqn:Hg1; [done |].
    destruct (bool_decide (category s = Resources) && _) eqn:Hg2; [done |].
    intros [= <-]. unfold fetchData. cbn [query body r_cluster r_category r_params].
    split_and!; [done | |].
    + intros Hc. rewrite Hc in Hg2. rewrite bool_decide_eq_true_2 in Hg2 by done.
      rewrite Hc. simpl in Hg2. apply orb_false_iff in Hg2 as [Hr Hf].
      unfold queryOf. rewrite decide_False, decide_True by done.
      cbn [p_ratio p_rf]. by rewrite Hr, Hf.
    + intros Hc. rewrite Hc in Hg1. rewrite bool_decide_eq_true_2 in Hg1 by done.
      rewrite Hc. simpl in Hg1. apply orb_false_iff in Hg1 as [Hs He].
      apply negb_false_iff, truthyStr_true in Hs, He.
      rewrite !Hmem. cbn [p_startTime p_endTime p_interval p_aggregationType].
      split_and!; [| | | intros Hi]; right; left; (split; [done |]); tauto.
Qed.

Lemma queryOf_reads_witness :
  @fetchData Fixture.runtime (performanceRequest true (Qc_of_Z 0))
    = @fetchData Fixture.runtime (performanceRequest false (Qc_of_Z 4))
  ∧ @queryOf Fixture.runtime Hardware (r_params (performanceRequest true (Qc_of_Z 0)))
    = [("category", "Hardware")]
  ∧ query (@fetchData Fixture.runtime (performanceRequest true (Qc_of_Z 0)))
    = [("category", "Performance"); ("startTime", "2026-01-05T01:03");
       ("endTime", "2026-01-05T02:03"); ("interval", "30/1");
       ("aggregationType", "average")]
  ∧ @queryOf Fixture.runtime Resources (r_params (performanceRequest true (Qc_of_Z 0)))
    = [("category", "Resources"); ("ratio", "3/1"); ("rf", "2/1")]
  ∧ (("ratio", "3/1")
       ∈ @queryOf Fixture.runtime Resources
           (r_params (performanceRequest true (Qc_of_Z 0))))
  ∧ (∀ r, (loadData Fixture.cluster true resourcesLoaded).2 = Some r →
          query (@fetchData Fixture.runtime r)
          = [("category", "Resources"); ("ratio", "3/1"); ("rf", "2/1")]).
Proof.
  destruct (@queryOf_reads Fixture.runtime Performance
              (r_params (performanceRequest true (Qc_of_Z 0)))
              (r_params (performanceRequest false (Qc_of_Z 4))))
    as (_ & Hsame & _ & _ & Hperf & _).
  destruct (@queryOf_reads Fixture.runtime Hardware
              (r_params (performanceRequest true (Qc_of_Z 0)))
              (r_params (performanceRequest true (Qc_of_Z 0))))
    as (Hflat & _).
  destruct (@queryOf_reads Fixture.runtime Resources
              (r_params (performanceRequest true (Qc_of_Z 0)))
              (r_params (performanceRequest true (Qc_of_Z 0))))
    as (_ & _ & _ & _ & _ & Hres & Hmem & Hload).
  split_and!.
  - exact (f_equal (λ q, {| query := q; body := Fixture.cluster |})
             (Hsame eq_refl eq_refl eq_refl eq_refl eq_refl eq_refl)).
  - apply Hflat. by right.
  - exact (Hperf eq_refl ltac:(discriminate) ltac:(discriminate) ltac:(discriminate)).
  - exact (Hres eq_refl ltac:(discriminate) ltac:(discriminate)).
  - apply Hmem. right. right. split; [done |]. left.
    split_and!; [done | done | discriminate].
  - intros r Hr.
    destruct (Hload Fixture.cluster true resourcesLoaded r Hr) as (_ & Hq & _).
    exact (Hq eq_refl).
Defined.

End FetchQuery.

Section ComparatorEdge.
Import DataExplorer.

(** X14.  Where the comparator is symmetric and where it is not: on two
    numbers, swapping the rows negates the result, and a row compares equal
    to itself; on two rows that both lack the field it answers 1 whichever
    way round they are given, in either direction. *)
Theorem compare_symmetry `{Runtime} (f : string) (dir : Direction) (a b : DataRow) :
  (∀ x y, a !! f = Some (Js.Num x) → b !! f = Some (Js.Num y) →
          compare f dir a b = (- compare f dir b a)%Qc
          ∧ compare f dir a a = 0%Qc)
  ∧ (Js.isNullish (a !! f) = true → Js.isNullish (b !! f) = true →
       compare f dir a b = 1%Qc ∧ compare f dir b a = 1%Qc).
Proof.
  split.
  - intros x y Ha Hb. unfold compare. rewrite Ha, Hb.
    destruct dir; split; ring.
  - intros Ha Hb. split; by apply compare_nullish_left.
Qed.

Lemma compare_symmetry_witness :
  @compare Fixture.runtime "numVcpus" Asc vmAlpha vmBeta
    = (- @compare Fixture.runtime "numVcpus" Asc vmBeta vmAlpha)%Qc
  ∧ @compare Fixture.runtime "uuid" Desc vmAlpha vmBeta = 1%Qc
  ∧ @compare Fixture.runtime "uuid" Desc vmBeta vmAlpha = 1%Qc.
Proof.
  destruct (@compare_symmetry Fixture.runtime "numVcpus" Asc vmAlpha vmBeta)
    as [Hnum _].
  destruct (Hnum (Qc_of_Z 2) (Qc_of_Z 8)) as [Hneg _]; [reflexivity | reflexivity |].
  destruct (@compare_symmetry Fixture.runtime "uuid" Desc vmAlpha vmBeta)
    as [_ Hnull].
  destruct Hnull as [H1 H2]; [reflexivity | reflexivity |].
  by split_and!.
Defined.

End ComparatorEdge.

(** * Further properties of ClusterManager *)

Section Removal.
Import ClusterManager ClusterManagerRest.

Lemma activeCluster_filter (id selected : string) (l : list ClusterConfig.t) :
  selected ≠ id →
  App.activeCluster (filter (λ c, ClusterConfig.id c ≠ id) l) (Some selected)
    = App.activeCluster l (Some selected).
Proof.
  intros Hne. unfold App.activeCluster.
  induction l as [| c l IH]; [done |].
  rewrite filter_cons. destruct (decide (ClusterConfig.id c ≠ id)) as [Hc | Hc].
  - simpl. by rewrite IH.
  - simpl. rewrite IH.
    rewrite (proj2 (String.eqb_neq _ _)); [done |].
    intros Heq. apply Hc. congruence.
Qed.

Lemma activeCluster_no_id (selected : string) (l : list ClusterConfig.t) :
  (∀ c, c ∈ l → ClusterConfig.id c ≠ selected) →
  App.activeCluster l (Some selected) = None.
Proof.
  unfold App.activeCluster. induction l as [| c l IH]; [done |].
  intros Hall. simpl.
  rewrite (proj2 (String.eqb_neq _ _)) by (apply Hall; by left).
  apply IH. intros c' Hc'. apply Hall. by right.
Qed.


(** X15.  [removeCluster] drops every connection with the given id and
    keeps the others in their order.  Removing the active connection leaves
    no active cluster (no connection has the empty id); removing another one
    leaves the active cluster as it is. *)
Theorem removeCluster_effect (id : string) (w : World) :
  (∀ c, c ∈ clusters (removeCluster id w) ↔ c ∈ clusters w ∧ ClusterConfig.id c ≠ id)
  ∧ clusters (removeCluster id w) `sublist_of` clusters w
  ∧ (selectedClusterId w = Some id →
       selectedClusterId (removeCluster id w) = Some ""
       ∧ ((∀ c, c ∈ clusters w → ClusterConfig.id c ≠ "") →
          App.activeCluster (clusters (removeCluster id w))
            (selectedClusterId (removeCluster id w)) = None))
  ∧ (selectedClusterId w ≠ Some id →
       selectedClusterId (removeCluster id w) = selectedClusterId w
       ∧ App.activeCluster (clusters (removeCluster id w))
           (selectedClusterId (removeCluster id w))
         = App.activeCluster (clusters w) (selectedClusterId w))
  ∧ presets (removeCluster id w) = presets w.
Proof.
  assert (Hcl : clusters (removeCluster id w)
                = filter (λ c, ClusterConfig.id c ≠ id) (clusters w)).
  { unfold removeCluster. by case_decide. }
  split_and!.
  - intros c. rewrite Hcl, list_elem_of_filter. tauto.
  - rewrite Hcl. apply sublist_filter.
  - intros Hsel.
    assert (Hs : selectedClusterId (removeCluster id w) = Some "").
    { unfold removeCluster. by rewrite decide_True. }
    split; [done |]. intros Hids. rewrite Hs, Hcl.
    apply activeCluster_no_id. intros c [_ Hc]%list_elem_of_filter Hid.
    by apply (Hids c).
  - intros Hsel.
    assert (Hs : selectedClusterId (removeCluster id w) = selectedClusterId w).
    { unfold removeCluster. by rewrite decide_False. }
    split; [done |]. rewrite Hs, Hcl.
    destruct (selectedClusterId w) as [selected |]; [| done].
    apply activeCluster_filter. congruence.
  - unfold removeCluster. by case_decide.
Qed.

Lemma removeCluster_effect_witness :
  (ClusterConfig.ip <$> clusters (removeCluster "b" twoConnected)) = ["10.0.0.1"]
  ∧ App.activeCluster (clusters (removeCluster "b" twoConnected))
      (selectedClusterId (removeCluster "b" twoConnected)) = None
  ∧ (ClusterConfig.name
       <$> App.activeCluster (clusters (removeCluster "a" twoConnected))
             (selectedClusterId (removeCluster "a" twoConnected))) = Some "beta".
Proof.
  destruct (removeCluster_effect "b" twoConnected) as (_ & _ & Hactive & _).
  destruct Hactive as [_ Hnone]; [reflexivity |].
  destruct (removeCluster_effect "a" twoConnected) as (_ & _ & _ & Hother & _).
  destruct Hother as [_ Hkept]; [discriminate |].
  split_and!.
  - reflexivity.
  - apply Hnone. intros c Hc.
    repeat (apply elem_of_cons in Hc as [-> | Hc]); try by apply elem_of_nil in Hc.
    + discriminate.
    + discriminate.
  - rewrite Hkept. reflexivity.
Defined.

(** X16.  [removeAllClusters] does nothing when there is no connection or
    when the user declines; confirmed, it empties the connection set and
    leaves no active cluster.  It never touches the presets. *)
Theorem removeAllClusters_effect (confirmed : bool) (w : World) :
  (clusters w = [] ∨ confirmed = false → removeAllClusters confirmed w = w)
  ∧ (clusters w ≠ [] → confirmed = true →
       clusters (removeAllClusters confirmed w) = []
       ∧ selectedClusterId (removeAllClusters confirmed w) = Some ""
       ∧ App.activeCluster (clusters (removeAllClusters confirmed w))
           (selectedClusterId (removeAllClusters confirmed w)) = None)
  ∧ presets (removeAllClusters confirmed w) = presets w
  ∧ selectedPresets (removeAllClusters confirmed w) = selectedPresets w.
Proof.
  unfold removeAllClusters. split_and!.
  - intros [-> | ->]; [done |]. by case_bool_decide.
  - intros Hne ->. rewrite bool_decide_eq_false_2 by (by destruct (clusters w)).
    done.
  - case_bool_decide; [done |]. by destruct confirmed.
  - case_bool_decide; [done |]. by destruct confirmed.
Qed.

Lemma removeAllClusters_effect_witness :
  removeAllClusters false twoConnected = twoConnected
  ∧ clusters (removeAllClusters true twoConnected) = []
  ∧ App.activeCluster (clusters (removeAllClusters true twoConnected))
      (selectedClusterId (removeAllClusters true twoConnected)) = None.
Proof.
  destruct (removeAllClusters_effect false twoConnected) as (Hkeep & _).
  destruct (removeAllClusters_effect true twoConnected) as (_ & Hgone & _).
  destruct Hgone as (Hcl & _ & Hact); [discriminate | reflexivity |].
  split_and!; [apply Hkeep; by right | done | done].
Defined.

End Removal.

Section ConnectingFurther.
Import ClusterManager ClusterManagerRest.

Lemma connectSelectedPresets_clusters `{Platform} (w : World) :
  clusters (connectSelectedPresets w)
    = clusters w ++ omap connectedOf (attempts (draws w) (selectedPresetsList w)).
Proof.
  unfold connectSelectedPresets.
  destruct (connectLoop_effect (selectedPresetsList w) (batchStart w))
    as (_ & Hcl & _ & _ & _ & _ & _).
  fold (batchStart w). case_bool_decide as Hempty.
  - destruct (selectedPresetsList w); [| done]. simpl. by rewrite app_nil_r.
  - by case_bool_decide.
Qed.

Lemma connectedOf_verified `{Platform} (l : list Attempt) :
  Forall (λ c, ClusterConfig.isVerified c = true) (omap connectedOf l).
Proof.
  induction l as [| a l IH]; [constructor |].
  rewrite omap_cons_list. apply Forall_app. split; [| done].
  unfold connectedOf. destruct (outcome a); by repeat constructor.
Qed.

(** The single-target path of [handleAddCluster], past its three tests. *)
Lemma handleAddCluster_attempt `{Platform} (now : Z) (w : World) :
  size (selectedPresets w) < 2 →
  filled (newCluster w) →
  Form.apiVersion (newCluster w) ≠ Some V4_0 →
  handleAddCluster now w
    = setVerifying false
        (match verifyClusterConnection (clusterOfForm (pretty now) (newCluster w)) with
         | Verified clusterName =>
             setNewCluster emptyForm
               (setIsModalOpen false
                  (onSelectCluster (pretty now)
                     (setClusters
                        (λ prev, prev ++ [finalClusterOf
                                            (clusterOfForm (pretty now) (newCluster w))
                                            clusterName])
                        (emit (VerifyCall (clusterOfForm (pretty now) (newCluster w)))
                           (setErrorMsg None (setVerifying true w))))))
         | Refused message =>
             setErrorMsg (Some (Js.orStr message "Unknown error occurred."))
               (emit ConsoleError
                  (emit (VerifyCall (clusterOfForm (pretty now) (newCluster w)))
                     (setErrorMsg None (setVerifying true w))))
         end).
Proof.
  intros Hsize (Hip & Huser & Hpass) Hv4. unfold handleAddCluster.
  rewrite bool_decide_eq_false_2 by lia.
  unfold Js.truthyStr. apply String.eqb_neq in Hip, Huser, Hpass.
  rewrite Hip, Huser, Hpass. simpl.
  by rewrite bool_decide_eq_false_2.
Qed.

(** X17.  Connecting never loses a connection and never adds an unverified
    one: after [handleAddCluster], on either path, the connection set
    starts with the connections it had, and if those were all verified so
    are all of them now. *)
Theorem connections_grow_verified `{Platform} (now : Z) (w : World) :
  clusters w `prefix_of` clusters (handleAddCluster now w)
  ∧ (Forall (λ c, ClusterConfig.isVerified c = true) (clusters w) →
     Forall (λ c, ClusterConfig.isVerified c = true) (clusters (handleAddCluster now w))).
Proof.
  assert (Hshape : ∃ new, clusters (handleAddCluster now w) = clusters w ++ new
                          ∧ Forall (λ c, ClusterConfig.isVerified c = true) new).
  { unfold handleAddCluster. case_bool_decide as Hsize.
    - rewrite connectSelectedPresets_clusters. eexists. split; [done |].
      apply connectedOf_verified.
    - destruct (negb _ || negb _ || negb _);
        [exists []; by rewrite app_nil_r |].
      case_bool_decide; [exists []; by rewrite app_nil_r |].
      destruct (verifyClusterConnection _); simpl.
      + eexists. split; [done |]. by repeat constructor.
      + exists []. by rewrite app_nil_r. }
  destruct Hshape as (new & -> & Hnew). split.
  - by exists new.
  - intros Hold. by apply Forall_app.
Qed.

Lemma connections_grow_verified_witness :
  Forall (λ c, ClusterConfig.isVerified c = true)
    (clusters (@handleAddCluster Fixture.platform 7200000
                 (setClusters (λ _, clusters twoConnected) threeSelected))).
Proof.
  apply (@connections_grow_verified Fixture.platform 7200000).
  repeat constructor.
Defined.



End ConnectingFurther.

Section PresetStore.
Import ClusterManager ClusterManagerRest.

(** X19.  [deletePreset] removes every preset with the given id, keeps the
    others in their order and writes the result through to the store; it
    leaves the selection alone, so the id of a deleted preset that was
    ticked stays in the selection and keeps counting in its size. *)
Theorem deletePreset_effect `{Browser} (id : string) (w : World) :
  (∀ p, p ∈ presets (deletePreset id w) ↔ p ∈ presets w ∧ Preset.id p ≠ id)
  ∧ presets (deletePreset id w) `sublist_of` presets w
  ∧ inSync (deletePreset id w)
  ∧ selectedPresets (deletePreset id w) = selectedPresets w
  ∧ (id ∈ selectedPresets w →
       id ∈ selectedPresets (deletePreset id w)
       ∧ ∀ p, p ∈ presets (deletePreset id w) → Preset.id p ≠ id)
  ∧ clusters (deletePreset id w) = clusters w.
Proof.
  unfold deletePreset, savePresetsToStorage, inSync.
  cbn [presets setLocalStorage setPresets localStorage selectedPresets clusters].
  split_and!.
  - intros p. rewrite list_elem_of_filter. tauto.
  - apply sublist_filter.
  - by rewrite lookup_insert_eq.
  - done.
  - intros Hin. split; [done |]. by intros p [? _]%list_elem_of_filter.
  - done.
Qed.

Lemma deletePreset_effect_witness :
  (Preset.id <$> presets (@deletePreset FixtureRest.browser "2" threeSelected))
    = ["1"; "3"]
  ∧ size (selectedPresets (@deletePreset FixtureRest.browser "2" threeSelected)) = 3.
Proof.
  destruct (@deletePreset_effect FixtureRest.browser "2" threeSelected)
    as (_ & _ & _ & Hsel & Hstale & _).
  destruct Hstale as [_ _]; [compute_done |].
  split; [reflexivity |]. rewrite Hsel. reflexivity.
Defined.

(** X20.  With two or more ids ticked of which no preset is left,
    [handleAddCluster] takes the batch path, finds no candidate and returns
    with nothing changed: the filled form is not looked at, no call is made
    and no message is shown. *)
Theorem handleAddCluster_stale_selection `{Platform} (now : Z) (w : World) :
  2 ≤ size (selectedPresets w) →
  (∀ p, p ∈ presets w → Preset.id p ∉ selectedPresets w) →
  handleAddCluster now w = w.
Proof.
  intros Hsize Hnone. unfold handleAddCluster, connectSelectedPresets.
  rewrite bool_decide_eq_true_2 by done.
  assert (selectedPresetsList w = []) as ->; [| done].
  unfold selectedPresetsList.
  induction (presets w) as [| p ps IH]; [done |].
  rewrite filter_cons_False by (apply Hnone; by left).
  apply IH. intros p' Hp'. apply Hnone. by right.
Qed.

Lemma handleAddCluster_stale_selection_witness :
  Form.ip (newCluster allDeleted) = "10.0.0.9"
  ∧ @handleAddCluster Fixture.platform 7200000 allDeleted = allDeleted.
Proof.
  split; [reflexivity |].
  apply (@handleAddCluster_stale_selection Fixture.platform).
  - vm_compute. lia.
  - intros p Hp. by apply elem_of_nil in Hp.
Defined.

(** X21.  [deleteSelectedPresets] removes exactly the presets whose id is
    ticked, keeps the others in their order, writes the result through to
    the store and clears the selection, so that no candidate is left for a
    batch. *)
Theorem deleteSelectedPresets_effect `{Browser} (w : World) :
  (∀ p, p ∈ presets (deleteSelectedPresets w)
        ↔ p ∈ presets w ∧ Preset.id p ∉ selectedPresets w)
  ∧ presets (deleteSelectedPresets w) `sublist_of` presets w
  ∧ inSync (deleteSelectedPresets w)
  ∧ selectedPresets (deleteSelectedPresets w) = ∅
  ∧ selectedPresetsList (deleteSelectedPresets w) = []
  ∧ clusters (deleteSelectedPresets w) = clusters w.
Proof.
  unfold deleteSelectedPresets, savePresetsToStorage, inSync, selectedPresetsList.
  cbn [presets setLocalStorage setPresets setSelectedPresets localStorage
       selectedPresets clusters].
  split_and!.
  - intros p. rewrite list_elem_of_filter. tauto.
  - apply sublist_filter.
  - by rewrite lookup_insert_eq.
  - done.
  - induction (filter _ (presets w)) as [| p ps IH]; [done |].
    rewrite filter_cons_False by apply not_elem_of_empty. done.
  - done.
Qed.

(** X22.  What is saved is what is loaded: after [savePresetsToStorage] the
    state and the store hold the same presets, and a component mounted on
    that store reads them back, provided [JSON.parse] undoes
    [JSON.stringify] on them. *)
Theorem presets_round_trip `{Platform} `{Browser} (ps : list Preset.t) (w w0 : World) :
  JSON_stringify ps ≠ "" →
  JSON_parse (JSON_stringify ps) = Parsed ps →
  localStorage w0 = localStorage (savePresetsToStorage ps w) →
  presets (savePresetsToStorage ps w) = ps
  ∧ inSync (savePresetsToStorage ps w)
  ∧ loadPresetsEffect w0 = Normal (setPresets ps w0).
Proof.
  intros Hne Hparse Hstore. split_and!.
  - done.
  - unfold inSync, savePresetsToStorage.
    cbn [presets setLocalStorage setPresets localStorage].
    by rewrite lookup_insert_eq.
  - unfold loadPresetsEffect. rewrite Hstore.
    unfold savePresetsToStorage. cbn [setLocalStorage setPresets localStorage].
    rewrite lookup_insert_eq. unfold Js.truthyStr.
    rewrite (proj2 (String.eqb_neq _ _) Hne). simpl. by rewrite Hparse.
Qed.

Lemma presets_round_trip_witness :
  let saved := @savePresetsToStorage FixtureRest.browser [FixtureRest.savedPreset]
                 (initial ∅) in
  @loadPresetsEffect FixtureRest.platform (initial (localStorage saved))
    = Normal (setPresets [FixtureRest.savedPreset] (initial (localStorage saved))).
Proof.
  intros saved.
  apply (@presets_round_trip FixtureRest.platform FixtureRest.browser
           [FixtureRest.savedPreset] (initial ∅) (initial (localStorage saved)));
    [discriminate | reflexivity | reflexivity].
Defined.

End PresetStore.

Section ImportItems.
Import ClusterManager ClusterManagerRest.
Context `{Runtime} `{Browser}.

Lemma importItems_null clock items : ∀ i acc,
  Json.Null ∈ items → importItems clock i items acc = None.
Proof.
  induction items as [| item items IH]; intros i acc Hin;
    [by apply elem_of_nil in Hin |].
  cbn [importItems]. apply elem_of_cons in Hin as [<- | Hin]; [done |].
  destruct (importItem (clock i) i item); [by apply IH | by apply IH | done].
Qed.

Lemma fieldText_textOf (v : Json.t) (text : string) :
  fieldText v = Some text → textOf (Some v) text.
Proof.
  unfold fieldText, textOf. intros Ht.
  destruct v as [| [] | q | s | l | ms]; simplify_eq;
    split_and!; try (intros; by simplify_eq).
  - intros l' [= <-]. destruct (compositeToString _) as [t |]; [| done].
    exists t. by simplify_eq/=.
  - intros ms' [= <-]. destruct (compositeToString _) as [t |]; [| done].
    exists t. by simplify_eq/=.
Qed.

Lemma importItem_cases now i item :
  match importItem now i item with
  | Skipped => complete item = false
  | Accepted p => complete item = true ∧ importedFrom (λ _, now) (i, item) p
  | Raised => True
  end.
Proof.
  assert (Hbody :
    match
      (if complete item
       then match Json.get "ip" item ≫= fieldText,
                  Json.get "username" item ≫= fieldText,
                  Json.get "password" item ≫= fieldText with
            | Some ip, Some username, Some password =>
                Accepted
                  {| Preset.id := pretty now +:+ "_" +:+ pretty i;
                     Preset.type :=
                       if Json.isStr "PC" (Json.get "type" item) then PC else PE;
                     Preset.ip := ip;
                     Preset.username := username;
                     Preset.password := password;
                     Preset.apiVersion :=
                       Some (if Json.isStr "v4.0" (Json.get "apiVersion" item)
                             then V4_0 else V2_0) |}
            | _, _, _ => Raised
            end
       else Skipped)
    with
    | Skipped => complete item = false
    | Accepted p => complete item = true ∧ importedFrom (λ _, now) (i, item) p
    | Raised => True
    end).
  { destruct (complete item); [| done].
    destruct (Json.get "ip" item ≫= fieldText) as [a |] eqn:Ha; [| done].
    destruct (Json.get "username" item ≫= fieldText) as [b |] eqn:Hb; [| done].
    destruct (Json.get "password" item ≫= fieldText) as [c |] eqn:Hc; [| done].
    split; [done |]. unfold importedFrom. cbn.
    split_and!; try done.
    - destruct (Json.get "ip" item) as [v |]; [| done]. by apply fieldText_textOf.
    - destruct (Json.get "username" item) as [v |]; [| done].
      by apply fieldText_textOf.
    - destruct (Json.get "password" item) as [v |]; [| done].
      by apply fieldText_textOf. }
  destruct item; [done | exact Hbody ..].
Qed.

Lemma importItems_accepts clock items : ∀ i acc new,
  importItems clock i items acc = Some new →
  ∃ added, new = acc ++ added
           ∧ Forall2 (importedFrom clock) (completeItems i items) added.
Proof.
  induction items as [| item items IH]; intros i acc new Hrun.
  - injection Hrun as <-. exists []. by rewrite app_nil_r.
  - cbn [importItems completeItems] in *.
    pose proof (importItem_cases (clock i) i item) as Hitem.
    destruct (importItem (clock i) i item) as [| p |]; [| | done].
    + rewrite Hitem. by apply IH.
    + destruct Hitem as [-> Hp].
      destruct (IH _ _ _ Hrun) as (added & -> & Hadded).
      exists (p :: added). rewrite <- app_assoc. split; [done |].
      by constructor.
Qed.

(** A truthy field has a text exactly when its [toString] returns. *)
Lemma fieldText_some (k : string) (item : Json.t) :
  Json.truthy (Json.get k item) = true →
  is_Some (Json.get k item ≫= fieldText)
  ↔ ∀ v, Json.get k item = Some v →
         match v with
         | Json.Arr _ | Json.Obj _ => is_Some (compositeToString v)
         | _ => True
         end.
Proof.
  intros Hk. destruct (Json.get k item) as [v |]; [| done].
  change (Some v ≫= fieldText) with (fieldText v). unfold fieldText. split.
  - intros Hv v' [= <-].
    destruct v as [| [] | q | t | l | ms]; try done;
      by apply fmap_is_Some in Hv.
  - intros Hv. specialize (Hv v eq_refl).
    destruct v as [| [] | q | t | l | ms]; try done; try by eexists.
    all: by apply fmap_is_Some.
Qed.

(** The body of the loop raises on [null] and on a complete item one of
    whose three fields cannot be turned into a text, and on nothing else. *)
Lemma importItem_raises now i item :
  importItem now i item ≠ Raised
  ↔ item ≠ Json.Null ∧ (complete item = true → readable item).
Proof.
  assert (Hbody :
    (if complete item
     then match Json.get "ip" item ≫= fieldText,
                Json.get "username" item ≫= fieldText,
                Json.get "password" item ≫= fieldText with
          | Some ip, Some username, Some password =>
              Accepted
                {| Preset.id := pretty now +:+ "_" +:+ pretty i;
                   Preset.type :=
                     if Json.isStr "PC" (Json.get "type" item) then PC else PE;
                   Preset.ip := ip;
                   Preset.username := username;
                   Preset.password := password;
                   Preset.apiVersion :=
                     Some (if Json.isStr "v4.0" (Json.get "apiVersion" item)
                           then V4_0 else V2_0) |}
          | _, _, _ => Raised
          end
     else Skipped) ≠ Raised
    ↔ (complete item = true → readable item)).
  { unfold complete.
    destruct (Json.truthy (Json.get "ip" item)) eqn:H1; [| by split].
    destruct (Json.truthy (Json.get "username" item)) eqn:H2; [| by split].
    destruct (Json.truthy (Json.get "password" item)) eqn:H3; [| by split].
    pose proof (fieldText_some "ip" item H1) as Hip.
    pose proof (fieldText_some "username" item H2) as Huser.
    pose proof (fieldText_some "password" item H3) as Hpass.
    cbn [andb]. unfold readable. split.
    - intros Hok _ k v Hk Hv.
      destruct (Json.get "ip" item ≫= fieldText) as [a |];
        [| by destruct Hok].
      destruct (Json.get "username" item ≫= fieldText) as [b |];
        [| by destruct Hok].
      destruct (Json.get "password" item ≫= fieldText) as [c |];
        [| by destruct Hok].
      repeat (apply elem_of_cons in Hk as [-> | Hk]);
        [apply Hip | apply Huser | apply Hpass | by apply elem_of_nil in Hk];
        by try eexists.
    - intros Hread. specialize (Hread eq_refl).
      destruct (proj2 Hip) as [a ->];
        [intros v Hv; apply (Hread "ip" v); [compute_done | done] |].
      destruct (proj2 Huser) as [b ->];
        [intros v Hv; apply (Hread "username" v); [compute_done | done] |].
      destruct (proj2 Hpass) as [c ->];
        [intros v Hv; apply (Hread "password" v); [compute_done | done] |].
      done. }
  unfold importItem. destruct item; [by split; [| intros [? _]] | ..];
    (rewrite Hbody; split; [by intros ? | by intros [_ ?]]).
Qed.

Lemma importItems_some clock items : ∀ i acc,
  is_Some (importItems clock i items acc)
  ↔ Forall (λ item, item ≠ Json.Null ∧ (complete item = true → readable item))
           items.
Proof.
  induction items as [| item items IH]; intros i acc.
  - split; [by constructor | by eexists].
  - cbn [importItems]. rewrite Forall_cons.
    rewrite <- (importItem_raises (clock i) i item).
    destruct (importItem (clock i) i item) as [| p |].
    + rewrite IH. split; [by intros ? | by intros [_ ?]].
    + rewrite IH. split; [by intros ? | by intros [_ ?]].
    + split; [by intros [? ?] | by intros [? _]].
Qed.

End ImportItems.

Section ImportClaims.
Import ClusterManager ClusterManagerRest.

(** X23.  The import is all or nothing and never throws.  A file that is
    not JSON, whose value is not an array, or that holds a [null] entry
    imports nothing, even when entries before the [null] were complete: the
    presets and the store stay as they were and a message is shown.
    Otherwise either no entry was complete, with the same outcome, or the
    new presets are appended to the old ones, written through to the store,
    and the message is cleared. *)
Theorem handleFileUpload_all_or_nothing `{Runtime} `{Browser} (clock : nat → Z)
    (text : string) (w : World) :
  ((is_Some (errorMsg (handleFileUpload clock text w))
    ∧ presets (handleFileUpload clock text w) = presets w
    ∧ localStorage (handleFileUpload clock text w) = localStorage w)
   ∨ (errorMsg (handleFileUpload clock text w) = None
      ∧ inSync (handleFileUpload clock text w)
      ∧ ∃ new, new ≠ []
               ∧ presets (handleFileUpload clock text w) = presets w ++ new))
  ∧ (∀ message, JSON_parse_file text = FileSyntaxError message →
       errorMsg (handleFileUpload clock text w)
       = Some "Failed to parse the JSON file. Please check the format.")
  ∧ (∀ v, JSON_parse_file text = FileValue v → (∀ items, v ≠ Json.Arr items) →
       errorMsg (handleFileUpload clock text w)
       = Some "Invalid JSON format. Expected an array of objects.")
  ∧ (∀ items, JSON_parse_file text = FileValue (Json.Arr items) →
       Json.Null ∈ items →
       errorMsg (handleFileUpload clock text w)
       = Some "Failed to parse the JSON file. Please check the format."
       ∧ presets (handleFileUpload clock text w) = presets w)
  ∧ clusters (handleFileUpload clock text w) = clusters w
  ∧ selectedPresets (handleFileUpload clock text w) = selectedPresets w.
Proof.
  unfold handleFileUpload.
  destruct (JSON_parse_file text) as [v | message] eqn:Hparse.
  - destruct v as [| b | q | t | items | ms];
      try (split_and!; [left; split_and!; [by eexists | done | done] | done | | | done | done];
           [intros v Hv _; by injection Hv as <- | by intros items [= ?]]).
    destruct (importItems clock 0 items []) as [new |] eqn:Hrun.
    + destruct (bool_decide (0 < length new)) eqn:Hnew.
      * apply bool_decide_eq_true_1 in Hnew. split_and!; try done.
        -- right. split_and!; [done | |].
           ++ unfold inSync, savePresetsToStorage.
              cbn [presets localStorage setErrorMsg setLocalStorage setPresets].
              by rewrite lookup_insert_eq.
           ++ exists new. split; [| done]. destruct new; [simpl in Hnew; lia | done].
        -- intros v [= <-] Hno. by destruct (Hno items).
        -- intros items' [= <-] Hnull.
           by rewrite (importItems_null clock items 0 [] Hnull) in Hrun.
      * split_and!; try done.
        -- left. split_and!; [by eexists | done | done].
        -- intros v [= <-] Hno. by destruct (Hno items).
        -- intros items' [= <-] Hnull.
           by rewrite (importItems_null clock items 0 [] Hnull) in Hrun.
    + split_and!; try done.
      * left. split_and!; [by eexists | done | done].
      * intros v [= <-] Hno. by destruct (Hno items).
  - split_and!; try done. left. split_and!; [by eexists | done | done].
Qed.

Lemma handleFileUpload_all_or_nothing_witness :
  errorMsg (@handleFileUpload Fixture.runtime FixtureRest.browser (λ _, 7200000%Z)
              "not json" threeSelected)
    = Some "Failed to parse the JSON file. Please check the format."
  ∧ errorMsg (@handleFileUpload Fixture.runtime FixtureRest.browser (λ _, 7200000%Z)
                "{}" threeSelected)
    = Some "Invalid JSON format. Expected an array of objects."
  ∧ presets (@handleFileUpload Fixture.runtime FixtureRest.browser (λ _, 7200000%Z)
               FixtureRest.brokenText threeSelected)
    = presets threeSelected.
Proof.
  destruct (@handleFileUpload_all_or_nothing Fixture.runtime FixtureRest.browser
              (λ _, 7200000%Z) "not json" threeSelected) as (_ & Hsyntax & _).
  destruct (@handleFileUpload_all_or_nothing Fixture.runtime FixtureRest.browser
              (λ _, 7200000%Z) "{}" threeSelected) as (_ & _ & Hshape & _).
  destruct (@handleFileUpload_all_or_nothing Fixture.runtime FixtureRest.browser
              (λ _, 7200000%Z) FixtureRest.brokenText threeSelected)
    as (_ & _ & _ & Hnull & _).
  destruct (Hnull _ eq_refl) as [_ Hkept]; [right; by left |].
  split_and!.
  - by apply (Hsyntax "Unexpected token").
  - by apply (Hshape (Json.Obj [])).
  - exact Hkept.
Defined.

(** X24.  What the import accepts: when it succeeds, the presets it adds
    are, in order, the entries that have a truthy address, user name and
    password; an entry lacking one of them is skipped.  Each added preset
    takes its id from the clock and the entry's index, the kind PC only
    for the type "PC" and otherwise PE, the api version v4.0 only for
    "v4.0" and otherwise v2.0, never none, and each of its three texts from
    the entry's value, trimmed: a string as it is, a number by its decimal
    text, [true] as "true", an array or an object by what its [toString]
    returns.  The import succeeds exactly when the file holds no [null]
    entry and [toString] returns on the address, the user name and the
    password of every entry that has the three. *)
Theorem importItems_defaults `{Runtime} `{Browser} (clock : nat → Z)
    (items : list Json.t) :
  (∀ new, importItems clock 0 items [] = Some new →
          Forall2 (importedFrom clock) (completeItems 0 items) new
          ∧ length new ≤ length items
          ∧ Forall (λ p, is_Some (Preset.apiVersion p)) new)
  ∧ (is_Some (importItems clock 0 items [])
     ↔ (Json.Null ∉ items)
       ∧ ∀ item, item ∈ items → complete item = true → readable item).
Proof.
  split.
  - intros new Hrun.
    destruct (importItems_accepts clock items 0 [] new Hrun) as (added & -> & Hall).
    simpl. split_and!; [done | |].
    + rewrite <- (Forall2_length _ _ _ Hall). clear.
      generalize 0. induction items as [| item items IH]; intros i; [done |].
      cbn [completeItems]. rewrite length_app. specialize (IH (S i)).
      destruct (complete item); simpl; lia.
    + clear Hrun. induction Hall as [| x p xs ps (_ & _ & Hv & _) _ IH]; constructor;
        [by rewrite Hv | done].
  - rewrite importItems_some, Forall_forall. split.
    + intros Hall. split.
      * intros Hnull. by destruct (Hall _ Hnull) as [Hne _].
      * intros item Hin. by destruct (Hall _ Hin) as [_ Hread].
    + intros [Hnull Hread] item Hin. split; [| by apply Hread].
      by intros ->.
Qed.

Lemma importItems_defaults_witness :
  (∃ p, @importItems Fixture.runtime FixtureRest.browser (λ _, 7200000%Z) 0
          [Json.Obj [("ip", Json.Str "10.0.0.1"); ("username", Json.Bool true);
                     ("password", Json.Num (Qc_of_Z 1234))];
           Json.Obj [("ip", Json.Num (Qc_of_Z 0)); ("username", Json.Str "x");
                     ("password", Json.Str "y")];
           Json.Obj [("ip", Json.Str "10.0.0.3"); ("username", Json.Str "");
                     ("password", Json.Str "y")];
           Json.Obj [("username", Json.Str "x")]] [] = Some [p]
        ∧ Preset.type p = PE
        ∧ Preset.apiVersion p = Some V2_0
        ∧ Preset.ip p = "10.0.0.1"
        ∧ Preset.username p = "true"
        ∧ Preset.password p = @numberToString Fixture.runtime (Qc_of_Z 1234)
        ∧ Preset.id p = "7200000_0")
  ∧ ¬ is_Some (@importItems Fixture.runtime FixtureRest.browser (λ _, 7200000%Z) 0
                 [Json.Obj [("ip", Json.Str "10.0.0.1"); ("username", Json.Str "a");
                            ("password", Json.Str "b")];
                  Json.Null] []).
Proof.
  destruct (@importItems_defaults Fixture.runtime FixtureRest.browser (λ _, 7200000%Z)
              [Json.Obj [("ip", Json.Str "10.0.0.1"); ("username", Json.Bool true);
                         ("password", Json.Num (Qc_of_Z 1234))];
               Json.Obj [("ip", Json.Num (Qc_of_Z 0)); ("username", Json.Str "x");
                     ("password", Json.Str "y")];
           Json.Obj [("ip", Json.Str "10.0.0.3"); ("username", Json.Str "");
                     ("password", Json.Str "y")];
           Json.Obj [("username", Json.Str "x")]]) as [Hshape Htotal].
  destruct (@importItems_defaults Fixture.runtime FixtureRest.browser (λ _, 7200000%Z)
              [Json.Obj [("ip", Json.Str "10.0.0.1"); ("username", Json.Str "a");
                         ("password", Json.Str "b")];
               Json.Null]) as [_ Hbroken].
  split.
  - destruct (proj2 Htotal) as [new Hnew].
    { split.
      - intros Hnull.
        repeat (apply elem_of_cons in Hnull as [Hnull | Hnull]; [discriminate |]).
        by apply elem_of_nil in Hnull.
      - intros item _ _ k v _ _. destruct v; by try eexists. }
    destruct (Hshape new Hnew) as (Hall & _ & _).
    apply Forall2_cons_inv_l in Hall as (p & rest & Hp & Hrest & ->).
    apply Forall2_nil_inv_l in Hrest as ->.
    destruct Hp as (Hid & Htype & Hver & Hip & Huser & Hpass).
    destruct Hip as (Hip & _), Huser as (_ & _ & Huser & _), Hpass as (_ & Hpass & _).
    exists p. split_and!; [done | done | done | | | | done].
    + by apply Hip.
    + by apply Huser.
    + by apply Hpass.
  - intros Hsome. apply Hbroken in Hsome as [Hnull _].
    apply Hnull. right. by left.
Defined.

End ImportClaims.

Section StoreInvariant.
Import ClusterManager ClusterManagerRest.

(** X25.  Write-through: if the store holds the presets of the state, it
    still does after saving the form as a preset, deleting a preset,
    deleting the ticked presets or importing a file, whether the handler
    saved anything or stopped on an error. *)
Theorem store_stays_in_sync `{Runtime} `{Browser} (now : Z) (clock : nat → Z)
    (text id : string) (w : World) :
  inSync w →
  inSync (saveAsPreset now w)
  ∧ inSync (deletePreset id w)
  ∧ inSync (deleteSelectedPresets w)
  ∧ inSync (handleFileUpload clock text w).
Proof.
  intros Hsync.
  assert (Hsave : ∀ ps w', inSync (savePresetsToStorage ps w')).
  { intros ps w'. unfold inSync, savePresetsToStorage.
    cbn [presets localStorage setLocalStorage setPresets].
    by rewrite lookup_insert_eq. }
  split_and!.
  - unfold saveAsPreset. destruct (negb _ || negb _ || negb _); [done |].
    apply (Hsave _ w).
  - apply Hsave.
  - apply (Hsave _ w).
  - unfold handleFileUpload.
    destruct (JSON_parse_file text) as [[| | | | items |] |]; try done.
    destruct (importItems clock 0 items []); [| done].
    case_bool_decide; [apply (Hsave _ w) | done].
Qed.

Lemma store_stays_in_sync_witness :
  let w := @savePresetsToStorage FixtureRest.browser [FixtureRest.savedPreset]
             (initial ∅) in
  @inSync FixtureRest.browser
    (@handleFileUpload Fixture.runtime FixtureRest.browser (λ _, 7200000%Z) "not json" w)
  ∧ @inSync FixtureRest.browser (@deletePreset FixtureRest.browser "7200000" w).
Proof.
  intros w.
  destruct (@store_stays_in_sync Fixture.runtime FixtureRest.browser 7200000
              (λ _, 7200000%Z) "not json" "7200000" w) as (_ & Hdel & _ & Hup);
    [reflexivity |].
  by split.
Defined.

(** X26.  [saveAsPreset] saves nothing when an address, user name or
    password is missing.  Otherwise it appends one preset made of the form,
    under the clock's reading as id, leaving the selection and the form as
    they are; filling the form from that preset gives the form back, with a
    missing api version read as v2.0. *)
Theorem saveAsPreset_effect `{Browser} (now : Z) (w : World) :
  (¬ filled (newCluster w) →
     saveAsPreset now w
     = setErrorMsg (Some "All fields are required to save a preset.") w)
  ∧ (filled (newCluster w) →
     ∃ p, presets (saveAsPreset now w) = presets w ++ [p]
          ∧ Preset.id p = pretty now
          ∧ Preset.apiVersion p = Form.apiVersion (newCluster w)
          ∧ errorMsg (saveAsPreset now w) = None
          ∧ selectedPresets (saveAsPreset now w) = selectedPresets w
          ∧ newCluster (saveAsPreset now w) = newCluster w
          ∧ Form.ip (newCluster (fillFromPreset p w)) = Form.ip (newCluster w)
          ∧ Form.username (newCluster (fillFromPreset p w))
            = Form.username (newCluster w)
          ∧ Form.password (newCluster (fillFromPreset p w))
            = Form.password (newCluster w)
          ∧ Form.type (newCluster (fillFromPreset p w)) = Form.type (newCluster w)
          ∧ Form.apiVersion (newCluster (fillFromPreset p w))
            = Some (default V2_0 (Form.apiVersion (newCluster w)))).
Proof.
  unfold saveAsPreset, filled, Js.truthyStr. split.
  - intros Hnot.
    destruct (negb (negb (String.eqb (Form.ip (newCluster w)) ""))
              || negb (negb (String.eqb (Form.username (newCluster w)) ""))
              || negb (negb (String.eqb (Form.password (newCluster w)) "")))
      eqn:Hempty; [done |].
    exfalso. apply Hnot.
    apply orb_false_iff in Hempty as [Hempty Hpass].
    apply orb_false_iff in Hempty as [Hip Huser].
    rewrite !negb_involutive in *.
    by apply String.eqb_neq in Hip, Huser, Hpass.
  - intros (Hip & Huser & Hpass).
    apply String.eqb_neq in Hip, Huser, Hpass. rewrite Hip, Huser, Hpass. simpl.
    eexists. by split_and!.
Qed.

Lemma saveAsPreset_effect_witness :
  presets (@saveAsPreset FixtureRest.browser 7200000 (formFor "")) = []
  ∧ (Preset.ip <$> presets (@saveAsPreset FixtureRest.browser 7200000
                              (formFor "10.0.0.5"))) = ["10.0.0.5"].
Proof.
  destruct (@saveAsPreset_effect FixtureRest.browser 7200000 (formFor ""))
    as [Hnone _].
  destruct (@saveAsPreset_effect FixtureRest.browser 7200000 (formFor "10.0.0.5"))
    as [_ Hsaved].
  destruct Hsaved as (p & Hp & _); [by split_and! |].
  split.
  - rewrite Hnone; [reflexivity |]. intros (Hip & _). by apply Hip.
  - reflexivity.
Defined.

End StoreInvariant.

Section SelectionOps.
Import ClusterManager ClusterManagerRest.

(** X27.  Ticking: [togglePresetSelection] flips the one id and no other,
    twice it restores the selection; after [selectAllPresets] every preset
    is a candidate of the batch, after [deselectAllPresets] none is. *)
Theorem preset_selection (id : string) (w : World) :
  (id ∈ selectedPresets (togglePresetSelection id w) ↔ id ∉ selectedPresets w)
  ∧ (∀ other, other ≠ id →
       (other ∈ selectedPresets (togglePresetSelection id w)
        ↔ other ∈ selectedPresets w))
  ∧ selectedPresets (togglePresetSelection id (togglePresetSelection id w))
    = selectedPresets w
  ∧ selectedPresetsList (selectAllPresets w) = presets w
  ∧ selectedPresetsList (deselectAllPresets w) = []
  ∧ presets (togglePresetSelection id w) = presets w.
Proof.
  assert (Hflip : ∀ w', id ∈ selectedPresets (togglePresetSelection id w')
                        ↔ id ∉ selectedPresets w').
  { intros w'. unfold togglePresetSelection; simpl. case_bool_decide as Hin.
    - split; [intros []%toggled_out | done].
    - split; [done | intros _; apply toggled_in]. }
  assert (Hother : ∀ w' other, other ≠ id →
            (other ∈ selectedPresets (togglePresetSelection id w')
             ↔ other ∈ selectedPresets w')).
  { intros w' other Hne. unfold togglePresetSelection; simpl. case_bool_decide.
    - rewrite elem_of_difference, elem_of_singleton. tauto.
    - rewrite elem_of_union, elem_of_singleton. tauto. }
  split_and!; [apply Hflip | apply Hother | | | | done].
  - apply set_eq. intros x. destruct (decide (x = id)) as [-> | Hne].
    + rewrite Hflip, Hflip. destruct (decide (id ∈ selectedPresets w)); tauto.
    + by rewrite !Hother.
  - unfold selectedPresetsList, selectAllPresets.
    cbn [presets selectedPresets setSelectedPresets].
    assert (Hall : ∀ l ps : list Preset.t,
              ps ⊆ l →
              filter (λ p, Preset.id p ∈ (list_to_set (Preset.id <$> l) : gset string)) ps
              = ps).
    { intros l ps Hsub. induction ps as [| p ps IH]; [done |].
      rewrite filter_cons_True.
      - rewrite IH; [done |]. intros x Hx. apply Hsub. by right.
      - apply elem_of_list_to_set, list_elem_of_fmap. exists p.
        split; [done |]. apply Hsub. by left. }
    by apply Hall.
  - unfold selectedPresetsList, deselectAllPresets.
    cbn [presets selectedPresets setSelectedPresets].
    induction (presets w) as [| p ps IH]; [done |].
    by rewrite filter_cons_False by apply not_elem_of_empty.
Qed.

Lemma preset_selection_witness :
  ("2" ∉ selectedPresets (togglePresetSelection "2" threeSelected))
  ∧ ("1" ∈ selectedPresets (togglePresetSelection "2" threeSelected))
  ∧ selectedPresetsList threeSelected = presets threeSelected.
Proof.
  destruct (preset_selection "2" threeSelected) as (Hflip & Hother & _).
  destruct (preset_selection "2" (setSelectedPresets ∅ threeSelected))
    as (_ & _ & _ & Hall & _).
  split_and!.
  - intros Hin. apply Hflip in Hin. apply Hin. compute_done.
  - apply Hother; [discriminate | compute_done].
  - exact Hall.
Defined.

(** X28.  Filling the form from a preset and connecting it alone: a preset
    of api version v4.0 meets the gate, with the alert and no call to the
    service; any other preset with its three fields is handed to the
    service once, as v2.0, with the preset's address and credentials. *)
Theorem fillFromPreset_then_connect `{Platform} (now : Z) (preset : Preset.t)
    (w : World) :
  size (selectedPresets w) < 2 →
  Preset.ip preset ≠ "" → Preset.username preset ≠ "" → Preset.password preset ≠ "" →
  (Preset.apiVersion preset = Some V4_0 →
     verifyCalls (log (handleAddCluster now (fillFromPreset preset w)))
       = verifyCalls (log w)
     ∧ alerts (log (handleAddCluster now (fillFromPreset preset w)))
       = alerts (log w) ++ ["We are planning to update."]
     ∧ clusters (handleAddCluster now (fillFromPreset preset w)) = clusters w)
  ∧ (Preset.apiVersion preset ≠ Some V4_0 →
     ∃ c, verifyCalls (log (handleAddCluster now (fillFromPreset preset w)))
            = verifyCalls (log w) ++ [c]
          ∧ ClusterConfig.ip c = Preset.ip preset
          ∧ ClusterConfig.username c = Preset.username preset
          ∧ ClusterConfig.password c = Preset.password preset
          ∧ ClusterConfig.type c = Preset.type preset
          ∧ ClusterConfig.apiVersion c = V2_0
          ∧ ClusterConfig.id c = pretty now).
Proof.
  intros Hsize Hip Huser Hpass.
  assert (Hsize' : size (selectedPresets (fillFromPreset preset w)) < 2) by done.
  assert (Hfilled : filled (newCluster (fillFromPreset preset w))) by done.
  split.
  - intros Hv4. unfold handleAddCluster.
    rewrite bool_decide_eq_false_2 by lia.
    unfold Js.truthyStr. cbn [newCluster fillFromPreset setNewCluster Form.ip
      Form.username Form.password Form.apiVersion].
    apply String.eqb_neq in Hip, Huser, Hpass. rewrite Hip, Huser, Hpass, Hv4. simpl.
    rewrite verifyCalls_app, alerts_app. simpl. by rewrite app_nil_r.
  - intros Hv4.
    rewrite (handleAddCluster_attempt now _ Hsize' Hfilled).
    + exists (clusterOfForm (pretty now) (newCluster (fillFromPreset preset w))).
      split_and!; try done.
      * destruct (verifyClusterConnection _); simpl;
          rewrite !verifyCalls_app; simpl; by rewrite ?app_nil_r.
      * simpl. by destruct (Preset.apiVersion preset) as [[] |].
    + simpl. by destruct (Preset.apiVersion preset) as [[] |].
Qed.

Lemma fillFromPreset_then_connect_witness :
  alerts (log (@handleAddCluster Fixture.platform 7200000
                 (fillFromPreset (presetAt "3" "10.0.0.3" (Some V4_0)) (initial ∅))))
    = ["We are planning to update."]
  ∧ (ClusterConfig.ip
       <$> verifyCalls
             (log (@handleAddCluster Fixture.platform 7200000
                     (fillFromPreset (presetAt "2" "10.0.0.2" None) (initial ∅)))))
    = ["10.0.0.2"].
Proof.
  destruct (@fillFromPreset_then_connect Fixture.platform 7200000
              (presetAt "3" "10.0.0.3" (Some V4_0)) (initial ∅)) as [Hgate _];
    [vm_compute; lia | discriminate | discriminate | discriminate |].
  destruct Hgate as (_ & Halert & _); [reflexivity |].
  destruct (@fillFromPreset_then_connect Fixture.platform 7200000
              (presetAt "2" "10.0.0.2" None) (initial ∅)) as [_ Hcall];
    [vm_compute; lia | discriminate | discriminate | discriminate |].
  destruct Hcall as (c & Hc & Hip & _); [discriminate |].
  split.
  - rewrite Halert. reflexivity.
  - rewrite Hc. simpl. by rewrite Hip.
Defined.

End SelectionOps.
